(** * CoverLetterGenerator: the payment session workflow

    A shallow embedding of [src/utils/payment_handler.py] (class
    [PaymentProcessor]) and of the payment gate of [src/main.py]
    (function [main]), followed by the properties of the payment
    workflow stated over them.

    Python code is embedded as state-passing functions: a computation
    takes the current state and gives back a result, which is a value
    or a raised exception, together with the state it leaves behind.
    Side effects made before an exception is raised stay in the state,
    as in Python.

    Stripe, Supabase, OpenAI, python-docx and the resume parser are
    services whose answers are not fixed here: every statement holds
    whatever they answer.  Time is a rational number of seconds, so
    the rounding of Python's floats is left out.  A [str] is kept as
    the bytes of its UTF-8 encoding; [len], [strip] and slices work on
    its characters.  [main] is taken with a [PaymentProcessor] already
    built. *)

From Stdlib Require Import String Ascii List Bool Arith ZArith QArith Qminmax Lia Lqa.
Import ListNotations.

Local Close Scope Q_scope.
Local Open Scope list_scope.
Local Open Scope string_scope.

(** ** Python values, exceptions and the computation monad *)

Module Py.

(** The exception classes the code raises, catches or lets through. *)
Inductive exn : Type :=
| StripeError (msg : string)                  (* stripe.error.StripeError, any subclass but the next *)
| SignatureVerificationError (msg : string)   (* a subclass of StripeError *)
| RetryError (last : exn)                     (* tenacity.RetryError, wraps the last failure *)
| KeyError (key : string)
| AttributeError (msg : string)
| AuthenticationError (msg : string)          (* openai *)
| RateLimitError (msg : string)               (* openai *)
| APIError (msg : string)                     (* openai *)
| PyException (msg : string).                 (* any other subclass of Exception *)

(** [isinstance(e, stripe.error.StripeError)] *)
Definition is_StripeError (e : exn) : bool :=
  match e with
  | StripeError _ | SignatureVerificationError _ => true
  | _ => false
  end.

(** [isinstance(e, stripe.error.SignatureVerificationError)] *)
Definition is_SignatureVerificationError (e : exn) : bool :=
  match e with
  | SignatureVerificationError _ => true
  | _ => false
  end.

(** [str(e)].  The text of tenacity's [RetryError] is
    [RetryError[<Future at 0x... state=finished raised ...>]]: it
    shows the [repr()] of the Future that holds the last attempt,
    address included, which [future_repr] gives. *)
Definition exn_str (future_repr : exn -> string) (e : exn) : string :=
  match e with
  | StripeError m | SignatureVerificationError m | AttributeError m
  | AuthenticationError m | RateLimitError m | APIError m | PyException m => m
  | KeyError k => "'" ++ k ++ "'"
  | RetryError last => "RetryError[" ++ future_repr last ++ "]"
  end.

Inductive result (E A : Type) : Type :=
| Ok (a : A)
| Raise (e : E).
Arguments Ok {E A} a.
Arguments Raise {E A} e.

(** A computation over a state [S] that may raise an [E]. *)
Definition M (E S A : Type) : Type := S -> result E A * S.

Definition ret {E S A} (a : A) : M E S A := fun s => (Ok a, s).

Definition bind {E S A B} (c : M E S A) (k : A -> M E S B) : M E S B :=
  fun s =>
    match c s with
    | (Ok a, s') => k a s'
    | (Raise e, s') => (Raise e, s')
    end.

Definition raise {E S A} (e : E) : M E S A := fun s => (Raise e, s).

(** [try: body / except <class matched by handles>: handler] *)
Definition try_except {E S A} (body : M E S A) (handles : E -> bool)
           (handler : E -> M E S A) : M E S A :=
  fun s =>
    match body s with
    | (Ok a, s') => (Ok a, s')
    | (Raise e, s') => if handles e then handler e s' else (Raise e, s')
    end.

(** [d[key]] on a dict whose entry for [key] is [v]; [None] is a missing key. *)
Definition getitem {S A} (key : string) (v : option A) : M exn S A :=
  match v with
  | Some a => ret a
  | None => raise (KeyError key)
  end.

(** [not s] on a [str] *)
Definition falsy (s : string) : bool :=
  match s with
  | EmptyString => true
  | _ => false
  end.

End Py.
Import Py.

Declare Scope py_scope.
Delimit Scope py_scope with py.
Notation "x <- c ;; k" := (bind c (fun x => k))
  (at level 61, c at next level, right associativity) : py_scope.
Notation "c ;; k" := (bind c (fun _ => k))
  (at level 61, right associativity) : py_scope.
Local Open Scope py_scope.

(** ** The world the program runs in *)

(** A Stripe Checkout session as the client library returns it. *)
Record CheckoutSession : Type := mkCheckoutSession {
  cs_id : string;
  cs_url : string;
  cs_payment_status : string;
  cs_to_dict : string          (* [session.to_dict()], kept opaque *)
}.

(** [event['data']['object']]: a field is [None] when the key is missing. *)
Record StripeObject : Type := mkStripeObject {
  so_id : option string;
  so_payment_status : option string
}.

Record Event : Type := mkEvent {
  ev_type : string;
  ev_object : StripeObject
}.

(** A row of the Supabase table [payments]. *)
Record Row : Type := mkRow {
  user_id : string;
  session_id : string;
  status : string;
  created_at : string;
  updated_at : option string;
  stripe_data : option string
}.

(** The dict given to [.update(...)]: the columns it assigns. *)
Record Patch : Type := mkPatch {
  p_status : option string;
  p_updated_at : option string;
  p_stripe_data : option string;
  p_session_id : option string
}.

Inductive TableOp : Type :=
| Insert (r : Row)                              (* .insert(r) *)
| Update (p : Patch) (eq_session_id : string).  (* .update(p).eq('session_id', v) *)

Record CreateArgs : Type := mkCreateArgs {
  unit_amount : Z;
  currency : string;
  success_url : string;
  metadata_user_id : string
}.

Record UploadedFile : Type := mkUploadedFile {
  file_type : string;
  file_name : string
}.

(** What the user sees: the Streamlit calls that render something. *)
Inductive UiEvent : Type :=
| UiTitle (s : string)
| UiError (s : string)
| UiStatus (label : string)
| UiWrite (s : string)
| UiMarkdown (s : string)
| UiProgress (percent : nat)
| UiSuccess (s : string)
| UiPreview (s : string)
| UiDownload (data : string).

(** The calls made to the outside, in order, each with what came back. *)
Inductive Call : Type :=
| CallSessionCreate (a : CreateArgs) (r : result exn CheckoutSession)
| CallSessionRetrieve (sid : string) (r : result exn CheckoutSession)
| CallConstructEvent (payload sig_header : string) (r : result exn Event)
| CallExecute (op : TableOp) (r : option exn)
| CallSleep (seconds : Q)
| CallExtractText (f : UploadedFile) (r : option string)
| CallChatCompletion (user_message : string) (r : list string * option exn).

Record World : Type := mkWorld {
  clock : Q;                 (* [time.time()], in seconds *)
  payments : list Row;       (* the table [payments] *)
  stdout : list string;      (* what [print] wrote *)
  ui : list UiEvent;         (* what Streamlit rendered *)
  calls : list Call          (* history of the calls to the outside *)
}.

(** The services the program talks to.  Each answer may depend on the
    whole history of calls so far, so that a service may fail once and
    succeed when called again. *)
Record Env : Type := mkEnv {
  Session_create : list Call -> CreateArgs -> result exn CheckoutSession;
  Session_retrieve : list Call -> string -> result exn CheckoutSession;
  construct_event : list Call -> string -> string -> option string -> result exn Event;
  supabase_execute : list Call -> TableOp -> option exn;   (* [None]: the request went through *)
  extract_text : list Call -> UploadedFile -> option string * list UiEvent;
  chat_completion : list Call -> string -> list string * option exn;
  strftime : Q -> string;        (* time.strftime('%Y-%m-%d %H:%M:%S') *)
  isoformat : Q -> string;       (* datetime.isoformat() *)
  timestamp_str : Q -> string;   (* str(datetime.timestamp()) *)
  docx_document : string -> result exn string;
      (* the document python-docx saves for a paragraph, or what it raises *)
  future_repr : exn -> string
      (* repr() of the Future in which tenacity keeps a failed attempt *)
}.

(** [str(e)] *)
Definition str (env : Env) (e : exn) : string := exn_str (future_repr env) e.

Definition set_clock (t : Q) (w : World) : World :=
  mkWorld t (payments w) (stdout w) (ui w) (calls w).
Definition set_payments (p : list Row) (w : World) : World :=
  mkWorld (clock w) p (stdout w) (ui w) (calls w).
Definition add_stdout (line : string) (w : World) : World :=
  mkWorld (clock w) (payments w) (stdout w ++ [line])%list (ui w) (calls w).
Definition add_ui (e : UiEvent) (w : World) : World :=
  mkWorld (clock w) (payments w) (stdout w) (ui w ++ [e])%list (calls w).
Definition add_call (c : Call) (w : World) : World :=
  mkWorld (clock w) (payments w) (stdout w) (ui w) (calls w ++ [c])%list.

Definition print (line : string) : M exn World unit :=
  fun w => (Ok tt, add_stdout line w).

Definition time_time : M exn World Q :=
  fun w => (Ok (clock w), w).

(** [time.sleep(seconds)] *)
Definition sleep (seconds : Q) : M exn World unit :=
  fun w => (Ok tt, add_call (CallSleep seconds) (set_clock (clock w + seconds)%Q w)).

(** ** The ledger: the table [payments] *)

Module Ledger.

Definition override {A} (new : option A) (old : A) : A :=
  match new with
  | Some a => a
  | None => old
  end.

Definition override_opt {A} (new : option A) (old : option A) : option A :=
  match new with
  | Some a => Some a
  | None => old
  end.

Definition apply_patch (p : Patch) (r : Row) : Row :=
  mkRow (user_id r)
        (override (p_session_id p) (session_id r))
        (override (p_status p) (status r))
        (created_at r)
        (override_opt (p_updated_at p) (updated_at r))
        (override_opt (p_stripe_data p) (stripe_data r)).

(** [.update(p).eq('session_id', sid)]: every row with that session
    id gets the columns of [p]; nothing about the row's current
    status is looked at. *)
Definition update_rows (p : Patch) (sid : string) (rows : list Row) : list Row :=
  map (fun r => if String.eqb (session_id r) sid then apply_patch p r else r) rows.

Definition apply_op (op : TableOp) (rows : list Row) : list Row :=
  match op with
  | Insert r => (rows ++ [r])%list
  | Update p sid => update_rows p sid rows
  end.

(** The statuses stored for a session id. *)
Definition statuses (sid : string) (rows : list Row) : list string :=
  map status (filter (fun r => String.eqb (session_id r) sid) rows).

End Ledger.

(** ** tenacity's [retry] decorator *)

Module Tenacity.

(** [wait_exponential(multiplier, max)] with the defaults [exp_base=2],
    [min=0]: the wait after attempt number [attempt_number] failed. *)
Definition wait_exponential (multiplier max : Z) (attempt_number : nat) : Z :=
  Z.max 0 (Z.min (multiplier * 2 ^ (Z.of_nat attempt_number - 1)) max).

(** Attempt number [attempt_number] of [f], with [more] attempts left
    after it.  A value is returned as it is; an exception ends the
    loop with [RetryError] when no attempt is left, and otherwise
    sleeps and tries again. *)
Fixpoint attempts {A} (wait : nat -> Z) (more attempt_number : nat)
         (f : M exn World A) : M exn World A :=
  fun w =>
    match f w with
    | (Ok a, w') => (Ok a, w')
    | (Raise e, w') =>
        match more with
        | O => (Raise (RetryError e), w')
        | S more' =>
            attempts wait more' (S attempt_number) f
                     (snd (sleep (inject_Z (wait attempt_number)) w'))
        end
    end.

(** [@retry(stop=stop_after_attempt(n), wait=wait)] *)
Definition retry {A} (stop_after_attempt : nat) (wait : nat -> Z)
           (f : M exn World A) : M exn World A :=
  attempts wait (stop_after_attempt - 1) 1 f.

End Tenacity.

(** ** [utils/payment_handler.py]: class [PaymentProcessor] *)

Record PaymentProcessor : Type := mkPaymentProcessor {
  stripe_success_url : string;
  stripe_webhook_secret : option string
}.

Section PaymentHandler.

Variable env : Env.
Variable self : PaymentProcessor.

(** [self.supabase.table('payments').<op>.execute()] *)
Definition execute (op : TableOp) : M exn World unit :=
  fun w =>
    let r := supabase_execute env (calls w) op in
    let w1 := add_call (CallExecute op r) w in
    match r with
    | Some e => (Raise e, w1)
    | None => (Ok tt, set_payments (Ledger.apply_op op (payments w)) w1)
    end.

(** [stripe.checkout.Session.create(...)] *)
Definition stripe_Session_create (a : CreateArgs) : M exn World CheckoutSession :=
  fun w =>
    let r := Session_create env (calls w) a in
    (r, add_call (CallSessionCreate a r) w).

(** [stripe.checkout.Session.retrieve(session_id, expand=[...])] *)
Definition stripe_Session_retrieve (sid : string) : M exn World CheckoutSession :=
  fun w =>
    let r := Session_retrieve env (calls w) sid in
    (r, add_call (CallSessionRetrieve sid r) w).

(** [stripe.Webhook.construct_event(payload, sig_header, secret)] *)
Definition stripe_construct_event (payload sig_header : string) : M exn World Event :=
  fun w =>
    let r := construct_event env (calls w) payload sig_header (stripe_webhook_secret self) in
    (r, add_call (CallConstructEvent payload sig_header r) w).

(** The body of [log_transaction], under its decorator. *)
Definition log_transaction_body (uid sid : string) : M exn World unit :=
  now <- time_time ;;
  execute (Insert (mkRow uid sid "pending" (strftime env now) None None)).

Definition log_transaction (uid sid : string) : M exn World unit :=
  Tenacity.retry 3 (Tenacity.wait_exponential 1 5) (log_transaction_body uid sid).

Definition create_args (uid : string) : CreateArgs :=
  mkCreateArgs 100 "usd"
               (stripe_success_url self
                  ++ "?payment_success=true&session_id={CHECKOUT_SESSION_ID}")
               uid.

(** The body of [create_payment_session], under its decorator. *)
Definition create_payment_session_body (uid : string) : M exn World (option string) :=
  try_except
    (session <- stripe_Session_create (create_args uid) ;;
     log_transaction uid (cs_id session) ;;
     ret (Some (cs_url session)))
    is_StripeError
    (fun e => print ("Payment failed: " ++ str env e) ;; ret None).

Definition create_payment_session (uid : string) : M exn World (option string) :=
  Tenacity.retry 3 (Tenacity.wait_exponential 1 10) (create_payment_session_body uid).

Definition check_payment_status (sid : string) : M exn World string :=
  try_except
    (session <- stripe_Session_retrieve sid ;;
     now <- time_time ;;
     execute (Update (mkPatch (Some (cs_payment_status session))
                              (Some (strftime env now))
                              (Some (cs_to_dict session))
                              None)
                     sid) ;;
     ret (cs_payment_status session))
    is_StripeError
    (fun e => print ("Payment status check failed: " ++ str env e) ;; ret "error").

(** The body of [if event['type'] == 'checkout.session.completed':]. *)
Definition webhook_update (event : Event) : M exn World unit :=
  let session := ev_object event in
  payment_status <- getitem "payment_status" (so_payment_status session) ;;
  now <- time_time ;;
  let new_id :=
    match so_id session with
    | Some i => if falsy i then "local_" ++ timestamp_str env now else i
    | None => "local_" ++ timestamp_str env now
    end in
  id <- getitem "id" (so_id session) ;;
  execute (Update (mkPatch (Some payment_status)
                           (Some (isoformat env now))
                           None
                           (Some new_id))
                  id).

(** The body of [verify_webhook], under its decorator. *)
Definition verify_webhook_body (payload sig_header : string) : M exn World (option Event) :=
  try_except
    (event <- stripe_construct_event payload sig_header ;;
     (if String.eqb (ev_type event) "checkout.session.completed"
      then webhook_update event
      else ret tt) ;;
     ret (Some event))
    is_SignatureVerificationError
    (fun e => print ("Webhook verification failed: " ++ str env e) ;; ret None).

Definition verify_webhook (payload sig_header : string) : M exn World (option Event) :=
  Tenacity.retry 3 (Tenacity.wait_exponential 1 10) (verify_webhook_body payload sig_header).

End PaymentHandler.

(** ** Python string methods used by [main.py] *)

Module Str.

(** A [str] is kept as the bytes of its UTF-8 encoding.  A character
    is a byte that is not of the form [10xxxxxx], followed by the
    bytes of that form that belong to it. *)
Definition is_continuation (c : ascii) : bool :=
  let n := nat_of_ascii c in
  (128 <=? n)%nat && (n <=? 191)%nat.

(** [len(s)]: the number of characters. *)
Fixpoint len (s : string) : nat :=
  match s with
  | EmptyString => 0%nat
  | String c s' => if is_continuation c then len s' else S (len s')
  end.

(** [s[:n]]: the first [n] characters. *)
Fixpoint slice_to (n : nat) (s : string) : string :=
  match s with
  | EmptyString => EmptyString
  | String c s' =>
      if is_continuation c then String c (slice_to n s')
      else
        match n with
        | O => EmptyString
        | S k => String c (slice_to k s')
        end
  end.

Definition utf8 (bytes : list nat) : string :=
  string_of_list_ascii (map ascii_of_nat bytes).

(** The characters for which [str.isspace()] holds, the ones
    [str.strip()] removes: U+0009 to U+000D, U+001C to U+0020,
    U+0085, U+00A0, U+1680, U+2000 to U+200A, U+2028, U+2029, U+202F,
    U+205F and U+3000. *)
Definition white_space : list string :=
  map utf8
      [[9]; [10]; [11]; [12]; [13]; [28]; [29]; [30]; [31]; [32];
       [194; 133]; [194; 160]; [225; 154; 128];
       [226; 128; 128]; [226; 128; 129]; [226; 128; 130]; [226; 128; 131];
       [226; 128; 132]; [226; 128; 133]; [226; 128; 134]; [226; 128; 135];
       [226; 128; 136]; [226; 128; 137]; [226; 128; 138];
       [226; 128; 168]; [226; 128; 169]; [226; 128; 175];
       [226; 129; 159]; [227; 128; 128]]%nat.

(** [s] after [p], when [s] starts with [p]. *)
Fixpoint after (p s : string) : option string :=
  match p with
  | EmptyString => Some s
  | String a p' =>
      match s with
      | EmptyString => None
      | String b s' => if Ascii.eqb a b then after p' s' else None
      end
  end.

(** [s] after the first of [chars] it starts with. *)
Fixpoint after_any (chars : list string) (s : string) : option string :=
  match chars with
  | [] => None
  | p :: rest =>
      match after p s with
      | Some s' => Some s'
      | None => after_any rest s
      end
  end.

(** [s] without the characters of [chars] it starts with; [fuel]
    bounds their number. *)
Fixpoint lstrip_fuel (chars : list string) (fuel : nat) (s : string) : string :=
  match fuel with
  | O => s
  | S k =>
      match after_any chars s with
      | Some s' => lstrip_fuel chars k s'
      | None => s
      end
  end.

Definition lstrip_of (chars : list string) (s : string) : string :=
  lstrip_fuel chars (String.length s) s.

Definition reverse (s : string) : string :=
  string_of_list_ascii (rev (list_ascii_of_string s)).

(** [s.strip()] *)
Definition strip (s : string) : string :=
  reverse (lstrip_of (map reverse white_space) (reverse (lstrip_of white_space s))).

(** [s.split(sep)] for a non-empty [sep]: [cur] holds, reversed, the
    piece being read, and [skip] the characters of a separator still
    to be passed over. *)
Fixpoint split_aux (sep : string) (skip : nat) (cur : list ascii) (s : string)
  : list string :=
  match s with
  | EmptyString => [string_of_list_ascii (rev cur)]
  | String c s' =>
      match skip with
      | S k => split_aux sep k cur s'
      | O =>
          if String.prefix sep s
          then string_of_list_ascii (rev cur)
                 :: split_aux sep (String.length sep - 1) [] s'
          else split_aux sep 0 (c :: cur) s'
      end
  end.

Definition split (s sep : string) : list string := split_aux sep 0 [] s.

(** [l[-1]] and [l[0]] on the never empty result of [split]. *)
Definition last_piece (l : list string) : string := List.last l "".
Definition first_piece (l : list string) : string := List.hd "" l.

(** [sep.join(l)] *)
Definition join (sep : string) (l : list string) : string := String.concat sep l.

(** [x in l] *)
Definition mem (x : string) (l : list string) : bool := existsb (String.eqb x) l.

End Str.

(** ** [main.py]: function [main] *)

(** How control leaves a piece of [main] other than by falling through.
    Streamlit's [st.stop()] and [st.rerun()] raise exceptions that are
    not subclasses of [Exception], so [except Exception] lets them go. *)
Inductive signal : Type :=
| Exception (e : exn)
| StopException          (* st.stop() *)
| RerunException         (* st.rerun() *)
| ReturnNone.            (* a [return] statement of [main] *)

(** The dict [st.session_state.payment_state].  A field at [None] is a
    key the dict does not have; the value [None] that a fresh dict
    holds under ['session_id'] is never read before [update] puts a
    string there, and is represented by the missing key. *)
Record PaymentState : Type := mkPaymentState {
  ps_status : string;
  ps_session_id : option string;
  ps_start_time : option Q;
  ps_retries : option nat
}.

(** [{'status': 'unpaid'}] *)
Definition unpaid_state : PaymentState := mkPaymentState "unpaid" None None None.

(** [st.session_state]: a field at [None] has not been set. *)
Record SessionState : Type := mkSessionState {
  payment_state : option PaymentState;
  payment_success : option bool;
  payment_session_id : option string;
  payment_url : option (option string)
}.

(** What one run of the script reads from the browser and the secrets file. *)
Record Inputs : Type := mkInputs {
  q_payment_success : option string;   (* st.query_params.get("payment_success") *)
  q_session_id : option string;        (* st.query_params.get("session_id") *)
  secrets : list string;               (* the names in st.secrets *)
  resume : option UploadedFile;
  job_desc : string;
  company_name : string;
  submitted : bool
}.

Record App : Type := mkApp {
  session_state : SessionState;
  world : World
}.

Definition set_payment_state (ps : PaymentState) (a : App) : App :=
  let s := session_state a in
  mkApp (mkSessionState (Some ps) (payment_success s) (payment_session_id s) (payment_url s))
        (world a).
Definition set_payment_success (b : bool) (a : App) : App :=
  let s := session_state a in
  mkApp (mkSessionState (payment_state s) (Some b) (payment_session_id s) (payment_url s))
        (world a).
Definition set_payment_session_id (sid : string) (a : App) : App :=
  let s := session_state a in
  mkApp (mkSessionState (payment_state s) (payment_success s) (Some sid) (payment_url s))
        (world a).
Definition set_payment_url (u : option string) (a : App) : App :=
  let s := session_state a in
  mkApp (mkSessionState (payment_state s) (payment_success s) (payment_session_id s) (Some u))
        (world a).
Definition set_world (w : World) (a : App) : App := mkApp (session_state a) w.

(** How a run of [main] ends. *)
Inductive Outcome : Type :=
| Returned
| Stopped
| Rerun
| Crashed (e : exn).

Section Main.

Variable env : Env.
Variable payment_processor : PaymentProcessor.

Definition Script (A : Type) : Type := M signal App A.

Definition update_app (f : App -> App) : Script unit := fun a => (Ok tt, f a).

(** A method of [payment_processor], or any call that works on the world alone. *)
Definition call {A} (c : M exn World A) : Script A :=
  fun a =>
    match c (world a) with
    | (Ok x, w') => (Ok x, set_world w' a)
    | (Raise e, w') => (Raise (Exception e), set_world w' a)
    end.

Definition render (e : UiEvent) : Script unit :=
  update_app (fun a => set_world (add_ui e (world a)) a).

Definition st_error (msg : string) : Script unit := render (UiError msg).
Definition st_stop {A} : Script A := raise StopException.
Definition st_rerun {A} : Script A := raise RerunException.
Definition return_ {A} : Script A := raise ReturnNone.

(** [try: body / except Exception as e: handler] *)
Definition except_Exception {A} (body : Script A) (handler : exn -> Script A) : Script A :=
  fun a =>
    match body a with
    | (Raise (Exception e), a') => handler e a'
    | other => other
    end.

(** [st.session_state.payment_state] *)
Definition get_payment_state : Script PaymentState :=
  fun a =>
    match payment_state (session_state a) with
    | Some ps => (Ok ps, a)
    | None => (Raise (Exception (AttributeError "st.session_state has no attribute payment_state")), a)
    end.

(** [d[key]] inside [main] *)
Definition item {A} (key : string) (v : option A) : Script A :=
  match v with
  | Some x => ret x
  | None => raise (Exception (KeyError key))
  end.

(** [payment_url.split("/pay/")[-1].split("#")[0]] *)
Definition session_id_of_url (payment_url : string) : string :=
  Str.first_piece (Str.split (Str.last_piece (Str.split payment_url "/pay/")) "#").

(** What [payment_url.split] raises when [create_payment_session] returned [None]. *)
Definition split_on_None {A} : Script A :=
  raise (Exception (AttributeError "'NoneType' object has no attribute 'split'")).

(** Lines 61-74: the return from Stripe's checkout page. *)
Definition payment_callback (i : Inputs) : Script unit :=
  match q_payment_success i with
  | Some v =>
      if String.eqb v "true" then
        match q_session_id i with
        | Some sid =>
            if falsy sid then ret tt
            else
              except_Exception
                (payment_status <- call (check_payment_status env sid) ;;
                 if String.eqb payment_status "paid" then
                   update_app (set_payment_success true) ;;
                   update_app (set_payment_session_id sid) ;;
                   st_rerun
                 else st_error ("Payment verification failed: " ++ payment_status))
                (fun e => st_error ("Payment verification error: " ++ str env e))
        | None => ret tt
        end
      else ret tt
  | None => ret tt
  end.

Definition required_secrets : list string :=
  ["OPENAI_API_KEY"; "SUPABASE_URL"; "SUPABASE_KEY"; "STRIPE_SECRET_KEY"].

(** Lines 79-83. *)
Definition check_secrets (i : Inputs) : Script unit :=
  match filter (fun s => negb (Str.mem s (secrets i))) required_secrets with
  | [] => ret tt
  | missing =>
      st_error ("Missing required secrets: " ++ Str.join ", " missing) ;;
      st_stop
  end.

(** Lines 87-93. *)
Definition init_payment_state : Script unit :=
  fun a =>
    match payment_state (session_state a) with
    | Some _ => (Ok tt, a)
    | None =>
        (Ok tt,
         set_payment_state (mkPaymentState "unpaid" None (Some (clock (world a))) (Some 0%nat)) a)
    end.

(** Lines 112-129: one poll of a pending payment. *)
Definition poll_pending (ps : PaymentState) : Script unit :=
  except_Exception
    (sid <- item "session_id" (ps_session_id ps) ;;
     payment_status <- call (check_payment_status env sid) ;;
     if String.eqb payment_status "paid" then
       update_app (set_payment_state
                     (mkPaymentState "paid" (ps_session_id ps)
                                     (ps_start_time ps) (ps_retries ps))) ;;
       st_rerun
     else
       retries <- item "retries" (ps_retries ps) ;;
       update_app (set_payment_state
                     (mkPaymentState (ps_status ps) (ps_session_id ps)
                                     (ps_start_time ps) (Some (retries + 1)%nat))) ;;
       if (5 <=? retries + 1)%nat then
         st_error "Payment verification failed after 5 attempts" ;;
         update_app (set_payment_state unpaid_state)
       else
         call (sleep 2) ;;
         st_rerun)
    (fun e =>
       st_error ("Payment check failed: " ++ str env e) ;;
       update_app (set_payment_state unpaid_state)).

(** Lines 131-143: a new checkout session. *)
Definition start_payment (ps : PaymentState) : Script unit :=
  except_Exception
    (payment_url <- call (create_payment_session env payment_processor "user123") ;;
     match payment_url with
     | None => split_on_None
     | Some url =>
         now <- call time_time ;;
         update_app (set_payment_state
                       (mkPaymentState "pending" (Some (session_id_of_url url))
                                       (Some now) (ps_retries ps))) ;;
         render (UiStatus "Payment Required") ;;
         render (UiMarkdown ("Please [complete your payment](" ++ url ++ ")")) ;;
         st_stop
     end)
    (fun e =>
       st_error ("Payment initialization failed: " ++ str env e) ;;
       update_app (set_payment_state unpaid_state)).

(** Lines 102-143: the body of [with st.status("Processing Payment...")]. *)
Definition payment_flow : Script unit :=
  render (UiStatus "Processing Payment...") ;;
  ps <- get_payment_state ;;
  if String.eqb (ps_status ps) "paid" then
    render (UiStatus "Payment Verified")
  else if String.eqb (ps_status ps) "pending" then
    now <- call time_time ;;
    start_time <- item "start_time" (ps_start_time ps) ;;
    (if Qlt_le_dec 300 (now - start_time) then
       st_error "Payment timed out after 5 minutes" ;;
       update_app (set_payment_state unpaid_state) ;;
       st_stop
     else ret tt) ;;
    poll_pending ps
  else
    start_payment ps.

(** Lines 144-146. *)
Definition paid_gate : Script unit :=
  ps <- get_payment_state ;;
  if String.eqb (ps_status ps) "paid" then ret tt else return_.

(** [st.session_state.payment_success] *)
Definition get_payment_success : Script bool :=
  fun a =>
    match payment_success (session_state a) with
    | Some b => (Ok b, a)
    | None => (Raise (Exception (AttributeError "st.session_state has no attribute payment_success")), a)
    end.

Definition allowed_types : list string :=
  ["application/pdf";
   "application/vnd.openxmlformats-officedocument.wordprocessingml.document"].

(** Lines 149-168: the list [validation_errors]. *)
Definition validation_errors (i : Inputs) (paid : bool) : list string :=
  ((match resume i with
    | None => ["Please upload a resume file"]
    | Some f =>
        if Str.mem (file_type f) allowed_types then []
        else ["Invalid file type - only PDF/DOCX allowed"]
    end)
   ++ (if falsy (Str.strip (job_desc i)) then ["Job description cannot be empty"]
       else if (Str.len (Str.strip (job_desc i)) <? 50)%nat
            then ["Job description too short (min 50 characters)"]
            else [])
   ++ (if falsy (Str.strip (company_name i)) then ["Company name cannot be empty"] else [])
   ++ (if paid then []
       else ["Payment verification failed - please complete payment"]))%list.

Fixpoint render_all (l : list UiEvent) : Script unit :=
  match l with
  | [] => ret tt
  | e :: l' => render e ;; render_all l'
  end.

(** Lines 148-174. *)
Definition validate_inputs (i : Inputs) : Script unit :=
  paid <- get_payment_success ;;
  match validation_errors i paid with
  | [] => ret tt
  | errors =>
      render_all (map (fun e => UiError ("❌ " ++ e)) errors) ;;
      st_stop
  end.

(** Lines 176-198. *)
Definition payment_gateway : Script unit :=
  paid <- get_payment_success ;;
  if paid then ret tt
  else
    render (UiStatus "Payment Gateway") ;;
    render (UiWrite ":lock: Initializing secure payment session...") ;;
    except_Exception
      (payment_url <- call (create_payment_session env payment_processor "user123") ;;
       update_app (set_payment_url payment_url) ;;
       match payment_url with
       | None => split_on_None
       | Some url =>
           update_app (set_payment_session_id (session_id_of_url url)) ;;
           render (UiStatus "Payment Required") ;;
           render (UiMarkdown ("Please [complete your payment](" ++ url ++ ") to continue")) ;;
           return_
       end)
      (fun e =>
         st_error ("Payment initialization failed: " ++ str env e) ;;
         return_).

(** [extract_resume_text(resume)] of [utils/resume_parser.py]: the
    parsing of the file is left to [extract_text]; the function
    catches every exception, shows an error and returns [None]. *)
Definition extract_resume_text (uploaded_file : option UploadedFile)
  : Script (option string) :=
  match uploaded_file with
  | Some f =>
      fun a =>
        let w := world a in
        let '(text, shown) := extract_text env (calls w) f in
        (Ok text,
         set_world (add_call (CallExtractText f text)
                             (fold_left (fun w' e => add_ui e w') shown w)) a)
  | None =>
      st_error "Unexpected error processing file: 'NoneType' object has no attribute 'type'" ;;
      ret None
  end.

Definition nl : string := String (ascii_of_nat 10) "".

(** [openai_client.chat.completions.create(..., stream=True)] and the
    reading of the stream: the contents of the chunks that arrive,
    and the exception that ends the stream early, if any. *)
Definition chat_completions_create (resume_text jd company : string)
  : M exn World (list string * option exn) :=
  fun w =>
    let user_message :=
      "Resume:" ++ nl ++ resume_text ++ nl ++ nl
      ++ "Job Description:" ++ nl ++ jd ++ nl ++ nl
      ++ "Company: " ++ company in
    let r := chat_completion env (calls w) user_message in
    (Ok r, add_call (CallChatCompletion user_message r) w).

(** The [except] clauses of [generate_cover_letter]; the empty string
    they yield is dropped by the caller's [if chunk:]. *)
Definition stream_end (err : option exn) : Script unit :=
  match err with
  | None => ret tt
  | Some (AuthenticationError _) =>
      st_error "Invalid OpenAI API key. Please check your .env file"
  | Some (RateLimitError _) =>
      st_error "API rate limit exceeded. Please try again later"
  | Some (APIError m) => st_error ("API error: " ++ m)
  | Some e => raise (Exception e)
  end.

(** Lines 235-238: the loop over the chunks. *)
Fixpoint show_chunks (full_content chunks : list string) : Script (list string) :=
  match chunks with
  | [] => ret full_content
  | chunk :: rest =>
      if falsy chunk then show_chunks full_content rest
      else
        let full_content' := (full_content ++ [chunk])%list in
        render (UiMarkdown (Str.join "" full_content' ++ "▌")) ;;
        show_chunks full_content' rest
  end.

(** [create_docx(content)]: the buffer with the document saved in
    it, or the exception python-docx raised on the way. *)
Definition create_docx (content : string) : Script string :=
  fun a =>
    match docx_document env content with
    | Ok buffer => (Ok buffer, a)
    | Raise e => (Raise (Exception e), a)
    end.

(** Lines 205-212: step 1, resume parsing. *)
Definition parse_resume (i : Inputs) : Script string :=
  render (UiWrite ":page_facing_up: Parsing resume content...") ;;
  extracted <- extract_resume_text (resume i) ;;
  resume_text <-
    match extracted with
    | Some t =>
        if falsy t then st_error "Failed to extract text from resume" ;; return_
        else ret t
    | None => st_error "Failed to extract text from resume" ;; return_
    end ;;
  render (UiProgress 25) ;;
  ret resume_text.

(** Lines 214-228: step 2, payment verification. *)
Definition verify_payment : Script unit :=
  render (UiWrite ":credit_card: Verifying payment completion...") ;;
  a <- (fun a => (Ok a, a)) ;;
  sid <-
    match payment_session_id (session_state a) with
    | Some sid => ret sid
    | None => st_error "No payment session found" ;; st_stop
    end ;;
  payment_status <- call (check_payment_status env sid) ;;
  (if String.eqb payment_status "paid" then ret tt
   else
     st_error ("Payment status: " ++ payment_status ++ ". Please complete payment") ;;
     st_stop) ;;
  render (UiProgress 50).

(** Lines 230-270: steps 3 and 4, generation and delivery. *)
Definition generate_and_deliver (i : Inputs) (resume_text : string) : Script unit :=
  render (UiWrite ":brain: Generating cover letter with GPT-4...") ;;
  stream <- call (chat_completions_create resume_text (job_desc i) (company_name i)) ;;
  full_content <- show_chunks [] (fst stream) ;;
  stream_end (snd stream) ;;
  let cover_letter := Str.join "" full_content in
  (if falsy cover_letter then st_error "Failed to generate cover letter" ;; return_
   else ret tt) ;;
  render (UiProgress 75) ;;
  render (UiWrite ":floppy_disk: Creating downloadable document...") ;;
  doc_buffer <- create_docx cover_letter ;;
  render (UiProgress 100) ;;
  render (UiStatus "Generation Complete!") ;;
  render (UiSuccess "Cover letter created successfully") ;;
  render (UiPreview (Str.slice_to 500 cover_letter ++ "...")) ;;
  render (UiDownload doc_buffer).

(** Lines 200-273. *)
Definition generation_flow (i : Inputs) : Script unit :=
  render (UiStatus "Generating Cover Letter...") ;;
  render (UiProgress 0) ;;
  except_Exception
    (resume_text <- parse_resume i ;;
     verify_payment ;;
     generate_and_deliver i resume_text)
    (fun e => st_error ("Generation failed: " ++ str env e)).

Definition main_body (i : Inputs) : Script unit :=
  payment_callback i ;;
  render (UiTitle "AI Cover Letter Generator") ;;
  check_secrets i ;;
  init_payment_state ;;
  if submitted i then
    payment_flow ;;
    paid_gate ;;
    validate_inputs i ;;
    payment_gateway ;;
    generation_flow i
  else ret tt.

(** One run of the script, from the session state and the world it
    starts in to the way it ends and what it leaves behind. *)
Definition main (i : Inputs) (a : App) : Outcome * App :=
  match main_body i a with
  | (Ok _, a') => (Returned, a')
  | (Raise ReturnNone, a') => (Returned, a')
  | (Raise StopException, a') => (Stopped, a')
  | (Raise RerunException, a') => (Rerun, a')
  | (Raise (Exception e), a') => (Crashed e, a')
  end.

End Main.

(** ** Concrete worlds and services, used to run the code *)

Module Scenario.

Definition processor : PaymentProcessor :=
  mkPaymentProcessor "http://localhost:8501" (Some "whsec_test").

Definition session_1 (payment_status : string) : CheckoutSession :=
  mkCheckoutSession "cs_1" "https://checkout.stripe.com/pay/cs_1#fid" payment_status "{}".

Definition completed (payment_status : string) : Event :=
  mkEvent "checkout.session.completed" (mkStripeObject (Some "cs_1") (Some payment_status)).

(** A verified event of a type the handler does not act on. *)
Definition other_event : Event :=
  mkEvent "payment_intent.created" (mkStripeObject (Some "pi_1") None).

Definition row_1 (st : string) : Row :=
  mkRow "user123" "cs_1" st "2025-01-01 10:00:00" None None.

(** A world whose ledger holds session [cs_1] with status [st]. *)
Definition world_with (st : string) : World :=
  mkWorld 1000 [row_1 st] [] [] [].

Definition empty_world : World := mkWorld 1000 [] [] [] [].

(** The document saved for a paragraph, and the [repr()] of a Future
    that holds a failed attempt. *)
Definition docx (content : string) : string := "docx: " ++ content.

Definition class_name (e : exn) : string :=
  match e with
  | StripeError _ => "StripeError"
  | SignatureVerificationError _ => "SignatureVerificationError"
  | RetryError _ => "RetryError"
  | KeyError _ => "KeyError"
  | AttributeError _ => "AttributeError"
  | AuthenticationError _ => "AuthenticationError"
  | RateLimitError _ => "RateLimitError"
  | APIError _ => "APIError"
  | PyException _ => "Exception"
  end.

Definition future (e : exn) : string :=
  "<Future at 0x7f52c81d3a90 state=finished raised " ++ class_name e ++ ">".

(** Every service answers; Stripe reports [payment_status] for any
    session, and webhooks verify and carry [ev]. *)
Definition env_reporting (payment_status : string) (ev : Event) : Env :=
  mkEnv (fun _ _ => Ok (session_1 "unpaid"))
        (fun _ _ => Ok (session_1 payment_status))
        (fun _ _ _ _ => Ok ev)
        (fun _ _ => None)
        (fun _ _ => (Some "Ten years of plumbing.", []))
        (fun _ _ => (["Dear "; ""; "hiring manager"], None))
        (fun _ => "2025-01-01 10:05:00")
        (fun _ => "2025-01-01T10:05:00")
        (fun _ => "1735725900.0")
        (fun content => Ok (docx content))
        future.

(** Stripe fails with [e] on every call; the ledger answers. *)
Definition env_stripe_failing (e : exn) : Env :=
  mkEnv (fun _ _ => Raise e)
        (fun _ _ => Raise e)
        (fun _ _ _ _ => Raise e)
        (fun _ _ => None)
        (fun _ _ => (None, []))
        (fun _ _ => ([], None))
        (fun _ => "2025-01-01 10:05:00")
        (fun _ => "2025-01-01T10:05:00")
        (fun _ => "1735725900.0")
        (fun content => Ok (docx content))
        future.

(** Stripe answers; every request to the ledger fails with [e]. *)
Definition env_ledger_failing (e : exn) : Env :=
  mkEnv (fun _ _ => Ok (session_1 "unpaid"))
        (fun _ _ => Ok (session_1 "unpaid"))
        (fun _ _ _ _ => Ok (completed "paid"))
        (fun _ _ => Some e)
        (fun _ _ => (None, []))
        (fun _ _ => ([], None))
        (fun _ => "2025-01-01 10:05:00")
        (fun _ => "2025-01-01T10:05:00")
        (fun _ => "1735725900.0")
        (fun content => Ok (docx content))
        future.

(** One poll of session [cs_1] when Stripe reports [reported] and the
    ledger holds [stored]. *)
Definition poll (reported stored : string) : result exn string * World :=
  check_payment_status (env_reporting reported (completed "paid")) "cs_1"
                       (world_with stored).

(** One delivery of a verified webhook carrying [ev], the ledger
    holding [stored]. *)
Definition deliver (ev : Event) (stored : string) : result exn (option Event) * World :=
  verify_webhook (env_reporting "unpaid" ev) processor "{}" "t=1,v1=abc"
                 (world_with stored).

(** A filled-in form, submitted. *)
Definition form : Inputs :=
  mkInputs None None required_secrets
           (Some (mkUploadedFile "application/pdf" "cv.pdf"))
           "We are looking for a plumber with ten years of experience."
           "ACME" true.

(** The session state with the gate pending on [cs_1] since time 1000
    and [n] failed polls counted. *)
Definition pending_since_1000 (n : nat) : SessionState :=
  mkSessionState (Some (mkPaymentState "pending" (Some "cs_1") (Some 1000%Q) (Some n)))
                 None None None.

(** The world at time [t], the ledger holding [cs_1] as [pending]. *)
Definition world_at (t : Q) : World := mkWorld t [row_1 "pending"] [] [] [].

(** That gate, met again at time [t]. *)
Definition gate_at (t : Q) (n : nat) : App :=
  mkApp (pending_since_1000 n) (world_at t).

(** The gate and the session state after payment, ready to generate. *)
Definition paid_app : App :=
  mkApp (mkSessionState
           (Some (mkPaymentState "paid" (Some "cs_1") (Some 1000%Q) (Some 0%nat)))
           (Some true) (Some "cs_1") None)
        (world_with "paid").

(** The run that generates: the calls it makes before the
    generation call, and that call. *)
Definition paid_env : Env := env_reporting "paid" (completed "paid").

Definition before_generation : list Call :=
  [CallExtractText (mkUploadedFile "application/pdf" "cv.pdf")
                   (Some "Ten years of plumbing.");
   CallSessionRetrieve "cs_1" (Ok (session_1 "paid"));
   CallExecute (Update (mkPatch (Some "paid") (Some "2025-01-01 10:05:00")
                                (Some "{}") None)
                       "cs_1")
               None].

Definition prompt : string :=
  "Resume:" ++ nl ++ "Ten years of plumbing." ++ nl ++ nl
  ++ "Job Description:" ++ nl ++ job_desc form ++ nl ++ nl
  ++ "Company: " ++ company_name form.

End Scenario.

(** ** Notions used in the statements *)

(** The patch [check_payment_status] writes for a retrieved session. *)
Definition poll_patch (env : Env) (session : CheckoutSession) (w : World) : Patch :=
  mkPatch (Some (cs_payment_status session)) (Some (strftime env (clock w)))
          (Some (cs_to_dict session)) None.

(** The world once Stripe has answered [r] to a retrieval. *)
Definition retrieved (sid : string) (r : result exn CheckoutSession) (w : World) : World :=
  add_call (CallSessionRetrieve sid r) w.

(** Every row the ledger holds for [sid] has status [paid]. *)
Definition all_paid (sid : string) (w : World) : Prop :=
  Forall (fun st => st = "paid") (Ledger.statuses sid (payments w)).

(** The session has at least [n] rows, all of them [paid]. *)
Definition paid_rows (sid : string) (n : nat) (w : World) : Prop :=
  all_paid sid w /\ (n <= length (Ledger.statuses sid (payments w)))%nat.

(** From [w] to [w'] the session has lost no row and all are [paid]. *)
Definition keeps_paid (sid : string) (w w' : World) : Prop :=
  all_paid sid w'
  /\ (length (Ledger.statuses sid (payments w))
      <= length (Ledger.statuses sid (payments w')))%nat.

(** The history after an attempt that ended in the call [c] failed
    and the retry loop slept for [seconds]. *)
Definition failed_attempt (c : Call) (seconds : Z) (h : list Call) : list Call :=
  (h ++ [c; CallSleep (inject_Z seconds)])%list.

(** The script has rendered its title. *)
Definition titled (a : App) : App :=
  set_world (add_ui (UiTitle "AI Cover Letter Generator") (world a)) a.

(** A run that is a plain re-invocation of the gate: not the return
    from Stripe's page, all secrets configured, the form submitted. *)
Definition resubmission (i : Inputs) : Prop :=
  q_payment_success i = None
  /\ filter (fun s => negb (Str.mem s (secrets i))) required_secrets = []
  /\ submitted i = true.

(** The run [r] started from [a] ended in the timeout failure: the
    script stopped, having shown the timeout error and reset the gate. *)
Definition timed_out (a : App) (r : Outcome * App) : Prop :=
  fst r = Stopped
  /\ payment_state (session_state (snd r)) = Some unpaid_state
  /\ exists shown,
      ui (world (snd r)) = (ui (world a) ++ shown)%list
      /\ In (UiError "Payment timed out after 5 minutes") shown.

(** The gate has shown [e] and forgotten the attempt. *)
Definition gate_failed (e : UiEvent) (a : App) : App :=
  set_payment_state unpaid_state (set_world (add_ui e (world a)) a).

(** The script run once per invocation, each in the world it finds,
    the session state carried from one run to the next. *)
Fixpoint reinvoke (env : Env) (pp : PaymentProcessor) (s : SessionState)
         (invocations : list (Inputs * World)) : list (Outcome * App) :=
  match invocations with
  | [] => []
  | (i, w) :: rest =>
      let r := main env pp i (mkApp s w) in
      r :: reinvoke env pp (session_state (snd r)) rest
  end.

(** An invocation that polls session [sid] within the time budget
    counted from [t0] and is answered by another status than [paid]. *)
Definition non_paid_poll (env : Env) (sid : string) (t0 : Q)
           (invocation : Inputs * World) : Prop :=
  resubmission (fst invocation)
  /\ (clock (snd invocation) - t0 <= 300)%Q
  /\ exists r,
      fst (check_payment_status env sid (snd invocation)) = Ok r /\ r <> "paid".

(** The gate state pending on [sid] since [t0] with [n] failed polls. *)
Definition pending_state (sid : string) (t0 : Q) (n : nat) : PaymentState :=
  mkPaymentState "pending" (Some sid) (Some t0) (Some n).

(** A call to [stripe.checkout.Session.create]. *)
Definition is_session_create (c : Call) : bool :=
  match c with
  | CallSessionCreate _ _ => true
  | _ => false
  end.

(** A stretch of history without a call to the generation API. *)
Definition no_generation (l : list Call) : Prop :=
  forall m r, ~ In (CallChatCompletion m r) l.

(** From [w] to [w'] calls were made, none of them to the generation API. *)
Definition quiet (w w' : World) : Prop :=
  exists l, calls w' = (calls w ++ l)%list /\ no_generation l.

Definition quiet_run {A} (c : M exn World A) : Prop :=
  forall w, quiet w (snd (c w)).

Definition quiet_script {A} (c : M signal App A) : Prop :=
  forall a, quiet (world a) (world (snd (c a))).

(** A script that leaves the session state alone when it falls through. *)
Definition keeps_session {A} (c : M signal App A) : Prop :=
  forall a x a', c a = (Ok x, a') -> session_state a' = session_state a.

(** A script that calls nothing outside. *)
Definition silent_script {A} (c : M signal App A) : Prop :=
  forall a, calls (world (snd (c a))) = calls (world a).

(** The gate state of [a] is [paid]. *)
Definition gate_paid (a : App) : Prop :=
  exists ps, payment_state (session_state a) = Some ps /\ ps_status ps = "paid".

(** The calls [l] end with a status check of [sid] that came back
    [paid] from Stripe and was written to the ledger. *)
Definition ends_with_paid_check (sid : string) (l : list Call) : Prop :=
  exists earlier session p,
    cs_payment_status session = "paid"
    /\ p_status p = Some "paid"
    /\ l = (earlier ++ [CallSessionRetrieve sid (Ok session);
                        CallExecute (Update p sid) None])%list
    /\ no_generation earlier.

(** From [a] to [a'] one call went to the generation API, the last
    one, right after a paid status check of the session that [a] holds
    in [payment_session_id]. *)
Definition generated_after_paid_check (a a' : App) : Prop :=
  exists sid l m r,
    payment_session_id (session_state a) = Some sid
    /\ ends_with_paid_check sid l
    /\ calls (world a') = (calls (world a) ++ l ++ [CallChatCompletion m r])%list.

(** ** [PaymentProcessor.__init__] and the start of the script *)

Module Init.

(** What the constructor raises. *)
Inductive init_exn : Type :=
| ValueError (msg : string)
| NameError (name : string)       (* a name that is bound nowhere *)
| TypeError (msg : string)        (* a call that leaves out required arguments *)
| ClientError (e : exn).          (* whatever [create_client] raises *)

(** [str(e)] *)
Definition init_exn_str (future_repr : exn -> string) (e : init_exn) : string :=
  match e with
  | ValueError m | TypeError m => m
  | NameError n => "name '" ++ n ++ "' is not defined"
  | ClientError e => exn_str future_repr e
  end.

(** The arguments of [PaymentProcessor(...)]. *)
Record Args : Type := mkArgs {
  arg_stripe_secret_key : string;
  arg_supabase_url : string;
  arg_supabase_key : string;
  arg_stripe_success_url : string;
  arg_stripe_webhook_secret : option string
}.

(** The module global [stripe.api_key]. *)
Definition ApiKey : Type := option string.

(** [s.startswith(p)] *)
Definition startswith (s p : string) : bool := String.prefix p s.

(** [all(l)] on a list of strings: none of them is empty. *)
Definition all_truthy (l : list string) : bool := forallb (fun s => negb (falsy s)) l.

(** Reading a global name that no statement of the module binds. *)
Definition unbound_name {A} (name : string) : M init_exn ApiKey A :=
  raise (NameError name).

(** [create_client(supabase_url, supabase_key)], which builds the
    client or raises. *)
Definition call_create_client (create_client : string -> string -> option exn)
           (url key : string) : M init_exn ApiKey unit :=
  match create_client url key with
  | Some e => raise (ClientError e)
  | None => ret tt
  end.

(** Lines 13-28. *)
Definition __init__ (create_client : string -> string -> option exn) (a : Args)
  : M init_exn ApiKey PaymentProcessor :=
  (if negb (all_truthy [arg_supabase_url a; arg_supabase_key a; arg_stripe_secret_key a])
   then raise (ValueError "Missing required configuration") else ret tt) ;;
  (if negb (startswith (arg_supabase_url a) "https://")
   then raise (ValueError "Invalid Supabase URL format") else ret tt) ;;
  (if negb (startswith (arg_supabase_key a) "eyJ")
   then raise (ValueError "Invalid Supabase key format") else ret tt) ;;
  (fun _ => (Ok tt, Some (arg_stripe_secret_key a))) ;;
  call_create_client create_client (arg_supabase_url a) (arg_supabase_key a) ;;
  stripe_price_id <- unbound_name "stripe_price_id" ;;
  let _ : string := stripe_price_id in
  ret (mkPaymentProcessor (arg_stripe_success_url a) (arg_stripe_webhook_secret a)).

(** A call [PaymentProcessor(...)]: [None] is a call that passes no
    argument, which Python refuses before the body runs. *)
Definition construct (create_client : string -> string -> option exn)
           (args : option Args) : M init_exn ApiKey PaymentProcessor :=
  match args with
  | Some a => __init__ create_client a
  | None =>
      raise (TypeError
               "PaymentProcessor.__init__() missing 3 required positional arguments: 'stripe_secret_key', 'supabase_url', and 'supabase_key'")
  end.

(** Lines 11-17 of [main.py]: the two clients are built, and a
    failure is shown before the script stops; [openai_client] is what
    building the OpenAI client raises, if anything.  What is left of
    the run is the rendered error and the way it ends. *)
Definition initialize_clients (future_repr : exn -> string)
           (create_client : string -> string -> option exn)
           (openai_client : option exn) (args : option Args) (key : ApiKey)
  : result signal PaymentProcessor * list UiEvent :=
  match construct create_client args key with
  | (Ok p, _) =>
      match openai_client with
      | None => (Ok p, [])
      | Some e =>
          (Raise StopException,
           [UiError ("Initialization failed: " ++ exn_str future_repr e)])
      end
  | (Raise e, _) =>
      (Raise StopException,
       [UiError ("Initialization failed: " ++ init_exn_str future_repr e)])
  end.

(** Lines 1-17 of [main.py]: the imports, then the clients.  The
    imports load [utils/resume_parser.py] and [utils/payment_handler.py]
    and, through them, the libraries; [imports] is the exception one of
    them raises, if any.  Nothing catches it: the script ends there,
    having rendered nothing. *)
Definition script_start (imports : option exn) (future_repr : exn -> string)
           (create_client : string -> string -> option exn)
           (openai_client : option exn) (args : option Args) (key : ApiKey)
  : result signal PaymentProcessor * list UiEvent :=
  match imports with
  | Some e => (Raise (Exception e), [])
  | None => initialize_clients future_repr create_client openai_client args key
  end.

End Init.

(** ** Notions used in the further statements *)

(** The number of checkout sessions Stripe created in a history. *)
Fixpoint sessions_created (l : list Call) : nat :=
  match l with
  | [] => 0
  | CallSessionCreate _ (Ok _) :: l' => S (sessions_created l')
  | _ :: l' => sessions_created l'
  end.

(** What identifies a ledger row and is never rewritten by an update
    of the status. *)
Definition row_origin (r : Row) : string * string := (user_id r, created_at r).

(** A computation on the world that neither reads nor writes what
    Streamlit rendered. *)
Definition ui_blind {A} (c : M exn World A) : Prop :=
  forall e w, c (add_ui e w) = (fst (c w), add_ui e (snd (c w))).


(** ** Further worlds and services *)

Module More.

(** Whether the ledger has been asked anything in a history. *)
Definition ledger_asked (h : list Call) : bool :=
  existsb (fun c => match c with CallExecute _ _ => true | _ => false end) h.

(** Stripe answers; the ledger refuses the first request it gets and
    accepts the later ones. *)
Definition env_ledger_flaky : Env :=
  mkEnv (fun _ _ => Ok (Scenario.session_1 "unpaid"))
        (fun _ _ => Ok (Scenario.session_1 "unpaid"))
        (fun _ _ _ _ => Ok (Scenario.completed "paid"))
        (fun h _ => if ledger_asked h then None else Some (PyException "timeout"))
        (fun _ _ => (None, []))
        (fun _ _ => ([], None))
        (fun t => if Qeq_bool t 1000 then "2025-01-01 10:05:00" else "2025-01-01 10:05:01")
        (fun _ => "2025-01-01T10:05:00")
        (fun _ => "1735725900.0")
        (fun content => Ok (Scenario.docx content))
        Scenario.future.

End More.

(** ** Notions used in the statements about the script *)

(** The gate state a run finds, after the script has made sure there is one. *)
Definition initialized (a : App) : App :=
  match payment_state (session_state a) with
  | Some _ => a
  | None =>
      set_payment_state (mkPaymentState "unpaid" None (Some (clock (world a))) (Some 0%nat)) a
  end.

(** The gate state of [a], if any, asks for a new checkout session. *)
Definition gate_unpaid (a : App) : Prop :=
  match payment_state (session_state a) with
  | Some ps => ps_status ps <> "paid" /\ ps_status ps <> "pending"
  | None => True
  end.

(** The message sent to the generation API. *)
Definition user_message (resume_text jd company : string) : string :=
  "Resume:" ++ nl ++ resume_text ++ nl ++ nl
  ++ "Job Description:" ++ nl ++ jd ++ nl ++ nl
  ++ "Company: " ++ company.

(** The exceptions [generate_cover_letter] catches. *)
Definition is_openai_error (e : exn) : bool :=
  match e with
  | AuthenticationError _ | RateLimitError _ | APIError _ => true
  | _ => false
  end.

(** What [generate_cover_letter] shows for them. *)
Definition openai_error_shown (e : exn) : string :=
  match e with
  | AuthenticationError _ => "Invalid OpenAI API key. Please check your .env file"
  | RateLimitError _ => "API rate limit exceeded. Please try again later"
  | APIError m => "API error: " ++ m
  | _ => ""
  end.

(** All characters of [s] are white space. *)
Definition all_space (s : string) : Prop :=
  exists chars,
    Forall (fun c => In c Str.white_space) chars /\ s = String.concat "" chars.

(** The world as the gate finds it in a resubmission. *)
Definition at_gate (w : World) : World :=
  add_ui (UiStatus "Processing Payment...") (add_ui (UiTitle "AI Cover Letter Generator") w).

(** The retry counter a new checkout leaves in the gate state: the one
    the state had, and 0 in a session that had no gate state yet. *)
Definition counter_kept (a : App) : option nat :=
  match payment_state (session_state a) with
  | Some ps => ps_retries ps
  | None => Some 0%nat
  end.

(** The session state a given-up attempt leaves behind. *)
Definition given_up : SessionState :=
  mkSessionState (Some unpaid_state) None None None.

(** The world once the gate has let a paid run through. *)
Definition verified (w : World) : World :=
  add_ui (UiStatus "Payment Verified") (at_gate w).

(** The world after Streamlit rendered the events of [l], in order. *)
Definition rendered (l : list UiEvent) (w : World) : World :=
  fold_left (fun w' e => add_ui e w') l w.

(** The errors of a failed validation, as they are shown. *)
Definition shown_errors (errors : list string) : list UiEvent :=
  map (fun e => UiError ("❌ " ++ e)) errors.

(** What the loop over the stream shows: the text so far after each
    chunk that is not empty. *)
Fixpoint chunk_markdowns (full_content chunks : list string) : list UiEvent :=
  match chunks with
  | [] => []
  | chunk :: rest =>
      if falsy chunk then chunk_markdowns full_content rest
      else UiMarkdown (Str.join "" (full_content ++ [chunk])%list ++ "▌")
             :: chunk_markdowns (full_content ++ [chunk])%list rest
  end.

(** A run of the last two steps, from [a] to [r], ended with the
    preview of [letter] and the download of [document] on screen, and
    with no other download before it. *)
Definition delivered (a : App) (r : result signal unit * App) (letter document : string)
  : Prop :=
  fst r = Ok tt
  /\ exists shown,
      ui (world (snd r))
      = (ui (world a) ++ shown
           ++ [UiPreview (Str.slice_to 500 letter ++ "..."); UiDownload document])%list
      /\ forall d, ~ In (UiDownload d) shown.

(** It put no download on screen. *)
Definition nothing_delivered (a : App) (r : result signal unit * App) : Prop :=
  exists shown,
    ui (world (snd r)) = (ui (world a) ++ shown)%list
    /\ forall d, ~ In (UiDownload d) shown.

(** Lines 239-270 of [main.py]: what follows the stream, from the
    joined text on. *)
Definition deliver (env : Env) (cover_letter : string) : M signal App unit :=
  (if falsy cover_letter then st_error "Failed to generate cover letter" ;; return_
   else ret tt) ;;
  render (UiProgress 75) ;;
  render (UiWrite ":floppy_disk: Creating downloadable document...") ;;
  doc_buffer <- create_docx env cover_letter ;;
  render (UiProgress 100) ;;
  render (UiStatus "Generation Complete!") ;;
  render (UiSuccess "Cover letter created successfully") ;;
  render (UiPreview (Str.slice_to 500 cover_letter ++ "...")) ;;
  render (UiDownload doc_buffer).

(** ** The resume parser: [src/utils/resume_parser.py]

    The file is what the two libraries make of it: [pdfplumber] its
    pages, [python-docx] its paragraphs, each of which may fail.  The
    state is what Streamlit has rendered. *)

Module ResumeParser.

(** The exception classes [extract_resume_text] tells apart, all of
    them subclasses of [Exception]. *)
Inductive parser_exn : Type :=
| PDFSyntaxError (msg : string)
| ValueError (msg : string)          (* ValueError, any subclass *)
| KeyError (key : string)
| AttributeError (msg : string)
| OtherException (msg : string).     (* any other subclass of Exception *)

Definition is_PDFSyntaxError (e : parser_exn) : bool :=
  match e with
  | PDFSyntaxError _ => true
  | _ => false
  end.

Definition is_ValueError (e : parser_exn) : bool :=
  match e with
  | ValueError _ => true
  | _ => false
  end.

Definition is_KeyError (e : parser_exn) : bool :=
  match e with
  | KeyError _ => true
  | _ => false
  end.

(** [str(e)] *)
Definition parser_exn_str (e : parser_exn) : string :=
  match e with
  | PDFSyntaxError m | ValueError m | AttributeError m | OtherException m => m
  | KeyError k => "'" ++ k ++ "'"
  end.

(** An uploaded file.  [pdf_pages] is what [pdfplumber.open] gives:
    an exception, or the pages, each with what its [extract_text()]
    gives ([None] or a [str]) or raises.  [docx_paragraphs] is what
    [Document] gives: an exception, or the texts of the paragraphs. *)
Record File : Type := mkFile {
  mime_type : string;         (* [uploaded_file.type] *)
  pdf_pages : result parser_exn (list (result parser_exn (option string)));
  docx_paragraphs : result parser_exn (list string)
}.

Definition Parser (A : Type) : Type := M parser_exn (list UiEvent) A.

Definition st_error (msg : string) : Parser unit :=
  fun shown => (Ok tt, (shown ++ [UiError msg])%list).

(** The value or the exception of a library call. *)
Definition library {A} (r : result parser_exn A) : Parser A :=
  fun shown => (r, shown).

(** [not page_text] *)
Definition no_text (page_text : option string) : bool :=
  match page_text with
  | Some t => falsy t
  | None => true
  end.

(** Lines 24-28: the loop over [pdf.pages]. *)
Fixpoint read_pages (pages : list (result parser_exn (option string)))
         (full_text : list string) : Parser (list string) :=
  match pages with
  | [] => ret full_text
  | page :: rest =>
      page_text <- library page ;;
      match page_text with
      | Some t =>
          if falsy t
          then raise (ValueError "Scanned PDF detected - text extraction failed")
          else read_pages rest (full_text ++ [t])%list
      | None => raise (ValueError "Scanned PDF detected - text extraction failed")
      end
  end.

Definition is_newline (c : ascii) : bool := Ascii.eqb c (ascii_of_nat 10).

(** [s.replace("\n\n", "\n")]: from the left, without overlap. *)
Fixpoint replace_double_newline (s : string) : string :=
  match s with
  | EmptyString => EmptyString
  | String c1 tail =>
      match tail with
      | EmptyString => String c1 EmptyString
      | String c2 rest =>
          if is_newline c1 && is_newline c2
          then String c1 (replace_double_newline rest)
          else String c1 (replace_double_newline tail)
      end
  end.

Definition pdf_type : string := "application/pdf".
Definition docx_type : string :=
  "application/vnd.openxmlformats-officedocument.wordprocessingml.document".

(** Lines 21-33: the PDF branch. *)
Definition extract_pdf (f : File) : Parser (option string) :=
  try_except
    (pages <- library (pdf_pages f) ;;
     full_text <- read_pages pages [] ;;
     ret (Some (Str.strip (replace_double_newline (Str.join nl full_text)))))
    is_PDFSyntaxError
    (fun _ => st_error "Invalid or corrupted PDF file" ;; ret None).

(** Lines 36-41: the Word branch. *)
Definition extract_docx (f : File) : Parser (option string) :=
  try_except
    (paragraphs <- library (docx_paragraphs f) ;;
     ret (Some (Str.strip (Str.join nl (filter (fun text => negb (falsy text)) paragraphs)))))
    is_KeyError
    (fun _ => st_error "Invalid Word document structure" ;; ret None).

(** [extract_resume_text(uploaded_file)]; [None] for [uploaded_file]
    is Python's [None], which has no attribute [type].  A function
    that ends without [return] returns [None]. *)
Definition extract_resume_text (uploaded_file : option File) : Parser (option string) :=
  try_except
    (match uploaded_file with
     | None => raise (AttributeError "'NoneType' object has no attribute 'type'")
     | Some f =>
         if String.eqb (mime_type f) pdf_type then extract_pdf f
         else if String.eqb (mime_type f) docx_type then extract_docx f
         else ret None
     end)
    (fun _ => true)
    (fun e =>
       if is_ValueError e
       then st_error ("PDF text extraction failed: " ++ parser_exn_str e) ;; ret None
       else st_error ("Unexpected error processing file: " ++ parser_exn_str e) ;; ret None).

(** The pages before the first one without text, as the library gives them. *)
Definition pages_with_text (texts : list string) : list (result parser_exn (option string)) :=
  map (fun t => Ok (Some t)) texts.

(** A PDF whose second page is an image; a file that is not a Word
    document under the Word type; a PDF of blank pages. *)
Definition scanned_resume : File :=
  mkFile pdf_type
         (Ok [Ok (Some "Jane Doe"); Ok (Some ""); Raise (OtherException "page 3")])
         (Raise (KeyError "word/document.xml")).

Definition not_a_word_file : File :=
  mkFile docx_type
         (Raise (PDFSyntaxError "No /Root object"))
         (Raise (ValueError "file is not a Word file")).

Definition blank_resume : File :=
  mkFile pdf_type
         (Ok [Ok (Some (Str.utf8 [226; 128; 131] ++ " ")); Ok (Some (nl ++ nl))])
         (Raise (KeyError "word/document.xml")).

End ResumeParser.

(** ** The session id in a checkout URL *)

(** [sep in s] *)
Fixpoint occurs (sep s : string) : bool :=
  match s with
  | EmptyString => String.prefix sep s
  | String _ s' => String.prefix sep s || occurs sep s'
  end.

(** An occurrence of [sep] in [p ++ s] starts in [p]. *)
Fixpoint starts_within (sep p s : string) : bool :=
  match p with
  | EmptyString => false
  | String _ p' => String.prefix sep (p ++ s) || starts_within sep p' s
  end.

(** What may follow the session id in the URL: nothing, or a fragment. *)
Definition is_fragment (fragment : string) : bool :=
  match fragment with
  | EmptyString => true
  | _ => String.prefix "#" fragment
  end.

(** Line 80: the required secrets that [st.secrets] lacks. *)
Definition missing_secrets (i : Inputs) : list string :=
  filter (fun s => negb (Str.mem s (secrets i))) required_secrets.

(** [main] as it would be with lines 176-198, the block
    [if not st.session_state.payment_success], taken out. *)
Definition main_body_without_gateway (env : Env) (pp : PaymentProcessor) (i : Inputs)
  : M signal App unit :=
  payment_callback env i ;;
  render (UiTitle "AI Cover Letter Generator") ;;
  check_secrets i ;;
  init_payment_state ;;
  if submitted i then
    payment_flow env pp ;;
    paid_gate ;;
    validate_inputs i ;;
    generation_flow env i
  else ret tt.

(** * Properties *)

(** ** The monad, the ledger and the retry loop *)

Section LedgerFacts.

Import Ledger.

(** An update that leaves the session id alone rewrites the status of
    every row of the session, whatever it was. *)
Lemma statuses_update_same (st : string) (ua sd : option string) (sid : string)
      (rows : list Row) :
  statuses sid (update_rows (mkPatch (Some st) ua sd None) sid rows)
  = map (fun _ => st) (statuses sid rows).
Proof.
  unfold statuses, update_rows.
  induction rows as [|r rows IH]; simpl; [reflexivity|].
  destruct (String.eqb (session_id r) sid) eqn:E; simpl.
  - rewrite E. simpl. now rewrite IH.
  - rewrite E. exact IH.
Qed.

Lemma statuses_update_other (p : Patch) (sid sid' : string) (rows : list Row) :
  p_session_id p = None -> sid <> sid' ->
  statuses sid' (update_rows p sid rows) = statuses sid' rows.
Proof.
  intros Hp Hne. unfold statuses, update_rows.
  induction rows as [|r rows IH]; simpl; [reflexivity|].
  destruct (String.eqb (session_id r) sid) eqn:E; simpl.
  - apply String.eqb_eq in E. unfold override. rewrite Hp.
    destruct (String.eqb (session_id r) sid') eqn:E'.
    + apply String.eqb_eq in E'. congruence.
    + exact IH.
  - destruct (String.eqb (session_id r) sid'); simpl; now rewrite IH.
Qed.

End LedgerFacts.

(** ** [check_payment_status] *)

Section PollFacts.

Variable env : Env.

(** Every way a poll can go, by what Stripe and the ledger answer. *)
Lemma check_payment_status_cases (sid : string) (w : World) :
  match Session_retrieve env (calls w) sid with
  | Raise e =>
      check_payment_status env sid w
      = if is_StripeError e
        then (Ok "error",
              add_stdout ("Payment status check failed: " ++ str env e)
                         (retrieved sid (Raise e) w))
        else (Raise e, retrieved sid (Raise e) w)
  | Ok session =>
      let w1 := retrieved sid (Ok session) w in
      let op := Update (poll_patch env session w) sid in
      match supabase_execute env (calls w1) op with
      | None =>
          check_payment_status env sid w
          = (Ok (cs_payment_status session),
             set_payments (Ledger.update_rows (poll_patch env session w) sid (payments w))
                          (add_call (CallExecute op None) w1))
      | Some e =>
          check_payment_status env sid w
          = if is_StripeError e
            then (Ok "error",
                  add_stdout ("Payment status check failed: " ++ str env e)
                             (add_call (CallExecute op (Some e)) w1))
            else (Raise e, add_call (CallExecute op (Some e)) w1)
      end
  end.
Proof.
  unfold check_payment_status, try_except, bind, stripe_Session_retrieve,
    time_time, execute, ret, print, retrieved, poll_patch.
  destruct (Session_retrieve env (calls w) sid) as [session|e]; simpl.
  - destruct (supabase_execute env _ _) as [e|]; simpl; [|reflexivity].
    destruct (is_StripeError e); reflexivity.
  - destruct (is_StripeError e); reflexivity.
Qed.

(** A poll leaves the ledger as it was or overwrites the status of
    the session's rows with what Stripe reported. *)
Lemma check_payment_status_payments (sid : string) (w : World) :
  payments (snd (check_payment_status env sid w)) = payments w
  \/ exists session,
      Session_retrieve env (calls w) sid = Ok session
      /\ fst (check_payment_status env sid w) = Ok (cs_payment_status session)
      /\ payments (snd (check_payment_status env sid w))
         = Ledger.update_rows (poll_patch env session w) sid (payments w).
Proof.
  pose proof (check_payment_status_cases sid w) as H.
  destruct (Session_retrieve env (calls w) sid) as [session|e].
  - cbv zeta in H. destruct (supabase_execute env _ _) as [e|].
    + left. rewrite H. destruct (is_StripeError e); reflexivity.
    + right. exists session. rewrite H. auto.
  - left. rewrite H. destruct (is_StripeError e); reflexivity.
Qed.

End PollFacts.

(** C3 (as amended): whenever [check_payment_status] returns a status
    it has persisted, that status is the [payment_status] Stripe
    reported, word for word, and it is what every row of the session
    then holds: [unpaid] is stored as [unpaid], [paid] as [paid] and
    [no_payment_required] as [no_payment_required].  The only other
    value it returns is [error], with the ledger left as it was. *)
Theorem check_payment_status_stores_reported_status
        (env : Env) (sid : string) (w w' : World) (r : string) :
  check_payment_status env sid w = (Ok r, w') ->
  (r = "error" /\ payments w' = payments w)
  \/ exists session,
      Session_retrieve env (calls w) sid = Ok session
      /\ r = cs_payment_status session
      /\ Ledger.statuses sid (payments w')
         = map (fun _ => cs_payment_status session) (Ledger.statuses sid (payments w))
      /\ forall sid', sid <> sid' ->
           Ledger.statuses sid' (payments w') = Ledger.statuses sid' (payments w).
Proof.
  intros Hrun.
  pose proof (check_payment_status_cases env sid w) as H.
  destruct (Session_retrieve env (calls w) sid) as [session|e].
  - cbv zeta in H. destruct (supabase_execute env _ _) as [e|].
    + rewrite H in Hrun. destruct (is_StripeError e); inversion Hrun; subst.
      left. split; reflexivity.
    + rewrite H in Hrun. inversion Hrun; subst. right. exists session.
      repeat split; simpl.
      * apply statuses_update_same.
      * intros sid' Hne. now apply statuses_update_other.
  - rewrite H in Hrun. destruct (is_StripeError e); inversion Hrun; subst.
    left. split; reflexivity.
Qed.

Lemma check_payment_status_stores_reported_status_witness :
  Scenario.poll "unpaid" "pending" = (Ok "unpaid", snd (Scenario.poll "unpaid" "pending"))
  /\ Ledger.statuses "cs_1" (payments (snd (Scenario.poll "unpaid" "pending"))) = ["unpaid"].
Proof.
  split; [reflexivity|].
  destruct (check_payment_status_stores_reported_status
              (Scenario.env_reporting "unpaid" (Scenario.completed "paid")) "cs_1"
              (Scenario.world_with "pending")
              (snd (Scenario.poll "unpaid" "pending")) "unpaid" eq_refl)
    as [[H _]|(session & _ & Hr & Hst & _)].
  - discriminate H.
  - rewrite Hst, <- Hr. reflexivity.
Defined.

(** C3 fails as stated: from a [pending] row, a report of [unpaid] is
    stored as [unpaid], not [pending], and a report of
    [no_payment_required] is stored as such, not as [paid]. *)
Lemma transition_table_not_applied :
  Ledger.statuses "cs_1" (payments (snd (Scenario.poll "unpaid" "pending"))) = ["unpaid"]
  /\ Ledger.statuses "cs_1" (payments (snd (Scenario.poll "no_payment_required" "pending")))
     = ["no_payment_required"]
  /\ ["unpaid"] <> ["pending"]
  /\ ["no_payment_required"] <> ["paid"].
Proof. repeat split; try reflexivity; discriminate. Qed.

(** C9 (as amended): when the retrieval at Stripe fails with a Stripe
    error (an unknown session included), [check_payment_status]
    returns [error] after that single call and writes nothing to the
    ledger: the stored status stays what it was. *)
Theorem check_payment_status_provider_error
        (env : Env) (sid : string) (e : exn) (w : World) :
  Session_retrieve env (calls w) sid = Raise e ->
  is_StripeError e = true ->
  fst (check_payment_status env sid w) = Ok "error"
  /\ payments (snd (check_payment_status env sid w)) = payments w
  /\ calls (snd (check_payment_status env sid w))
     = (calls w ++ [CallSessionRetrieve sid (Raise e)])%list
  /\ stdout (snd (check_payment_status env sid w))
     = (stdout w ++ [("Payment status check failed: " ++ str env e)%string])%list.
Proof.
  intros Hr He.
  pose proof (check_payment_status_cases env sid w) as H.
  rewrite Hr, He in H. rewrite H. repeat split.
Qed.

Lemma check_payment_status_provider_error_witness :
  is_StripeError (StripeError "No such checkout.session: cs_1") = true
  /\ fst (check_payment_status
            (Scenario.env_stripe_failing (StripeError "No such checkout.session: cs_1"))
            "cs_1" (Scenario.world_with "pending")) = Ok "error"
  /\ payments (snd (check_payment_status
                      (Scenario.env_stripe_failing (StripeError "No such checkout.session: cs_1"))
                      "cs_1" (Scenario.world_with "pending")))
     = payments (Scenario.world_with "pending").
Proof.
  split; [reflexivity|].
  destruct (check_payment_status_provider_error
              (Scenario.env_stripe_failing (StripeError "No such checkout.session: cs_1"))
              "cs_1" (StripeError "No such checkout.session: cs_1")
              (Scenario.world_with "pending") eq_refl eq_refl)
    as (Hr & Hp & _).
  split; assumption.
Defined.

(** C9 fails as stated: after a provider error on a [pending] session
    the poll returns [error], but the ledger still says [pending] and
    no request was sent to it. *)
Lemma provider_error_not_recorded :
  fst (check_payment_status
         (Scenario.env_stripe_failing (StripeError "No such checkout.session: cs_1"))
         "cs_1" (Scenario.world_with "pending")) = Ok "error"
  /\ Ledger.statuses "cs_1"
       (payments (snd (check_payment_status
                         (Scenario.env_stripe_failing
                            (StripeError "No such checkout.session: cs_1"))
                         "cs_1" (Scenario.world_with "pending"))))
     = ["pending"]
  /\ ["pending"] <> ["error"]
  /\ calls (snd (check_payment_status
                   (Scenario.env_stripe_failing
                      (StripeError "No such checkout.session: cs_1"))
                   "cs_1" (Scenario.world_with "pending")))
     = [CallSessionRetrieve "cs_1" (Raise (StripeError "No such checkout.session: cs_1"))].
Proof. repeat split; try reflexivity; discriminate. Qed.


(** Runs the monad's plumbing, leaving strings and numbers alone. *)
Ltac run_py :=
  cbv beta iota zeta
      delta [bind ret raise try_except getitem print time_time execute fst snd].

(** ** The retry loop *)

Section RetryFacts.

Context {A : Type}.
Variable wait : nat -> Z.
Variable f : M exn World A.

(** An attempt that returns ends the loop: no sleep, no further attempt. *)
Lemma attempts_returns (more n : nat) (w w' : World) (a : A) :
  f w = (Ok a, w') -> Tenacity.attempts wait more n f w = (Ok a, w').
Proof. intros H. destruct more; simpl; now rewrite H. Qed.

Lemma retry_returns (stop : nat) (w w' : World) (a : A) :
  f w = (Ok a, w') -> Tenacity.retry stop wait f w = (Ok a, w').
Proof. apply attempts_returns. Qed.

(** Three failed attempts: the loop sleeps after the first and the
    second, and raises [RetryError] around the error of the third. *)
Lemma retry_three_failures (w w1 w2 w3 : World) (e1 e2 e3 : exn) :
  f w = (Raise e1, w1) ->
  f (snd (sleep (inject_Z (wait 1)) w1)) = (Raise e2, w2) ->
  f (snd (sleep (inject_Z (wait 2)) w2)) = (Raise e3, w3) ->
  Tenacity.retry 3 wait f w = (Raise (RetryError e3), w3).
Proof.
  intros H1 H2 H3. unfold Tenacity.retry.
  change (3 - 1)%nat with 2%nat. cbn [Tenacity.attempts].
  rewrite H1, H2, H3. reflexivity.
Qed.

(** What every attempt and every sleep preserves, the loop preserves. *)
Lemma attempts_preserves (P : World -> Prop) :
  (forall w, P w -> P (snd (f w))) ->
  (forall w d, P w -> P (snd (sleep d w))) ->
  forall more n w, P w -> P (snd (Tenacity.attempts wait more n f w)).
Proof.
  intros Hf Hs more. induction more as [|more IH]; intros n w Hw; simpl.
  - specialize (Hf w Hw). destruct (f w) as [[a|e] w']; exact Hf.
  - specialize (Hf w Hw). destruct (f w) as [[a|e] w']; [exact Hf|].
    apply IH. apply Hs. exact Hf.
Qed.

(** A value the loop returns was returned by one attempt, started in
    a world that failed attempts and sleeps led to. *)
Lemma attempts_returned_by (P : World -> Prop) :
  (forall w e w', P w -> f w = (Raise e, w') -> P w') ->
  (forall w d, P w -> P (snd (sleep d w))) ->
  forall more n w a w',
    P w -> Tenacity.attempts wait more n f w = (Ok a, w') ->
    exists w0, P w0 /\ f w0 = (Ok a, w').
Proof.
  intros Hf Hs more. induction more as [|more IH]; intros n w a w' Hw Hrun;
    simpl in Hrun.
  - destruct (f w) as [[a0|e] w0] eqn:E; inversion Hrun; subst.
    exists w. split; assumption.
  - destruct (f w) as [[a0|e] w0] eqn:E.
    + inversion Hrun; subst. exists w. split; assumption.
    + apply (IH _ _ _ _ (Hs _ _ (Hf _ _ _ Hw E)) Hrun).
Qed.

(** When the loop raises, every attempt it made had raised. *)
Lemma attempts_raises_preserves (P : World -> Prop) :
  (forall w e w', P w -> f w = (Raise e, w') -> P w') ->
  (forall w d, P w -> P (snd (sleep d w))) ->
  forall more n w e w',
    P w -> Tenacity.attempts wait more n f w = (Raise e, w') -> P w'.
Proof.
  intros Hf Hs more. induction more as [|more IH]; intros n w e w' Hw Hrun;
    simpl in Hrun.
  - destruct (f w) as [[a0|e0] w0] eqn:E; inversion Hrun; subst.
    apply (Hf _ _ _ Hw E).
  - destruct (f w) as [[a0|e0] w0] eqn:E; [discriminate|].
    apply (IH _ _ _ _ (Hs _ _ (Hf _ _ _ Hw E)) Hrun).
Qed.

End RetryFacts.

(** ** [verify_webhook] *)

Section WebhookFacts.

Variable env : Env.
Variable self : PaymentProcessor.

(** One attempt of [verify_webhook] on an event that does not verify. *)
Lemma verify_webhook_body_rejects (payload sig_header : string) (e : exn) (w : World) :
  construct_event env (calls w) payload sig_header (stripe_webhook_secret self) = Raise e ->
  verify_webhook_body env self payload sig_header w
  = if is_SignatureVerificationError e
    then (Ok None,
          add_stdout ("Webhook verification failed: " ++ str env e)
                     (add_call (CallConstructEvent payload sig_header (Raise e)) w))
    else (Raise e, add_call (CallConstructEvent payload sig_header (Raise e)) w).
Proof.
  intros H.
  unfold verify_webhook_body, try_except, bind, stripe_construct_event, print, ret.
  rewrite H. destruct (is_SignatureVerificationError e); reflexivity.
Qed.

(** One attempt on a verified event of another type than
    [checkout.session.completed]. *)
Lemma verify_webhook_body_ignores (payload sig_header : string) (ev : Event) (w : World) :
  construct_event env (calls w) payload sig_header (stripe_webhook_secret self) = Ok ev ->
  ev_type ev <> "checkout.session.completed" ->
  verify_webhook_body env self payload sig_header w
  = (Ok (Some ev), add_call (CallConstructEvent payload sig_header (Ok ev)) w).
Proof.
  intros H Hty. apply String.eqb_neq in Hty.
  unfold verify_webhook_body, try_except, bind, stripe_construct_event, ret.
  rewrite H, Hty. reflexivity.
Qed.

End WebhookFacts.

(** C6: when the signature does not verify, [verify_webhook] returns
    [None], the rejection, after that one verification: nothing is
    sent to the ledger, which stays as it was, and the failure is
    printed. *)
Theorem verify_webhook_invalid_signature
        (env : Env) (self : PaymentProcessor) (payload sig_header msg : string) (w : World) :
  construct_event env (calls w) payload sig_header (stripe_webhook_secret self)
  = Raise (SignatureVerificationError msg) ->
  fst (verify_webhook env self payload sig_header w) = Ok None
  /\ payments (snd (verify_webhook env self payload sig_header w)) = payments w
  /\ calls (snd (verify_webhook env self payload sig_header w))
     = (calls w
          ++ [CallConstructEvent payload sig_header (Raise (SignatureVerificationError msg))])%list
  /\ stdout (snd (verify_webhook env self payload sig_header w))
     = (stdout w ++ [("Webhook verification failed: " ++ msg)%string])%list.
Proof.
  intros H. unfold verify_webhook.
  erewrite retry_returns
    by (rewrite (verify_webhook_body_rejects _ _ _ _ _ _ H); reflexivity).
  repeat split.
Qed.

Lemma verify_webhook_invalid_signature_witness :
  fst (verify_webhook (Scenario.env_stripe_failing (SignatureVerificationError "No signatures found"))
                      Scenario.processor "{}" "bad-signature" (Scenario.world_with "pending"))
  = Ok None
  /\ payments (snd (verify_webhook
                      (Scenario.env_stripe_failing (SignatureVerificationError "No signatures found"))
                      Scenario.processor "{}" "bad-signature" (Scenario.world_with "pending")))
     = payments (Scenario.world_with "pending").
Proof.
  destruct (verify_webhook_invalid_signature
              (Scenario.env_stripe_failing (SignatureVerificationError "No signatures found"))
              Scenario.processor "{}" "bad-signature" "No signatures found"
              (Scenario.world_with "pending") eq_refl)
    as (Hr & Hp & _).
  split; assumption.
Defined.

(** C10: a delivery whose signature verifies and whose event is of
    another type than [checkout.session.completed] sends nothing to
    the ledger, which stays as it was, and the parsed event is
    returned. *)
Theorem verify_webhook_other_event_type
        (env : Env) (self : PaymentProcessor) (payload sig_header : string)
        (ev : Event) (w : World) :
  construct_event env (calls w) payload sig_header (stripe_webhook_secret self) = Ok ev ->
  ev_type ev <> "checkout.session.completed" ->
  fst (verify_webhook env self payload sig_header w) = Ok (Some ev)
  /\ payments (snd (verify_webhook env self payload sig_header w)) = payments w
  /\ calls (snd (verify_webhook env self payload sig_header w))
     = (calls w ++ [CallConstructEvent payload sig_header (Ok ev)])%list.
Proof.
  intros H Hty. unfold verify_webhook.
  erewrite retry_returns by (apply verify_webhook_body_ignores; eassumption).
  repeat split.
Qed.

Lemma verify_webhook_other_event_type_witness :
  ev_type Scenario.other_event <> "checkout.session.completed"
  /\ fst (Scenario.deliver Scenario.other_event "pending") = Ok (Some Scenario.other_event)
  /\ payments (snd (Scenario.deliver Scenario.other_event "pending"))
     = payments (Scenario.world_with "pending").
Proof.
  assert (Hty : ev_type Scenario.other_event <> "checkout.session.completed")
    by discriminate.
  split; [exact Hty|].
  destruct (verify_webhook_other_event_type
              (Scenario.env_reporting "unpaid" Scenario.other_event)
              Scenario.processor "{}" "t=1,v1=abc" Scenario.other_event
              (Scenario.world_with "pending") eq_refl Hty)
    as (Hr & Hp & _).
  split; assumption.
Defined.

(** ** What a write does to a session recorded as paid *)

Section PaidFacts.

Import Ledger.

Variable sid : string.

(** A patch that sets the status to [paid] keeps a paid session paid,
    whichever rows it is applied to. *)
Lemma update_rows_all_paid (p : Patch) (id : string) (rows : list Row) :
  p_status p = Some "paid" ->
  Forall (fun st => st = "paid") (statuses sid rows) ->
  Forall (fun st => st = "paid") (statuses sid (update_rows p id rows)).
Proof.
  intros Hp. unfold statuses, update_rows.
  induction rows as [|r rows IH]; simpl; intros H; [constructor|].
  assert (Hrows : Forall (fun st => st = "paid")
                         (map status (filter (fun r => String.eqb (session_id r) sid) rows))).
  { destruct (String.eqb (session_id r) sid); [now inversion H | exact H]. }
  specialize (IH Hrows).
  destruct (String.eqb (session_id r) id).
  - destruct (String.eqb (session_id (apply_patch p r)) sid); [|exact IH].
    constructor; [|exact IH]. simpl. now rewrite Hp.
  - destruct (String.eqb (session_id r) sid) eqn:E; [|exact IH].
    constructor; [now inversion H | exact IH].
Qed.

(** A patch that does not rename the session does not lose its rows. *)
Lemma update_rows_keeps_rows (p : Patch) (id : string) (rows : list Row) :
  (id = sid -> override (p_session_id p) sid = sid) ->
  length (statuses sid rows) <= length (statuses sid (update_rows p id rows)).
Proof.
  intros Hid. unfold statuses, update_rows.
  induction rows as [|r rows IH]; simpl; [lia|].
  destruct (String.eqb (session_id r) id) eqn:Eid.
  - destruct (String.eqb (session_id r) sid) eqn:Es.
    + apply String.eqb_eq in Eid, Es.
      assert (Hn : session_id (apply_patch p r) = sid).
      { simpl. rewrite Es. apply Hid. congruence. }
      apply String.eqb_eq in Hn. rewrite Hn. simpl. lia.
    + destruct (String.eqb (session_id (apply_patch p r)) sid); simpl; lia.
  - destruct (String.eqb (session_id r) sid); simpl; lia.
Qed.

Lemma paid_rows_same_payments (n : nat) (w w' : World) :
  payments w' = payments w -> paid_rows sid n w -> paid_rows sid n w'.
Proof. unfold paid_rows, all_paid. intros ->. auto. Qed.

Lemma paid_rows_update (n : nat) (p : Patch) (id : string) (w w' : World) :
  p_status p = Some "paid" ->
  (id = sid -> override (p_session_id p) sid = sid) ->
  payments w' = update_rows p id (payments w) ->
  paid_rows sid n w -> paid_rows sid n w'.
Proof.
  unfold paid_rows, all_paid. intros Hp Hid -> [Hall Hn]. split.
  - now apply update_rows_all_paid.
  - pose proof (update_rows_keeps_rows p id (payments w) Hid). lia.
Qed.

End PaidFacts.

Section WebhookWrites.

Variable env : Env.
Variable self : PaymentProcessor.

(** One attempt of [verify_webhook] leaves the ledger as it was, or
    overwrites status and session id of the rows of the event's
    session, for a verified [checkout.session.completed] event. *)
Lemma verify_webhook_body_payments (payload sig_header : string) (w : World) :
  payments (snd (verify_webhook_body env self payload sig_header w)) = payments w
  \/ exists ev id st ua,
      construct_event env (calls w) payload sig_header (stripe_webhook_secret self) = Ok ev
      /\ ev_type ev = "checkout.session.completed"
      /\ so_id (ev_object ev) = Some id
      /\ so_payment_status (ev_object ev) = Some st
      /\ payments (snd (verify_webhook_body env self payload sig_header w))
         = Ledger.update_rows
             (mkPatch (Some st) ua None
                      (Some (if falsy id then "local_" ++ timestamp_str env (clock w) else id)))
             id (payments w).
Proof.
  unfold verify_webhook_body, stripe_construct_event, webhook_update. run_py.
  destruct (construct_event env (calls w) payload sig_header (stripe_webhook_secret self))
    as [ev|e] eqn:Hev; run_py.
  - destruct (String.eqb (ev_type ev) "checkout.session.completed") eqn:Hty; run_py;
      [|left; reflexivity].
    destruct (so_payment_status (ev_object ev)) as [st|] eqn:Hst; run_py;
      [|left; reflexivity].
    destruct (so_id (ev_object ev)) as [id|] eqn:Hid; run_py; [|left; reflexivity].
    match goal with
    | |- context [supabase_execute env ?h ?op] =>
        destruct (supabase_execute env h op) as [e|] eqn:Hex; run_py
    end.
    + left. destruct (is_SignatureVerificationError e); reflexivity.
    + right. exists ev, id, st, (Some (isoformat env (clock w))).
      apply String.eqb_eq in Hty. repeat split; assumption.
  - left. destruct (is_SignatureVerificationError e); reflexivity.
Qed.

End WebhookWrites.

(** C1 (as amended): a session the ledger records as [paid] stays
    [paid], and keeps its rows, through a poll whose answer from
    Stripe reports [paid] or is an error, and through a webhook
    delivery whose events report [paid] for the sessions they name, do
    not verify or are of another type.  The writes themselves do not
    look at the stored status: it is the reported status that keeps
    the session paid. *)
Theorem paid_kept_when_paid_is_reported
        (env : Env) (self : PaymentProcessor) (sid payload sig_header : string) (w : World) :
  all_paid sid w ->
  sid <> "" ->
  (forall session,
      Session_retrieve env (calls w) sid = Ok session -> cs_payment_status session = "paid") ->
  (forall h ev,
      construct_event env h payload sig_header (stripe_webhook_secret self) = Ok ev ->
      ev_type ev = "checkout.session.completed" ->
      so_payment_status (ev_object ev) = Some "paid") ->
  keeps_paid sid w (snd (check_payment_status env sid w))
  /\ keeps_paid sid w (snd (verify_webhook env self payload sig_header w)).
Proof.
  intros Hpaid Hsid Hpoll Hhook.
  assert (H0 : paid_rows sid (length (Ledger.statuses sid (payments w))) w)
    by (split; [exact Hpaid | lia]).
  split.
  - change (paid_rows sid (length (Ledger.statuses sid (payments w)))
                      (snd (check_payment_status env sid w))).
    destruct (check_payment_status_payments env sid w) as [Hsame|(session & Hr & _ & Hup)].
    + exact (paid_rows_same_payments _ _ _ _ Hsame H0).
    + apply (paid_rows_update sid _ (poll_patch env session w) sid w); auto.
      simpl. now rewrite (Hpoll _ Hr).
  - change (paid_rows sid (length (Ledger.statuses sid (payments w)))
                      (snd (verify_webhook env self payload sig_header w))).
    unfold verify_webhook, Tenacity.retry.
    apply attempts_preserves; [| |exact H0].
    + intros w1 H1.
      destruct (verify_webhook_body_payments env self payload sig_header w1)
        as [Hsame|(ev & id & st & ua & Hev & Hty & Hid & Hst & Hup)].
      * exact (paid_rows_same_payments _ _ _ _ Hsame H1).
      * eapply paid_rows_update; [| |exact Hup|exact H1].
        -- simpl. rewrite (Hhook _ _ Hev Hty) in Hst. congruence.
        -- simpl. intros ->. destruct sid; [congruence|reflexivity].
    + intros w1 d H1. exact (paid_rows_same_payments _ _ _ _ eq_refl H1).
Qed.

Lemma paid_kept_when_paid_is_reported_witness :
  all_paid "cs_1" (Scenario.world_with "paid")
  /\ "cs_1" <> ""
  /\ keeps_paid "cs_1" (Scenario.world_with "paid") (snd (Scenario.poll "paid" "paid"))
  /\ keeps_paid "cs_1" (Scenario.world_with "paid")
                (snd (verify_webhook (Scenario.env_reporting "paid" (Scenario.completed "paid"))
                                     Scenario.processor "{}" "t=1,v1=abc"
                                     (Scenario.world_with "paid"))).
Proof.
  assert (H0 : all_paid "cs_1" (Scenario.world_with "paid"))
    by (repeat constructor).
  assert (Hne : "cs_1" <> "") by discriminate.
  split; [exact H0|]. split; [exact Hne|].
  apply (paid_kept_when_paid_is_reported
           (Scenario.env_reporting "paid" (Scenario.completed "paid"))
           Scenario.processor "cs_1" "{}" "t=1,v1=abc" (Scenario.world_with "paid") H0 Hne).
  - intros session H. inversion H. reflexivity.
  - intros h ev H _. inversion H. reflexivity.
Defined.

(** C1 fails as stated: with session [cs_1] recorded as [paid], a poll
    answered [unpaid] by Stripe, and a verified
    [checkout.session.completed] event carrying [unpaid], each leave
    the ledger saying [unpaid]. *)
Lemma paid_status_overwritten :
  Ledger.statuses "cs_1" (payments (Scenario.world_with "paid")) = ["paid"]
  /\ Ledger.statuses "cs_1" (payments (snd (Scenario.poll "unpaid" "paid"))) = ["unpaid"]
  /\ Ledger.statuses "cs_1"
       (payments (snd (Scenario.deliver (Scenario.completed "unpaid") "paid"))) = ["unpaid"]
  /\ ["unpaid"] <> ["paid"].
Proof. repeat split; try reflexivity; discriminate. Qed.

(** ** [log_transaction] and [create_payment_session] *)

Section CreateFacts.

Variable env : Env.
Variable self : PaymentProcessor.

(** The row [log_transaction] inserts when called in world [w]. *)
Lemma log_transaction_body_cases (uid sid : string) (w : World) :
  let r := mkRow uid sid "pending" (strftime env (clock w)) None None in
  log_transaction_body env uid sid w
  = match supabase_execute env (calls w) (Insert r) with
    | Some e => (Raise e, add_call (CallExecute (Insert r) (Some e)) w)
    | None => (Ok tt, set_payments (payments w ++ [r])
                                   (add_call (CallExecute (Insert r) None) w))
    end.
Proof.
  unfold log_transaction_body. run_py.
  destruct (supabase_execute env (calls w) _); reflexivity.
Qed.

Lemma log_transaction_body_raises (uid sid : string) (w w' : World) (e : exn) :
  log_transaction_body env uid sid w = (Raise e, w') -> payments w' = payments w.
Proof.
  rewrite log_transaction_body_cases.
  destruct (supabase_execute env (calls w) _); intros H; inversion H; reflexivity.
Qed.

(** When [log_transaction] returns, one row has been inserted. *)
Lemma log_transaction_returns (uid sid : string) (w w' : World) (u : unit) :
  log_transaction env uid sid w = (Ok u, w') ->
  exists t, payments w' = (payments w ++ [mkRow uid sid "pending" t None None])%list.
Proof.
  intros H. unfold log_transaction, Tenacity.retry in H.
  apply (attempts_returned_by _ _ (fun w0 => payments w0 = payments w)) in H.
  - destruct H as (w0 & Hw0 & H). rewrite log_transaction_body_cases in H.
    destruct (supabase_execute env (calls w0) _); inversion H; subst.
    exists (strftime env (clock w0)). simpl. now rewrite Hw0.
  - intros w0 e w1 Hw0 Hf. rewrite <- Hw0. eapply log_transaction_body_raises; eauto.
  - intros w0 d Hw0. exact Hw0.
  - reflexivity.
Qed.

(** When it raises, nothing has been inserted, and the exception is
    tenacity's. *)
Lemma log_transaction_raises (uid sid : string) (w w' : World) (e : exn) :
  log_transaction env uid sid w = (Raise e, w') ->
  payments w' = payments w /\ is_StripeError e = false.
Proof.
  intros H. unfold log_transaction, Tenacity.retry in H. split.
  - apply (attempts_raises_preserves _ _ (fun w0 => payments w0 = payments w)) in H; auto.
    intros w0 e0 w1 Hw0 Hf. rewrite <- Hw0. eapply log_transaction_body_raises; eauto.
  - revert H. change (3 - 1)%nat with 2%nat. cbn [Tenacity.attempts].
    repeat match goal with
           | |- context [log_transaction_body env uid sid ?x] =>
               destruct (log_transaction_body env uid sid x) as [[?|?] ?]
           end;
      intros H; inversion H; reflexivity.
Qed.

(** One attempt of [create_payment_session] that returns a URL. *)
Lemma create_payment_session_body_returns (uid url : string) (w w' : World) :
  create_payment_session_body env self uid w = (Ok (Some url), w') ->
  exists session t,
    Session_create env (calls w) (create_args self uid) = Ok session
    /\ cs_url session = url
    /\ payments w'
       = (payments w ++ [mkRow uid (cs_id session) "pending" t None None])%list.
Proof.
  unfold create_payment_session_body, stripe_Session_create. run_py.
  destruct (Session_create env (calls w) (create_args self uid)) as [session|e] eqn:Hc.
  - destruct (log_transaction env uid (cs_id session) _) as [[u|e] w1] eqn:Hl.
    + intros H. inversion H; subst.
      apply log_transaction_returns in Hl. destruct Hl as (t & Ht).
      exists session, t. repeat split. exact Ht.
    + apply log_transaction_raises in Hl. destruct Hl as [_ He]. rewrite He.
      discriminate.
  - destruct (is_StripeError e); discriminate.
Qed.

(** One attempt that raises has inserted nothing. *)
Lemma create_payment_session_body_raises (uid : string) (w w' : World) (e : exn) :
  create_payment_session_body env self uid w = (Raise e, w') ->
  payments w' = payments w.
Proof.
  unfold create_payment_session_body, stripe_Session_create. run_py.
  destruct (Session_create env (calls w) (create_args self uid)) as [session|e0] eqn:Hc.
  - destruct (log_transaction env uid (cs_id session) _) as [[u|e0] w1] eqn:Hl.
    + discriminate.
    + apply log_transaction_raises in Hl. destruct Hl as [Hp He]. rewrite He.
      intros H. inversion H; subst. exact Hp.
  - destruct (is_StripeError e0); intros H; inversion H; reflexivity.
Qed.

(** With Stripe answering and the ledger refusing every request, one
    attempt raises tenacity's error from [log_transaction]. *)
Lemma create_payment_session_body_ledger_down (uid : string) (w : World) :
  (forall h a, exists session, Session_create env h a = Ok session) ->
  (forall h op, supabase_execute env h op <> None) ->
  exists e w',
    create_payment_session_body env self uid w = (Raise (RetryError e), w').
Proof.
  intros Hstripe Hledger.
  unfold create_payment_session_body, stripe_Session_create. run_py.
  destruct (Hstripe (calls w) (create_args self uid)) as [session ->].
  unfold log_transaction, Tenacity.retry.
  change (3 - 1)%nat with 2%nat. cbn [Tenacity.attempts].
  repeat (rewrite log_transaction_body_cases;
          match goal with
          | |- context [supabase_execute env ?h ?op] =>
              let E := fresh "E" in
              destruct (supabase_execute env h op) eqn:E;
              [|exfalso; exact (Hledger _ _ E)]
          end).
  simpl. eauto.
Qed.

End CreateFacts.

Section RetryAlwaysRaising.

Context {A : Type}.
Variable wait : nat -> Z.
Variable f : M exn World A.
Variable Q : exn -> Prop.

(** A function that raises in every world exhausts the loop, which
    raises [RetryError] around an error of the function. *)
Lemma attempts_always_raising :
  (forall w, exists e w', f w = (Raise e, w') /\ Q e) ->
  forall more n w,
  exists e w', Tenacity.attempts wait more n f w = (Raise (RetryError e), w') /\ Q e.
Proof.
  intros Hf more. induction more as [|more IH]; intros n w; simpl.
  - destruct (Hf w) as (e & w' & -> & He). eauto.
  - destruct (Hf w) as (e & w' & -> & He). apply IH.
Qed.

End RetryAlwaysRaising.

(** What [log_transaction] adds to the history holds no call to
    [Session.create]. *)
Lemma log_transaction_calls
      (env : Env) (uid sid : string) (w : World) :
  exists after,
    calls (snd (log_transaction env uid sid w)) = (calls w ++ after)%list
    /\ existsb is_session_create after = false.
Proof.
  unfold log_transaction, Tenacity.retry.
  apply attempts_preserves
    with (P := fun w' => exists after,
                   calls w' = (calls w ++ after)%list
                   /\ existsb is_session_create after = false).
  - intros w1 (after & Hc & Hn). rewrite log_transaction_body_cases.
    destruct (supabase_execute env (calls w1) _) as [e|];
      cbn [snd calls add_call set_payments]; rewrite Hc;
      eexists (after ++ [_])%list; rewrite <- app_assoc;
      (split; [reflexivity|]); rewrite existsb_app, Hn; reflexivity.
  - intros w1 d (after & Hc & Hn). cbn [snd sleep calls add_call set_clock]. rewrite Hc.
    exists (after ++ [CallSleep d])%list. rewrite <- app_assoc.
    split; [reflexivity|]. rewrite existsb_app, Hn. reflexivity.
  - exists []. rewrite app_nil_r. split; reflexivity.
Qed.

(** One attempt of [create_payment_session] only adds to the history. *)
Lemma create_payment_session_body_calls
      (env : Env) (self : PaymentProcessor) (uid : string) (w : World) :
  exists l,
    calls (snd (create_payment_session_body env self uid w)) = (calls w ++ l)%list.
Proof.
  unfold create_payment_session_body, stripe_Session_create. run_py.
  destruct (Session_create env (calls w) (create_args self uid)) as [session|e] eqn:Hc.
  - match goal with
    | |- context [log_transaction env uid ?s ?x] =>
        destruct (log_transaction_calls env uid s x) as (after & Hcalls & _);
          destruct (log_transaction env uid s x) as [[u|e] w1]
    end; cbn [snd calls add_call] in Hcalls.
    + cbn [snd]. rewrite Hcalls, <- app_assoc. eexists. reflexivity.
    + destruct (is_StripeError e); cbn [snd calls add_stdout];
        rewrite Hcalls, <- app_assoc; eexists; reflexivity.
  - destruct (is_StripeError e); cbn [snd calls add_stdout add_call];
      eexists; reflexivity.
Qed.

(** One attempt that returns a URL: the session is the one Stripe
    created in this attempt. *)
Lemma create_payment_session_body_session
      (env : Env) (self : PaymentProcessor) (uid url : string) (w w' : World) :
  create_payment_session_body env self uid w = (Ok (Some url), w') ->
  exists session t after,
    calls w'
    = (calls w ++ CallSessionCreate (create_args self uid) (Ok session) :: after)%list
    /\ existsb is_session_create after = false
    /\ cs_url session = url
    /\ payments w'
       = (payments w ++ [mkRow uid (cs_id session) "pending" t None None])%list.
Proof.
  unfold create_payment_session_body, stripe_Session_create. run_py.
  destruct (Session_create env (calls w) (create_args self uid)) as [session|e] eqn:Hc.
  - match goal with
    | |- context [log_transaction env uid ?s ?x] =>
        destruct (log_transaction_calls env uid s x) as (after & Hcalls & Hn);
          destruct (log_transaction env uid s x) as [[u|e] w1] eqn:Hl
    end; cbn [snd calls add_call] in Hcalls.
    + intros H. inversion H; subst.
      apply log_transaction_returns in Hl. destruct Hl as (t & Ht).
      exists session, t, after. rewrite Hcalls, <- app_assoc.
      repeat split; [exact Hn|exact Ht].
    + apply log_transaction_raises in Hl. destruct Hl as [_ He]. rewrite He.
      discriminate.
  - destruct (is_StripeError e); discriminate.
Qed.

(** C7 (as amended): when [create_payment_session] returns the
    redirect URL, it has inserted one ledger row for the user and the
    session Stripe created, with status [pending], before returning:
    the session is the one Stripe returned to the last
    [Session.create] of this call, the URL is that session's, and the
    row carries its id.  When the ledger refuses every request while
    Stripe answers, the URL is not returned: [log_transaction] gives
    up after its attempts, the whole creation is tried again, and the
    call ends by raising tenacity's [RetryError], the ledger
    unchanged. *)
Theorem create_payment_session_ledger_row
        (env : Env) (self : PaymentProcessor) (uid : string) (w : World) :
  (forall url w',
      create_payment_session env self uid w = (Ok (Some url), w') ->
      exists session t before after,
        calls w'
        = (calls w ++ before
             ++ CallSessionCreate (create_args self uid) (Ok session) :: after)%list
        /\ existsb is_session_create after = false
        /\ cs_url session = url
        /\ payments w'
           = (payments w ++ [mkRow uid (cs_id session) "pending" t None None])%list)
  /\ ((forall h a, exists session, Session_create env h a = Ok session) ->
      (forall h op, supabase_execute env h op <> None) ->
      exists e,
        fst (create_payment_session env self uid w) = Raise (RetryError (RetryError e))
        /\ payments (snd (create_payment_session env self uid w)) = payments w).
Proof.
  split.
  - intros url w' H. unfold create_payment_session, Tenacity.retry in H.
    apply (attempts_returned_by
             _ _ (fun w0 => payments w0 = payments w
                            /\ exists before, calls w0 = (calls w ++ before)%list)) in H.
    + destruct H as (w0 & (Hw0 & before & Hb) & H).
      apply create_payment_session_body_session in H.
      destruct H as (session & t & after & Hcalls & Hn & Hurl & Hp).
      exists session, t, before, after.
      rewrite Hcalls, Hb, <- app_assoc.
      repeat split; [exact Hn|exact Hurl|now rewrite <- Hw0].
    + intros w0 e w1 (Hw0 & before & Hb) Hf. split.
      * rewrite <- Hw0. eapply create_payment_session_body_raises; eauto.
      * destruct (create_payment_session_body_calls env self uid w0) as (l & Hl).
        rewrite Hf in Hl. cbn [snd] in Hl. rewrite Hl, Hb, <- app_assoc.
        eexists. reflexivity.
    + intros w0 d (Hw0 & before & Hb). split; [exact Hw0|].
      cbn [snd sleep calls add_call set_clock]. rewrite Hb, <- app_assoc.
      eexists. reflexivity.
    + split; [reflexivity|]. exists []. now rewrite app_nil_r.
  - intros Hstripe Hledger.
    destruct (attempts_always_raising
                (Tenacity.wait_exponential 1 10)
                (create_payment_session_body env self uid)
                (fun e => exists e0, e = RetryError e0)
                (fun w0 =>
                   match create_payment_session_body_ledger_down
                           env self uid w0 Hstripe Hledger with
                   | ex_intro _ e (ex_intro _ w' H) =>
                       ex_intro _ (RetryError e)
                                (ex_intro _ w' (conj H (ex_intro _ e eq_refl)))
                   end)
                2%nat 1%nat w) as (e & w' & Hrun & e0 & ->).
    exists e0. unfold create_payment_session, Tenacity.retry.
    change (3 - 1)%nat with 2%nat. rewrite Hrun. split; [reflexivity|].
    apply (attempts_raises_preserves _ _ (fun w0 => payments w0 = payments w)) in Hrun; auto.
    intros w0 e1 w1 Hw0 Hf. rewrite <- Hw0.
    eapply create_payment_session_body_raises; eauto.
Qed.

Lemma create_payment_session_ledger_row_witness :
  (exists session t before after,
      calls (snd (create_payment_session
                    (Scenario.env_reporting "unpaid" (Scenario.completed "paid"))
                    Scenario.processor "u1" Scenario.empty_world))
      = (calls Scenario.empty_world ++ before
           ++ CallSessionCreate (create_args Scenario.processor "u1") (Ok session)
           :: after)%list
      /\ existsb is_session_create after = false
      /\ cs_url session = "https://checkout.stripe.com/pay/cs_1#fid"
      /\ payments (snd (create_payment_session
                          (Scenario.env_reporting "unpaid" (Scenario.completed "paid"))
                          Scenario.processor "u1" Scenario.empty_world))
         = (payments Scenario.empty_world
              ++ [mkRow "u1" (cs_id session) "pending" t None None])%list)
  /\ exists e,
      fst (create_payment_session
             (Scenario.env_ledger_failing (PyException "connection refused"))
             Scenario.processor "u1" Scenario.empty_world)
      = Raise (RetryError (RetryError e)).
Proof.
  split.
  - apply (proj1 (create_payment_session_ledger_row
                    (Scenario.env_reporting "unpaid" (Scenario.completed "paid"))
                    Scenario.processor "u1" Scenario.empty_world)).
    reflexivity.
  - destruct (proj2 (create_payment_session_ledger_row
                       (Scenario.env_ledger_failing (PyException "connection refused"))
                       Scenario.processor "u1" Scenario.empty_world)) as (e & He & _).
    + intros h a. eexists. reflexivity.
    + intros h op. discriminate.
    + exists e. exact He.
Defined.

(** C7 fails as stated: the row [create_payment_session] inserts has
    status [pending], not [created]; and when the ledger refuses the
    insert after Stripe created the session, the call raises instead
    of returning the URL. *)
Lemma create_payment_session_not_as_specified :
  map status (payments (snd (create_payment_session
                               (Scenario.env_reporting "unpaid" (Scenario.completed "paid"))
                               Scenario.processor "u1" Scenario.empty_world)))
  = ["pending"]
  /\ ["pending"] <> ["created"]
  /\ fst (create_payment_session
            (Scenario.env_ledger_failing (PyException "connection refused"))
            Scenario.processor "u1" Scenario.empty_world)
     = Raise (RetryError (RetryError (PyException "connection refused")))
  /\ fst (create_payment_session
            (Scenario.env_ledger_failing (PyException "connection refused"))
            Scenario.processor "u1" Scenario.empty_world)
     <> Ok (Some "https://checkout.stripe.com/pay/cs_1#fid").
Proof.
  split; [vm_compute; reflexivity|].
  split; [discriminate|].
  split; [vm_compute; reflexivity|].
  vm_compute. discriminate.
Qed.

(** ** Which failures are retried *)

Section RetriedFailures.

Variable env : Env.
Variable self : PaymentProcessor.

(** One attempt of [create_payment_session] when Stripe fails. *)
Lemma create_payment_session_body_stripe_fails (uid : string) (e : exn) (w : World) :
  Session_create env (calls w) (create_args self uid) = Raise e ->
  create_payment_session_body env self uid w
  = if is_StripeError e
    then (Ok None,
          add_stdout ("Payment failed: " ++ str env e)
                     (add_call (CallSessionCreate (create_args self uid) (Raise e)) w))
    else (Raise e, add_call (CallSessionCreate (create_args self uid) (Raise e)) w).
Proof.
  intros H. unfold create_payment_session_body, stripe_Session_create. run_py.
  rewrite H. destruct (is_StripeError e); reflexivity.
Qed.

Lemma calls_after_failed_attempt (c : Call) (n : nat) (wait : nat -> Z) (w : World) :
  calls (snd (sleep (inject_Z (wait n)) (add_call c w)))
  = failed_attempt c (wait n) (calls w).
Proof. unfold failed_attempt. simpl. now rewrite <- app_assoc. Qed.

End RetriedFailures.

(** C8 (as amended): [check_payment_status] makes a single attempt
    whatever the failure: a Stripe error gives [error], any other
    exception goes to the caller.  The retry of up to 3 attempts, with
    waits of 1 and then 2 time units, covers [create_payment_session]
    and [verify_webhook] and fires on the exceptions that leave the
    function (a signature error does not leave [verify_webhook]).
    After a third failed attempt the caller gets tenacity's
    [RetryError] around the error of that attempt. *)
Theorem provider_calls_retry_policy
        (env : Env) (self : PaymentProcessor) (w : World) :
  (forall sid e,
      Session_retrieve env (calls w) sid = Raise e ->
      fst (check_payment_status env sid w)
      = (if is_StripeError e then Ok "error" else Raise e)
      /\ calls (snd (check_payment_status env sid w))
         = (calls w ++ [CallSessionRetrieve sid (Raise e)])%list)
  /\ (forall uid e1 e2 e3,
         let c := fun e => CallSessionCreate (create_args self uid) (Raise e) in
         let h1 := failed_attempt (c e1) 1 (calls w) in
         let h2 := failed_attempt (c e2) 2 h1 in
         Session_create env (calls w) (create_args self uid) = Raise e1 ->
         Session_create env h1 (create_args self uid) = Raise e2 ->
         Session_create env h2 (create_args self uid) = Raise e3 ->
         is_StripeError e1 = false -> is_StripeError e2 = false ->
         is_StripeError e3 = false ->
         fst (create_payment_session env self uid w) = Raise (RetryError e3)
         /\ calls (snd (create_payment_session env self uid w)) = (h2 ++ [c e3])%list)
  /\ (forall payload sig_header e1 e2 e3,
         let c := fun e => CallConstructEvent payload sig_header (Raise e) in
         let h1 := failed_attempt (c e1) 1 (calls w) in
         let h2 := failed_attempt (c e2) 2 h1 in
         let secret := stripe_webhook_secret self in
         construct_event env (calls w) payload sig_header secret = Raise e1 ->
         construct_event env h1 payload sig_header secret = Raise e2 ->
         construct_event env h2 payload sig_header secret = Raise e3 ->
         is_SignatureVerificationError e1 = false ->
         is_SignatureVerificationError e2 = false ->
         is_SignatureVerificationError e3 = false ->
         fst (verify_webhook env self payload sig_header w) = Raise (RetryError e3)
         /\ calls (snd (verify_webhook env self payload sig_header w)) = (h2 ++ [c e3])%list).
Proof.
  split; [|split].
  - intros sid e H.
    pose proof (check_payment_status_cases env sid w) as Hc. rewrite H in Hc.
    rewrite Hc. destruct (is_StripeError e); split; reflexivity.
  - intros uid e1 e2 e3 c h1 h2 H1 H2 H3 N1 N2 N3. subst c h1 h2.
    unfold create_payment_session.
    erewrite retry_three_failures; cycle 1.
    + rewrite (create_payment_session_body_stripe_fails _ _ _ _ _ H1), N1. reflexivity.
    + rewrite (create_payment_session_body_stripe_fails _ _ _ e2), N2; [reflexivity|].
      rewrite calls_after_failed_attempt. exact H2.
    + rewrite (create_payment_session_body_stripe_fails _ _ _ e3), N3; [reflexivity|].
      rewrite !calls_after_failed_attempt. exact H3.
    + split; [reflexivity|].
      unfold failed_attempt. simpl. now rewrite <- !app_assoc.
  - intros payload sig_header e1 e2 e3 c h1 h2 secret H1 H2 H3 N1 N2 N3.
    subst c h1 h2 secret.
    unfold verify_webhook.
    erewrite retry_three_failures; cycle 1.
    + rewrite (verify_webhook_body_rejects _ _ _ _ _ _ H1), N1. reflexivity.
    + rewrite (verify_webhook_body_rejects _ _ _ _ e2), N2; [reflexivity|].
      rewrite calls_after_failed_attempt. exact H2.
    + rewrite (verify_webhook_body_rejects _ _ _ _ e3), N3; [reflexivity|].
      rewrite !calls_after_failed_attempt. exact H3.
    + split; [reflexivity|].
      unfold failed_attempt. simpl. now rewrite <- !app_assoc.
Qed.

Lemma provider_calls_retry_policy_witness :
  fst (check_payment_status (Scenario.env_stripe_failing (StripeError "Connection reset"))
                            "cs_1" Scenario.empty_world)
  = Ok "error"
  /\ fst (create_payment_session (Scenario.env_stripe_failing (PyException "boom"))
                                 Scenario.processor "u1" Scenario.empty_world)
     = Raise (RetryError (PyException "boom"))
  /\ fst (verify_webhook (Scenario.env_stripe_failing (PyException "boom"))
                         Scenario.processor "{}" "t=1,v1=abc" Scenario.empty_world)
     = Raise (RetryError (PyException "boom")).
Proof.
  destruct (provider_calls_retry_policy
              (Scenario.env_stripe_failing (StripeError "Connection reset"))
              Scenario.processor Scenario.empty_world) as (Hb & _).
  destruct (provider_calls_retry_policy
              (Scenario.env_stripe_failing (PyException "boom"))
              Scenario.processor Scenario.empty_world) as (_ & Hc & Hd).
  split; [|split].
  - apply (Hb "cs_1" (StripeError "Connection reset")); reflexivity.
  - apply (Hc "u1" (PyException "boom") (PyException "boom") (PyException "boom"));
      reflexivity.
  - apply (Hd "{}" "t=1,v1=abc" (PyException "boom") (PyException "boom") (PyException "boom"));
      reflexivity.
Defined.

(** C8 fails as stated: with Stripe failing on every call with a
    connection error, [create_payment_session] and
    [check_payment_status] each call Stripe once, never sleep, and
    return [None] and [error]: the failure is neither retried nor
    raised to the caller. *)
Lemma provider_error_not_retried :
  create_payment_session (Scenario.env_stripe_failing (StripeError "Connection reset"))
                         Scenario.processor "u1" Scenario.empty_world
  = (Ok None,
     mkWorld 1000 [] ["Payment failed: Connection reset"] []
             [CallSessionCreate (create_args Scenario.processor "u1")
                                (Raise (StripeError "Connection reset"))])
  /\ check_payment_status (Scenario.env_stripe_failing (StripeError "Connection reset"))
                          "cs_1" Scenario.empty_world
     = (Ok "error",
        mkWorld 1000 [] ["Payment status check failed: Connection reset"] []
                [CallSessionRetrieve "cs_1" (Raise (StripeError "Connection reset"))]).
Proof. split; reflexivity. Qed.

(** ** The gate of [main] *)

(** Runs the plumbing of the script. *)
Ltac run_script :=
  cbv beta iota zeta
      delta [bind ret raise try_except getitem print time_time fst snd
             Script update_app call render st_error st_stop st_rerun return_
             except_Exception get_payment_state item split_on_None
             get_payment_success].

Section GateFacts.

Variable env : Env.
Variable pp : PaymentProcessor.

(** Up to the form, a resubmission only renders the title. *)
Lemma main_body_resubmission (i : Inputs) (a : App) (ps : PaymentState) :
  resubmission i ->
  payment_state (session_state a) = Some ps ->
  main_body env pp i a
  = (payment_flow env pp ;;
     paid_gate ;;
     validate_inputs i ;;
     payment_gateway env pp ;;
     generation_flow env i) (titled a).
Proof.
  intros (Hq & Hs & Hsub) Hps.
  unfold main_body, payment_callback, check_secrets, init_payment_state.
  rewrite Hq, Hs, Hsub. run_script. simpl. rewrite Hps. reflexivity.
Qed.

(** The gate on a pending payment: past the time budget it stops
    with the timeout failure; within it, it polls. *)
Lemma payment_flow_pending (a : App) (ps : PaymentState) (t0 : Q) :
  payment_state (session_state a) = Some ps ->
  ps_status ps = "pending" ->
  ps_start_time ps = Some t0 ->
  let a1 := set_world (add_ui (UiStatus "Processing Payment...") (world a)) a in
  payment_flow env pp a
  = if Qlt_le_dec 300 (clock (world a) - t0)
    then (Raise StopException,
          gate_failed (UiError "Payment timed out after 5 minutes") a1)
    else poll_pending env ps a1.
Proof.
  intros Hps Hst Ht. unfold payment_flow. run_script. simpl.
  rewrite Hps, Hst, Ht. simpl.
  destruct (Qlt_le_dec 300 (clock (world a) - t0)); reflexivity.
Qed.

(** A poll never stops the script: it asks for a rerun, or falls
    through with the attempt forgotten. *)
Lemma poll_pending_outcomes (ps : PaymentState) (a : App) :
  match poll_pending env ps a with
  | (Ok _, a') => payment_state (session_state a') = Some unpaid_state
  | (Raise RerunException, _) => True
  | (Raise _, _) => False
  end.
Proof.
  unfold poll_pending. run_script.
  destruct (ps_session_id ps) as [sid|]; [|reflexivity].
  destruct (check_payment_status env sid (world a)) as [[r|e] w']; [|reflexivity].
  destruct (String.eqb r "paid"); [exact I|].
  destruct (ps_retries ps) as [n|]; [|reflexivity].
  destruct (5 <=? n + 1)%nat; [reflexivity|exact I].
Qed.

(** A poll that is answered by another status than [paid] counts one
    more failure: the fifth forgets the attempt, an earlier one
    sleeps and asks for a rerun. *)
Lemma poll_pending_not_paid (ps : PaymentState) (a : App) (sid r : string)
      (n : nat) (w' : World) :
  ps_session_id ps = Some sid ->
  ps_retries ps = Some n ->
  check_payment_status env sid (world a) = (Ok r, w') ->
  r <> "paid" ->
  poll_pending env ps a
  = if (5 <=? n + 1)%nat
    then (Ok tt,
          gate_failed (UiError "Payment verification failed after 5 attempts")
                      (set_world w' a))
    else (Raise RerunException,
          set_world (snd (sleep 2 w'))
                    (set_payment_state
                       (mkPaymentState (ps_status ps) (Some sid) (ps_start_time ps)
                                       (Some (n + 1)%nat))
                       a)).
Proof.
  intros Hsid Hn Hc Hr. apply String.eqb_neq in Hr.
  unfold poll_pending. run_script. rewrite Hsid, Hn, Hc, Hr.
  destruct (5 <=? n + 1)%nat; reflexivity.
Qed.

End GateFacts.

Section GateRuns.

Variable env : Env.
Variable pp : PaymentProcessor.

(** A resubmission on a pending payment, by the time it comes at. *)
Lemma main_pending (i : Inputs) (a : App) (ps : PaymentState) (t0 : Q) :
  resubmission i ->
  payment_state (session_state a) = Some ps ->
  ps_status ps = "pending" ->
  ps_start_time ps = Some t0 ->
  let a1 := set_world (add_ui (UiStatus "Processing Payment...") (world (titled a)))
                      (titled a) in
  main env pp i a
  = if Qlt_le_dec 300 (clock (world a) - t0)
    then (Stopped, gate_failed (UiError "Payment timed out after 5 minutes") a1)
    else match poll_pending env ps a1 with
         | (Raise RerunException, a') => (Rerun, a')
         | (_, a') => (Returned, a')
         end.
Proof.
  intros Hi Hps Hst Ht a1. unfold main.
  rewrite (main_body_resubmission env pp i a ps Hi Hps).
  cbv beta delta [bind].
  rewrite (payment_flow_pending env pp (titled a) ps t0 Hps Hst Ht).
  change (clock (world (titled a))) with (clock (world a)).
  destruct (Qlt_le_dec 300 (clock (world a) - t0)); [reflexivity|].
  fold a1. pose proof (poll_pending_outcomes env ps a1) as Hout.
  destruct (poll_pending env ps a1) as [[u|[e| | |]] a']; try contradiction;
    try reflexivity.
  unfold paid_gate. run_script. rewrite Hout. reflexivity.
Qed.

End GateRuns.

(** C4: a resubmission on a pending payment started at [t0] ends in
    the timeout failure exactly when the time elapsed since [t0]
    exceeds 300 seconds: it does at [t0 + 300.001], it does not at
    [t0 + 299.999]. *)
Theorem gate_timeout_boundary
        (env : Env) (pp : PaymentProcessor) (i : Inputs) (a : App)
        (ps : PaymentState) (t0 : Q) :
  resubmission i ->
  payment_state (session_state a) = Some ps ->
  ps_status ps = "pending" ->
  ps_start_time ps = Some t0 ->
  (timed_out a (main env pp i a) <-> (300 < clock (world a) - t0)%Q)
  /\ (clock (world a) = (t0 + 300.001)%Q -> timed_out a (main env pp i a))
  /\ (clock (world a) = (t0 + 299.999)%Q -> ~ timed_out a (main env pp i a)).
Proof.
  intros Hi Hps Hst Ht.
  assert (Hiff : timed_out a (main env pp i a) <-> (300 < clock (world a) - t0)%Q).
  { rewrite (main_pending env pp i a ps t0 Hi Hps Hst Ht).
    destruct (Qlt_le_dec 300 (clock (world a) - t0)) as [Hlt|Hle]; split; intros H.
    - exact Hlt.
    - split; [reflexivity|]. split; [reflexivity|].
      exists [UiTitle "AI Cover Letter Generator"; UiStatus "Processing Payment...";
              UiError "Payment timed out after 5 minutes"].
      split; [simpl; now rewrite <- !app_assoc | simpl; auto].
    - exfalso. destruct H as [Hstop _]. revert Hstop.
      match goal with
      | |- context [poll_pending env ps ?x] =>
          destruct (poll_pending env ps x) as [[u|[e| | |]] a']
      end; discriminate.
    - exfalso. apply (Qlt_not_le _ _ H Hle). }
  split; [exact Hiff|]. split.
  - intros Hc. apply Hiff. rewrite Hc. lra.
  - intros Hc Hto. apply Hiff in Hto. rewrite Hc in Hto. lra.
Qed.

Lemma gate_timeout_boundary_witness :
  resubmission Scenario.form
  /\ timed_out (Scenario.gate_at (1000 + 300.001)%Q 0)
               (main (Scenario.env_reporting "unpaid" (Scenario.completed "paid"))
                     Scenario.processor Scenario.form
                     (Scenario.gate_at (1000 + 300.001)%Q 0))
  /\ ~ timed_out (Scenario.gate_at (1000 + 299.999)%Q 0)
                 (main (Scenario.env_reporting "unpaid" (Scenario.completed "paid"))
                       Scenario.processor Scenario.form
                       (Scenario.gate_at (1000 + 299.999)%Q 0)).
Proof.
  assert (Hi : resubmission Scenario.form) by (repeat split).
  split; [exact Hi|]. split.
  - apply (gate_timeout_boundary
             (Scenario.env_reporting "unpaid" (Scenario.completed "paid"))
             Scenario.processor Scenario.form (Scenario.gate_at (1000 + 300.001)%Q 0)
             (pending_state "cs_1" 1000%Q 0) 1000%Q Hi eq_refl eq_refl eq_refl).
    reflexivity.
  - apply (gate_timeout_boundary
             (Scenario.env_reporting "unpaid" (Scenario.completed "paid"))
             Scenario.processor Scenario.form (Scenario.gate_at (1000 + 299.999)%Q 0)
             (pending_state "cs_1" 1000%Q 0) 1000%Q Hi eq_refl eq_refl eq_refl).
    reflexivity.
Defined.

(** ** The retry ceiling *)

Section Ceiling.

Variable env : Env.
Variable pp : PaymentProcessor.

(** What Streamlit has rendered does not change what a poll returns. *)
Lemma check_payment_status_add_ui (sid : string) (e : UiEvent) (w : World) :
  fst (check_payment_status env sid (add_ui e w)) = fst (check_payment_status env sid w).
Proof.
  pose proof (check_payment_status_cases env sid w) as H.
  pose proof (check_payment_status_cases env sid (add_ui e w)) as H'.
  change (calls (add_ui e w)) with (calls w) in H'.
  destruct (Session_retrieve env (calls w) sid) as [session|e0].
  - cbv zeta in H, H'.
    change (calls (retrieved sid (Ok session) (add_ui e w)))
      with (calls (retrieved sid (Ok session) w)) in H'.
    change (poll_patch env session (add_ui e w)) with (poll_patch env session w) in H'.
    destruct (supabase_execute env _ _) as [e0|]; rewrite H, H';
      [destruct (is_StripeError e0)|]; reflexivity.
  - rewrite H, H'. destruct (is_StripeError e0); reflexivity.
Qed.

(** One resubmission that polls and is not answered [paid]. *)
Lemma main_poll_not_paid (i : Inputs) (s : SessionState) (w : World)
      (sid : string) (t0 : Q) (n : nat) :
  payment_state s = Some (pending_state sid t0 n) ->
  non_paid_poll env sid t0 (i, w) ->
  let r := main env pp i (mkApp s w) in
  if (5 <=? n + 1)%nat
  then fst r = Returned
       /\ payment_state (session_state (snd r)) = Some unpaid_state
       /\ In (UiError "Payment verification failed after 5 attempts") (ui (world (snd r)))
  else fst r = Rerun
       /\ payment_state (session_state (snd r)) = Some (pending_state sid t0 (n + 1)).
Proof.
  intros Hps (Hi & Hle & r0 & Hr0 & Hne) r. subst r. simpl in Hi, Hle, Hr0.
  rewrite (main_pending env pp i (mkApp s w) (pending_state sid t0 n) t0 Hi Hps
                        eq_refl eq_refl).
  simpl world at 1. simpl clock.
  destruct (Qlt_le_dec 300 (clock w - t0)) as [Hlt|_];
    [exfalso; exact (Qlt_not_le _ _ Hlt Hle)|].
  match goal with
  | |- context [poll_pending env _ ?x] => set (a1 := x)
  end.
  destruct (check_payment_status env sid (world a1)) as [res w'] eqn:Hc.
  assert (Hres : res = Ok r0).
  { change res with (fst (res, w')). rewrite <- Hc. unfold a1. simpl world.
    now rewrite !check_payment_status_add_ui. }
  subst res.
  rewrite (poll_pending_not_paid env (pending_state sid t0 n) a1 sid r0 n w'
                                 eq_refl eq_refl Hc Hne).
  destruct (5 <=? n + 1)%nat.
  - repeat split. simpl. apply in_or_app. right. left. reflexivity.
  - repeat split.
Qed.

End Ceiling.

(** C5: from a pending gate with no failed poll counted, five
    resubmissions that each poll within the time budget and are
    answered by another status than [paid]: the first four ask for a
    rerun and leave the gate pending with one more failure counted,
    and the fifth, and no earlier one, ends with the attempt forgotten
    and the error of the five failed attempts shown. *)
Theorem gate_retry_ceiling
        (env : Env) (pp : PaymentProcessor) (s : SessionState) (sid : string) (t0 : Q)
        (invocations : list (Inputs * World)) :
  payment_state s = Some (pending_state sid t0 0) ->
  length invocations = 5%nat ->
  Forall (non_paid_poll env sid t0) invocations ->
  map fst (reinvoke env pp s invocations) = [Rerun; Rerun; Rerun; Rerun; Returned]
  /\ map (fun r => payment_state (session_state (snd r))) (reinvoke env pp s invocations)
     = [Some (pending_state sid t0 1); Some (pending_state sid t0 2);
        Some (pending_state sid t0 3); Some (pending_state sid t0 4);
        Some unpaid_state]
  /\ exists fifth,
      nth_error (reinvoke env pp s invocations) 4 = Some fifth
      /\ In (UiError "Payment verification failed after 5 attempts") (ui (world (snd fifth))).
Proof.
  intros Hps Hlen Hall.
  destruct invocations as [|[i1 w1] [|[i2 w2] [|[i3 w3] [|[i4 w4] [|[i5 w5] [|]]]]]];
    try discriminate.
  inversion Hall as [|? ? H1 Hall1]; subst.
  inversion Hall1 as [|? ? H2 Hall2]; subst.
  inversion Hall2 as [|? ? H3 Hall3]; subst.
  inversion Hall3 as [|? ? H4 Hall4]; subst.
  inversion Hall4 as [|? ? H5 _]; subst.
  cbn [reinvoke map nth_error].
  destruct (main_poll_not_paid env pp i1 s w1 sid t0 0 Hps H1) as [O1 S1].
  destruct (main_poll_not_paid env pp i2 _ w2 sid t0 1 S1 H2) as [O2 S2].
  destruct (main_poll_not_paid env pp i3 _ w3 sid t0 2 S2 H3) as [O3 S3].
  destruct (main_poll_not_paid env pp i4 _ w4 sid t0 3 S3 H4) as [O4 S4].
  destruct (main_poll_not_paid env pp i5 _ w5 sid t0 4 S4 H5) as (O5 & S5 & U5).
  rewrite O1, O2, O3, O4, O5, S1, S2, S3, S4, S5.
  split; [reflexivity|]. split; [reflexivity|].
  eexists. split; [reflexivity|exact U5].
Qed.

Lemma gate_retry_ceiling_witness :
  length [(Scenario.form, Scenario.world_at 1010%Q); (Scenario.form, Scenario.world_at 1020%Q);
          (Scenario.form, Scenario.world_at 1030%Q); (Scenario.form, Scenario.world_at 1040%Q);
          (Scenario.form, Scenario.world_at 1050%Q)] = 5%nat
  /\ map fst (reinvoke (Scenario.env_reporting "unpaid" (Scenario.completed "paid"))
                       Scenario.processor (Scenario.pending_since_1000 0)
                       [(Scenario.form, Scenario.world_at 1010%Q);
                        (Scenario.form, Scenario.world_at 1020%Q);
                        (Scenario.form, Scenario.world_at 1030%Q);
                        (Scenario.form, Scenario.world_at 1040%Q);
                        (Scenario.form, Scenario.world_at 1050%Q)])
     = [Rerun; Rerun; Rerun; Rerun; Returned].
Proof.
  split; [reflexivity|].
  apply (gate_retry_ceiling
           (Scenario.env_reporting "unpaid" (Scenario.completed "paid"))
           Scenario.processor (Scenario.pending_since_1000 0) "cs_1" 1000%Q).
  - reflexivity.
  - reflexivity.
  - assert (Hpoll : forall t, (t - 1000 <= 300)%Q ->
                             non_paid_poll
                               (Scenario.env_reporting "unpaid" (Scenario.completed "paid"))
                               "cs_1" 1000%Q (Scenario.form, Scenario.world_at t)).
    { intros t Ht. split; [repeat split|]. split; [exact Ht|].
      exists "unpaid". split; [reflexivity|discriminate]. }
    repeat (apply Forall_cons; [apply Hpoll; lra|]). apply Forall_nil.
Defined.

(** ** Calls made by a run *)

Section Quiet.

Lemma quiet_refl (w : World) : quiet w w.
Proof. exists []. split; [now rewrite app_nil_r | intros m r []]. Qed.

Lemma quiet_trans (w1 w2 w3 : World) : quiet w1 w2 -> quiet w2 w3 -> quiet w1 w3.
Proof.
  intros (l1 & H1 & N1) (l2 & H2 & N2). exists (l1 ++ l2)%list. split.
  - now rewrite H2, H1, app_assoc.
  - intros m r Hin. apply in_app_or in Hin. destruct Hin; [eapply N1|eapply N2]; eauto.
Qed.

Lemma quiet_same_calls (w w1 w2 : World) :
  calls w2 = calls w1 -> quiet w w1 -> quiet w w2.
Proof. intros H (l & Hl & N). exists l. split; [congruence|exact N]. Qed.

Lemma quiet_add_call (c : Call) (w : World) :
  (forall m r, c <> CallChatCompletion m r) -> quiet w (add_call c w).
Proof.
  intros Hc. exists [c]. split; [reflexivity|].
  intros m r [H|[]]. exact (Hc _ _ H).
Qed.

(** The one generation call of a history that ends with it is the last. *)
Lemma generation_call_last (l before after : list Call) (c : Call) (m : string)
      (r : list string * option exn) :
  no_generation l ->
  (l ++ [c])%list = (before ++ CallChatCompletion m r :: after)%list ->
  before = l /\ after = [] /\ c = CallChatCompletion m r.
Proof.
  revert before. induction l as [|x l IH]; intros before Hn H.
  - destruct before as [|y before]; simpl in H.
    + inversion H; subst. auto.
    + inversion H as [[Hy Hrest]]. destruct before; discriminate.
  - destruct before as [|y before]; simpl in H.
    + inversion H; subst. exfalso. apply (Hn m r). left. reflexivity.
    + inversion H as [[Hy Hrest]]. subst y.
      destruct (IH before) as (Hb & Ha & Hc); auto.
      * intros m' r' Hin. apply (Hn m' r'). right. exact Hin.
      * subst. auto.
Qed.

Lemma quiet_run_bind {A B} (c : M exn World A) (k : A -> M exn World B) :
  quiet_run c -> (forall x, quiet_run (k x)) -> quiet_run (bind c k).
Proof.
  intros Hc Hk w. unfold bind. specialize (Hc w).
  destruct (c w) as [[x|e] w1]; simpl in *; [|exact Hc].
  eapply quiet_trans; [exact Hc|apply Hk].
Qed.

Lemma quiet_run_try_except {A} (c : M exn World A) (handles : exn -> bool)
      (handler : exn -> M exn World A) :
  quiet_run c -> (forall e, quiet_run (handler e)) ->
  quiet_run (try_except c handles handler).
Proof.
  intros Hc Hh w. unfold try_except. specialize (Hc w).
  destruct (c w) as [[x|e] w1]; simpl in *; [exact Hc|].
  destruct (handles e); [|exact Hc].
  eapply quiet_trans; [exact Hc|apply Hh].
Qed.

Lemma quiet_run_sleep (d : Q) : quiet_run (sleep d).
Proof.
  intros w. exists [CallSleep d]. split; [reflexivity|].
  intros m r [H|[]]. discriminate.
Qed.

Lemma quiet_run_retry {A} (stop : nat) (wait : nat -> Z) (f : M exn World A) :
  quiet_run f -> quiet_run (Tenacity.retry stop wait f).
Proof.
  intros Hf w. unfold Tenacity.retry.
  apply attempts_preserves with (P := quiet w).
  - intros w1 H1. eapply quiet_trans; [exact H1|apply Hf].
  - intros w1 d H1. eapply quiet_trans; [exact H1|apply quiet_run_sleep].
  - apply quiet_refl.
Qed.

Lemma quiet_run_ret {A} (x : A) : quiet_run (ret x).
Proof. intros w. apply quiet_refl. Qed.

Lemma quiet_run_print (line : string) : quiet_run (print line).
Proof. intros w. apply (quiet_same_calls w w); [reflexivity|apply quiet_refl]. Qed.

Lemma quiet_run_time : quiet_run time_time.
Proof. intros w. apply quiet_refl. Qed.

Variable env : Env.

Lemma quiet_run_execute (op : TableOp) : quiet_run (execute env op).
Proof.
  intros w. unfold execute. destruct (supabase_execute env (calls w) op);
    apply (quiet_add_call (CallExecute op _)); discriminate.
Qed.

Lemma quiet_run_check_payment_status (sid : string) :
  quiet_run (check_payment_status env sid).
Proof.
  unfold check_payment_status.
  apply quiet_run_try_except.
  - apply quiet_run_bind.
    + intros w. apply (quiet_add_call (CallSessionRetrieve sid _)). discriminate.
    + intros session. apply quiet_run_bind; [apply quiet_run_time|].
      intros now. apply quiet_run_bind; [apply quiet_run_execute|].
      intros _. apply quiet_run_ret.
  - intros e. apply quiet_run_bind; [apply quiet_run_print|].
    intros _. apply quiet_run_ret.
Qed.

Lemma quiet_run_create_payment_session (self : PaymentProcessor) (uid : string) :
  quiet_run (create_payment_session env self uid).
Proof.
  unfold create_payment_session. apply quiet_run_retry.
  unfold create_payment_session_body. apply quiet_run_try_except.
  - apply quiet_run_bind.
    + intros w. apply (quiet_add_call (CallSessionCreate _ _)). discriminate.
    + intros session. apply quiet_run_bind.
      * unfold log_transaction. apply quiet_run_retry.
        unfold log_transaction_body.
        apply quiet_run_bind; [apply quiet_run_time|].
        intros now. apply quiet_run_execute.
      * intros _. apply quiet_run_ret.
  - intros e. apply quiet_run_bind; [apply quiet_run_print|].
    intros _. apply quiet_run_ret.
Qed.

End Quiet.

(** ** Calls made by the script *)

Section QuietScript.

Variable env : Env.
Variable pp : PaymentProcessor.

Lemma quiet_script_bind {A B} (c : Script A) (k : A -> Script B) :
  quiet_script c -> (forall x, quiet_script (k x)) -> quiet_script (bind c k).
Proof.
  intros Hc Hk a. unfold bind. specialize (Hc a).
  destruct (c a) as [[x|e] a1]; simpl in *; [|exact Hc].
  eapply quiet_trans; [exact Hc|apply Hk].
Qed.

Lemma quiet_script_except {A} (c : Script A) (handler : exn -> Script A) :
  quiet_script c -> (forall e, quiet_script (handler e)) ->
  quiet_script (except_Exception c handler).
Proof.
  intros Hc Hh a. unfold except_Exception. specialize (Hc a).
  destruct (c a) as [[x|[e| | |]] a1]; simpl in *; try exact Hc.
  eapply quiet_trans; [exact Hc|apply Hh].
Qed.

Lemma quiet_script_ret {A} (x : A) : quiet_script (ret x).
Proof. intros a. apply quiet_refl. Qed.

Lemma quiet_script_raise {A} (s : signal) : quiet_script (@raise signal App A s).
Proof. intros a. apply quiet_refl. Qed.

Lemma quiet_script_update (f : App -> App) :
  (forall a, calls (world (f a)) = calls (world a)) -> quiet_script (update_app f).
Proof.
  intros Hf a. simpl. apply (quiet_same_calls _ (world a)); [apply Hf|apply quiet_refl].
Qed.

Lemma quiet_script_render (e : UiEvent) : quiet_script (render e).
Proof. apply quiet_script_update. reflexivity. Qed.

Lemma quiet_script_call {A} (c : M exn World A) :
  quiet_run c -> quiet_script (call c).
Proof.
  intros Hc a. unfold call. specialize (Hc (world a)).
  destruct (c (world a)) as [[x|e] w']; exact Hc.
Qed.

Lemma quiet_script_item {A} (key : string) (v : option A) : quiet_script (item key v).
Proof. destruct v; [apply quiet_script_ret|apply quiet_script_raise]. Qed.

Lemma quiet_script_get_payment_state : quiet_script get_payment_state.
Proof.
  intros a. unfold get_payment_state.
  destruct (payment_state (session_state a)); apply quiet_refl.
Qed.

Lemma quiet_script_get_payment_success : quiet_script get_payment_success.
Proof.
  intros a. unfold get_payment_success.
  destruct (payment_success (session_state a)); apply quiet_refl.
Qed.

Lemma quiet_script_render_all (l : list UiEvent) : quiet_script (render_all l).
Proof.
  induction l as [|e l IH]; simpl; [apply quiet_script_ret|].
  apply quiet_script_bind; [apply quiet_script_render|intros _; exact IH].
Qed.

Lemma calls_fold_add_ui (shown : list UiEvent) (w : World) :
  calls (fold_left (fun w' e => add_ui e w') shown w) = calls w.
Proof. revert w. induction shown as [|e l IH]; intros w; simpl; [|rewrite IH]; reflexivity. Qed.

Lemma quiet_script_extract (f : option UploadedFile) :
  quiet_script (extract_resume_text env f).
Proof.
  destruct f as [f|]; simpl.
  - intros a. unfold extract_resume_text.
    destruct (extract_text env (calls (world a)) f) as [text shown].
    exists [CallExtractText f text]. split.
    + cbn [snd world set_world calls add_call]. now rewrite calls_fold_add_ui.
    + intros m r [H|[]]. discriminate.
  - apply quiet_script_bind; [apply quiet_script_render|].
    intros _. apply quiet_script_ret.
Qed.

End QuietScript.

(** Breaks a script into its statements and settles each. *)
Ltac quiet_step :=
  match goal with
  | |- quiet_script (bind _ _) => apply quiet_script_bind; [|intro]
  | |- quiet_script (except_Exception _ _) => apply quiet_script_except; [|intro]
  | |- quiet_script (ret _) => apply quiet_script_ret
  | |- quiet_script (raise _) => apply quiet_script_raise
  | |- quiet_script st_stop => apply quiet_script_raise
  | |- quiet_script st_rerun => apply quiet_script_raise
  | |- quiet_script return_ => apply quiet_script_raise
  | |- quiet_script split_on_None => apply quiet_script_raise
  | |- quiet_script (render _) => apply quiet_script_render
  | |- quiet_script (st_error _) => apply quiet_script_render
  | |- quiet_script (render_all _) => apply quiet_script_render_all
  | |- quiet_script (update_app _) => apply quiet_script_update; reflexivity
  | |- quiet_script (item _ _) => apply quiet_script_item
  | |- quiet_script get_payment_state => apply quiet_script_get_payment_state
  | |- quiet_script get_payment_success => apply quiet_script_get_payment_success
  | |- quiet_script (extract_resume_text _ _) => apply quiet_script_extract
  | |- quiet_script (call (check_payment_status _ _)) =>
      apply quiet_script_call, quiet_run_check_payment_status
  | |- quiet_script (call (create_payment_session _ _ _)) =>
      apply quiet_script_call, quiet_run_create_payment_session
  | |- quiet_script (call time_time) => apply quiet_script_call, quiet_run_time
  | |- quiet_script (call (sleep _)) => apply quiet_script_call, quiet_run_sleep
  | |- quiet_script (if ?b then _ else _) => destruct b
  | |- quiet_script (match ?x with _ => _ end) => destruct x
  end.

Section QuietStages.

Variable env : Env.
Variable pp : PaymentProcessor.

Lemma quiet_payment_callback (i : Inputs) : quiet_script (payment_callback env i).
Proof. unfold payment_callback. repeat quiet_step. Qed.

Lemma quiet_check_secrets (i : Inputs) : quiet_script (check_secrets i).
Proof. unfold check_secrets. repeat quiet_step. Qed.

Lemma quiet_init_payment_state : quiet_script init_payment_state.
Proof.
  intros a. unfold init_payment_state.
  destruct (payment_state (session_state a)); apply quiet_refl.
Qed.

Lemma quiet_payment_flow : quiet_script (payment_flow env pp).
Proof. unfold payment_flow, poll_pending, start_payment. repeat quiet_step. Qed.

Lemma quiet_paid_gate : quiet_script paid_gate.
Proof. unfold paid_gate. repeat quiet_step. Qed.

Lemma quiet_validate_inputs (i : Inputs) : quiet_script (validate_inputs i).
Proof. unfold validate_inputs. repeat quiet_step. Qed.

Lemma quiet_payment_gateway : quiet_script (payment_gateway env pp).
Proof. unfold payment_gateway. repeat quiet_step. Qed.

Lemma quiet_parse_resume (i : Inputs) : quiet_script (parse_resume env i).
Proof. unfold parse_resume. repeat quiet_step. Qed.

Lemma quiet_verify_payment : quiet_script (verify_payment env).
Proof.
  unfold verify_payment. repeat quiet_step.
  intros a. apply quiet_refl.
Qed.

End QuietStages.

(** ** What the steps of [main] leave behind *)

Section Silent.

Lemma silent_bind {A B} (c : Script A) (k : A -> Script B) :
  silent_script c -> (forall x, silent_script (k x)) -> silent_script (bind c k).
Proof.
  intros Hc Hk a. unfold bind. specialize (Hc a).
  destruct (c a) as [[x|e] a1]; simpl in *; [|exact Hc].
  now rewrite Hk.
Qed.

Lemma silent_ret {A} (x : A) : silent_script (ret x).
Proof. intros a. reflexivity. Qed.

Lemma silent_raise {A} (s : signal) : silent_script (@raise signal App A s).
Proof. intros a. reflexivity. Qed.

Lemma silent_render (e : UiEvent) : silent_script (render e).
Proof. intros a. reflexivity. Qed.

Lemma silent_show_chunks (chunks full_content : list string) :
  silent_script (show_chunks full_content chunks).
Proof.
  revert full_content. induction chunks as [|c chunks IH]; intros full; simpl.
  - apply silent_ret.
  - destruct (falsy c); [apply IH|].
    apply silent_bind; [apply silent_render|intros _; apply IH].
Qed.

Lemma silent_stream_end (err : option exn) : silent_script (stream_end err).
Proof.
  destruct err as [e|]; [|apply silent_ret].
  destruct e; simpl; first [apply silent_render|apply silent_raise].
Qed.

End Silent.

Lemma silent_create_docx (env : Env) (content : string) :
  silent_script (create_docx env content).
Proof.
  intros a. unfold create_docx. destruct (docx_document env content); reflexivity.
Qed.

Ltac silent_step :=
  match goal with
  | |- silent_script (bind _ _) => apply silent_bind; [|intro]
  | |- silent_script (create_docx _ _) => apply silent_create_docx
  | |- silent_script (ret _) => apply silent_ret
  | |- silent_script return_ => apply silent_raise
  | |- silent_script (render _) => apply silent_render
  | |- silent_script (st_error _) => apply silent_render
  | |- silent_script (show_chunks _ _) => apply silent_show_chunks
  | |- silent_script (stream_end _) => apply silent_stream_end
  | |- silent_script (if ?b then _ else _) => destruct b
  end.

Section Steps.

Variable env : Env.
Variable pp : PaymentProcessor.

(** Steps 3 and 4 make one call, to the generation API. *)
Lemma generate_and_deliver_calls (i : Inputs) (resume_text : string) (a : App) :
  exists m r,
    calls (world (snd (generate_and_deliver env i resume_text a)))
    = (calls (world a) ++ [CallChatCompletion m r])%list.
Proof.
  unfold generate_and_deliver.
  set (rest := fun stream : list string * option exn => _).
  assert (Hrest : forall stream, silent_script (rest stream)).
  { intros stream. unfold rest. repeat silent_step. }
  unfold bind at 1. cbn [render update_app].
  unfold bind at 1. unfold call at 1, chat_completions_create.
  cbn [world set_world].
  eexists. eexists. rewrite Hrest. reflexivity.
Qed.

Lemma payment_callback_keeps_session (i : Inputs) : keeps_session (payment_callback env i).
Proof.
  intros a x a'. unfold payment_callback.
  destruct (q_payment_success i) as [v|]; [|intros H; now inversion H].
  destruct (String.eqb v "true"); [|intros H; now inversion H].
  destruct (q_session_id i) as [sid|]; [|intros H; now inversion H].
  destruct (falsy sid); [intros H; now inversion H|].
  run_script.
  destruct (check_payment_status env sid (world a)) as [[r|e] w'].
  - destruct (String.eqb r "paid"); intros H; inversion H; reflexivity.
  - intros H; inversion H; reflexivity.
Qed.

Lemma check_secrets_keeps_session (i : Inputs) : keeps_session (check_secrets i).
Proof.
  intros a x a'. unfold check_secrets.
  destruct (filter _ required_secrets); run_script; intros H; inversion H; reflexivity.
Qed.

(** A poll or a new checkout never falls through with the gate paid. *)
Lemma start_payment_outcomes (ps : PaymentState) (a : App) :
  match start_payment env pp ps a with
  | (Ok _, a') => payment_state (session_state a') = Some unpaid_state
  | (Raise StopException, _) => True
  | (Raise _, _) => False
  end.
Proof.
  unfold start_payment. run_script.
  destruct (create_payment_session env pp "user123" (world a)) as [[[url|]|e] w'];
    [exact I|reflexivity|reflexivity].
Qed.

(** When the gate falls through, it was paid and nothing changed, or
    the attempt has been forgotten. *)
Lemma payment_flow_falls_through (a a' : App) (x : unit) :
  payment_flow env pp a = (Ok x, a') ->
  (session_state a' = session_state a /\ gate_paid a)
  \/ payment_state (session_state a') = Some unpaid_state.
Proof.
  unfold payment_flow. unfold bind at 1. cbn [render update_app].
  unfold bind at 1. unfold get_payment_state. cbn [session_state set_world].
  destruct (payment_state (session_state a)) as [ps|] eqn:Hps; [|discriminate].
  destruct (String.eqb (ps_status ps) "paid") eqn:Hpaid.
  - intros H. inversion H; subst. left. split; [reflexivity|].
    exists ps. split; [exact Hps|now apply String.eqb_eq].
  - destruct (String.eqb (ps_status ps) "pending").
    + run_script. destruct (ps_start_time ps) as [t0|]; [|discriminate].
      destruct (Qlt_le_dec 300 _); [discriminate|].
      match goal with
      | |- context [poll_pending env ps ?x] =>
          pose proof (poll_pending_outcomes env ps x) as Hout;
            destruct (poll_pending env ps x) as [[u|e] a1]
      end.
      * intros H. inversion H; subst. right. exact Hout.
      * discriminate.
    + match goal with
      | |- context [start_payment env pp ps ?x] =>
          pose proof (start_payment_outcomes ps x) as Hout;
            destruct (start_payment env pp ps x) as [[u|e] a1]
      end.
      * intros H. inversion H; subst. right. exact Hout.
      * discriminate.
Qed.

Lemma paid_gate_falls_through (a a' : App) (x : unit) :
  paid_gate a = (Ok x, a') -> a' = a /\ gate_paid a.
Proof.
  unfold paid_gate. run_script.
  destruct (payment_state (session_state a)) as [ps|] eqn:Hps; [|discriminate].
  destruct (String.eqb (ps_status ps) "paid") eqn:Hpaid; [|discriminate].
  intros H. inversion H; subst. split; [reflexivity|].
  exists ps. split; [exact Hps|now apply String.eqb_eq].
Qed.

Lemma validate_inputs_keeps_session (i : Inputs) : keeps_session (validate_inputs i).
Proof.
  intros a x a'. unfold validate_inputs. run_script.
  destruct (payment_success (session_state a)) as [paid|]; [|discriminate].
  destruct (validation_errors i paid) as [|e l].
  - intros H; inversion H; reflexivity.
  - match goal with
    | |- context [render_all ?l ?x] => destruct (render_all l x) as [[u|s] a1]
    end; discriminate.
Qed.

Lemma payment_gateway_keeps_session : keeps_session (payment_gateway env pp).
Proof.
  intros a x a'. unfold payment_gateway. run_script.
  destruct (payment_success (session_state a)) as [[|]|]; [| |discriminate].
  - intros H; inversion H; reflexivity.
  - cbn [world set_world].
    match goal with
    | |- context [create_payment_session env pp ?u ?w] =>
        destruct (create_payment_session env pp u w) as [[[url|]|e] w']
    end; discriminate.
Qed.

Lemma parse_resume_keeps_session (i : Inputs) : keeps_session (parse_resume env i).
Proof.
  intros a x a'. unfold parse_resume. run_script.
  destruct (resume i) as [f|]; unfold extract_resume_text; run_script.
  - cbn [world set_world].
    destruct (extract_text env _ f) as [[t|] shown];
      [destruct (falsy t)|]; intros H; inversion H; reflexivity.
  - discriminate.
Qed.

(** Step 2 falls through only after a status check of the session
    in [payment_session_id] came back [paid]. *)
Lemma verify_payment_falls_through (a a' : App) (x : unit) :
  verify_payment env a = (Ok x, a') ->
  session_state a' = session_state a
  /\ exists sid session p,
      payment_session_id (session_state a) = Some sid
      /\ cs_payment_status session = "paid"
      /\ p_status p = Some "paid"
      /\ calls (world a')
         = (calls (world a) ++ [CallSessionRetrieve sid (Ok session);
                                CallExecute (Update p sid) None])%list.
Proof.
  unfold verify_payment. run_script. cbn [session_state world set_world].
  destruct (payment_session_id (session_state a)) as [sid|] eqn:Hsid; [|discriminate].
  match goal with
  | |- context [check_payment_status env sid ?w] =>
      pose proof (check_payment_status_cases env sid w) as Hc;
        destruct (Session_retrieve env (calls w) sid) as [session|e] eqn:Hr
  end.
  - cbv zeta in Hc.
    match type of Hc with
    | context [supabase_execute env ?h ?op] =>
        destruct (supabase_execute env h op) as [e|] eqn:Hex
    end; rewrite Hc.
    + destruct (is_StripeError e); discriminate.
    + destruct (String.eqb (cs_payment_status session) "paid") eqn:Hpaid; [|discriminate].
      apply String.eqb_eq in Hpaid.
      intros H. inversion H; subst. split; [reflexivity|].
      eexists sid, session, _. split; [reflexivity|]. split; [exact Hpaid|].
      split.
      2: { simpl. rewrite <- app_assoc. reflexivity. }
      simpl. now rewrite Hpaid.
  - rewrite Hc. destruct (is_StripeError e); discriminate.
Qed.

End Steps.

(** ** The way to the generation step *)

Section Generation.

Variable env : Env.
Variable pp : PaymentProcessor.

Lemma generated_extend (a a1 a' : App) :
  quiet (world a) (world a1) ->
  session_state a1 = session_state a ->
  generated_after_paid_check a1 a' ->
  generated_after_paid_check a a'.
Proof.
  intros (l0 & Hl0 & N0) Hs (sid & l & m & r & Hsid & Hend & Hcalls).
  destruct Hend as (earlier & session & p & Hpaid & Hp & Hl & Ne).
  exists sid, (l0 ++ l)%list, m, r. split; [now rewrite <- Hs|]. split.
  - exists (l0 ++ earlier)%list, session, p. repeat split; auto.
    + subst l. now rewrite app_assoc.
    + intros m' r' Hin. apply in_app_or in Hin.
      destruct Hin; [eapply N0|eapply Ne]; eauto.
  - rewrite Hcalls, Hl0. now rewrite !app_assoc.
Qed.

Lemma except_Exception_calls {A} (c : Script A) (handler : exn -> Script A) (a : App) :
  (forall e, silent_script (handler e)) ->
  calls (world (snd (except_Exception c handler a))) = calls (world (snd (c a))).
Proof.
  intros Hh. unfold except_Exception.
  destruct (c a) as [[x|[e| | |]] a1]; try reflexivity. apply Hh.
Qed.

(** The generation flow calls the generation API only after step 2
    fell through. *)
Lemma generation_flow_cases (i : Inputs) (a : App) :
  quiet (world a) (world (snd (generation_flow env i a)))
  \/ generated_after_paid_check a (snd (generation_flow env i a)).
Proof.
  unfold generation_flow.
  unfold bind at 1. cbn [render update_app]. unfold bind at 1. cbn [render update_app].
  set (a0 := set_world _ (set_world _ a)).
  assert (Hq0 : quiet (world a) (world a0))
    by (apply (quiet_same_calls _ (world a)); [reflexivity|apply quiet_refl]).
  assert (Hs0 : session_state a0 = session_state a) by reflexivity.
  assert (Hcases :
            forall r a', (resume_text <- parse_resume env i ;;
                          verify_payment env ;;
                          generate_and_deliver env i resume_text) a0 = (r, a') ->
                         quiet (world a0) (world a')
                         \/ generated_after_paid_check a0 a').
  { intros r a'. unfold bind at 1.
    pose proof (quiet_parse_resume env i a0) as Hq1.
    pose proof (parse_resume_keeps_session env i a0) as Hk1.
    destruct (parse_resume env i a0) as [[t|s] a1]; simpl in Hq1.
    - specialize (Hk1 t a1 eq_refl). unfold bind at 1.
      pose proof (quiet_verify_payment env a1) as Hq2.
      pose proof (verify_payment_falls_through env a1) as Hv.
      destruct (verify_payment env a1) as [[u|s] a2]; simpl in Hq2.
      + destruct (Hv a2 u eq_refl) as (Hs2 & sid & session & p & Hsid & Hpaid & Hp & Hc2).
        destruct (generate_and_deliver_calls env i t a2) as (m & res & Hc3).
        intros H. right.
        destruct Hq1 as (l1 & Hl1 & N1).
        exists sid, (l1 ++ [CallSessionRetrieve sid (Ok session);
                            CallExecute (Update p sid) None])%list, m, res.
        split; [now rewrite <- Hk1|]. split.
        * exists l1, session, p. auto.
        * replace a' with (snd (generate_and_deliver env i t a2)) by (now rewrite H).
          rewrite Hc3, Hc2, Hl1. now rewrite <- !app_assoc.
      + intros H. inversion H; subst. left. eapply quiet_trans; eassumption.
    - intros H. inversion H; subst. left. exact Hq1. }
  match goal with
  | |- context [except_Exception ?c ?h a0] =>
      pose proof (except_Exception_calls c h a0 (fun e => silent_render _)) as He;
        destruct (c a0) as [r a'] eqn:Hrun
  end.
  try rewrite Hrun in He. cbn [snd] in He.
  destruct (Hcases r a' eq_refl) as [Hq|Hg].
  - left. eapply quiet_trans; [exact Hq0|].
    eapply quiet_same_calls; [exact He|exact Hq].
  - right. apply (generated_extend a a0); auto.
    destruct Hg as (sid & l & m & res & Hsid & Hend & Hc).
    exists sid, l, m, res. repeat split; auto. rewrite <- Hc. exact He.
Qed.

End Generation.

Section WholeRun.

Variable env : Env.
Variable pp : PaymentProcessor.

Lemma gate_paid_same_session (a a' : App) :
  session_state a' = session_state a -> gate_paid a' -> gate_paid a.
Proof. unfold gate_paid. now intros ->. Qed.

Lemma unpaid_not_paid (a : App) :
  payment_state (session_state a) = Some unpaid_state -> ~ gate_paid a.
Proof. intros H (ps & Hps & Hst). rewrite H in Hps. inversion Hps; subst. discriminate. Qed.

(** The steps after the gate, from a state where it let the run pass. *)
Lemma after_gate_cases (i : Inputs) (a : App) (r : result signal unit) (a' : App) :
  (validate_inputs i ;; payment_gateway env pp ;; generation_flow env i) a = (r, a') ->
  quiet (world a) (world a') \/ generated_after_paid_check a a'.
Proof.
  unfold bind at 1.
  pose proof (quiet_validate_inputs i a) as Hq1.
  pose proof (validate_inputs_keeps_session i a) as Hk1.
  destruct (validate_inputs i a) as [[u|s] a1]; simpl in Hq1;
    [|intros H; inversion H; subst; left; exact Hq1].
  specialize (Hk1 u a1 eq_refl). unfold bind at 1.
  pose proof (quiet_payment_gateway env pp a1) as Hq2.
  pose proof (payment_gateway_keeps_session env pp a1) as Hk2.
  destruct (payment_gateway env pp a1) as [[u2|s] a2]; simpl in Hq2;
    [|intros H; inversion H; subst; left; eapply quiet_trans; eassumption].
  specialize (Hk2 u2 a2 eq_refl).
  assert (Hq : quiet (world a) (world a2)) by (eapply quiet_trans; eassumption).
  intros H.
  replace a' with (snd (generation_flow env i a2)) by (now rewrite H).
  destruct (generation_flow_cases env i a2) as [Hg|Hg].
  - left. eapply quiet_trans; eassumption.
  - right. apply (generated_extend a a2); [exact Hq|congruence|exact Hg].
Qed.

(** A run calls the generation API only with the gate paid when it
    started, and only after a paid status check. *)
Lemma main_body_cases (i : Inputs) (a : App) (r : result signal unit) (a' : App) :
  main_body env pp i a = (r, a') ->
  quiet (world a) (world a')
  \/ (gate_paid a /\ generated_after_paid_check a a').
Proof.
  unfold main_body. unfold bind at 1.
  pose proof (quiet_payment_callback env i a) as Hq1.
  pose proof (payment_callback_keeps_session env i a) as Hk1.
  destruct (payment_callback env i a) as [[u1|s] a1]; simpl in Hq1;
    [|intros H; inversion H; subst; left; exact Hq1].
  specialize (Hk1 u1 a1 eq_refl).
  unfold bind at 1. cbn [render update_app].
  set (a2 := set_world _ a1).
  assert (Hq2 : quiet (world a) (world a2))
    by (eapply quiet_same_calls; [|exact Hq1]; reflexivity).
  assert (Hk2 : session_state a2 = session_state a) by exact Hk1.
  unfold bind at 1.
  pose proof (quiet_check_secrets i a2) as Hq3.
  pose proof (check_secrets_keeps_session i a2) as Hk3.
  destruct (check_secrets i a2) as [[u3|s] a3]; simpl in Hq3;
    [|intros H; inversion H; subst; left; eapply quiet_trans; eassumption].
  specialize (Hk3 u3 a3 eq_refl).
  assert (Hq3' : quiet (world a) (world a3)) by (eapply quiet_trans; eassumption).
  assert (Hk3' : session_state a3 = session_state a) by congruence.
  clear Hq1 Hk1 Hq2 Hk2 Hq3 Hk3.
  unfold bind at 1. unfold init_payment_state at 1.
  destruct (submitted i);
    [|destruct (payment_state (session_state a3)); intros H; inversion H; subst;
      left; exact Hq3'].
  destruct (payment_state (session_state a3)) as [ps3|] eqn:Hps3.
  - (* the gate state exists *)
    unfold bind at 1.
    pose proof (quiet_payment_flow env pp a3) as Hq4.
    pose proof (payment_flow_falls_through env pp a3) as Hf4.
    destruct (payment_flow env pp a3) as [[u4|s] a4]; simpl in Hq4;
      [|intros H; inversion H; subst; left; eapply quiet_trans; eassumption].
    specialize (Hf4 a4 u4 eq_refl). unfold bind at 1.
    pose proof (paid_gate_falls_through a4) as Hg5.
    pose proof (quiet_paid_gate a4) as Hq5.
    destruct (paid_gate a4) as [[u5|s] a5]; simpl in Hq5;
      [|intros H; inversion H; subst; left;
        eapply quiet_trans; [|exact Hq5]; eapply quiet_trans; eassumption].
    destruct (Hg5 a5 u5 eq_refl) as [-> Hpaid4].
    destruct Hf4 as [[Hs4 Hpaid3]|Hunpaid];
      [|exfalso; exact (unpaid_not_paid _ Hunpaid Hpaid4)].
    assert (Hq : quiet (world a) (world a4)) by (eapply quiet_trans; eassumption).
    intros H. destruct (after_gate_cases i a4 r a' H) as [Hc|Hc].
    + left. eapply quiet_trans; eassumption.
    + right. split.
      * apply (gate_paid_same_session a a3); assumption.
      * apply (generated_extend a a4); [exact Hq|congruence|exact Hc].
  - (* a fresh gate state is unpaid: the run cannot pass the gate *)
    set (a3' := set_payment_state _ a3).
    assert (Hq3'' : quiet (world a) (world a3')) by exact Hq3'.
    unfold bind at 1.
    pose proof (quiet_payment_flow env pp a3') as Hq4.
    pose proof (payment_flow_falls_through env pp a3') as Hf4.
    destruct (payment_flow env pp a3') as [[u4|s] a4]; simpl in Hq4;
      [|intros H; inversion H; subst; left; eapply quiet_trans; eassumption].
    specialize (Hf4 a4 u4 eq_refl). unfold bind at 1.
    pose proof (paid_gate_falls_through a4) as Hg5.
    pose proof (quiet_paid_gate a4) as Hq5.
    destruct (paid_gate a4) as [[u5|s] a5]; simpl in Hq5;
      [|intros H; inversion H; subst; left;
        eapply quiet_trans; [|exact Hq5]; eapply quiet_trans; eassumption].
    exfalso. destruct (Hg5 a5 u5 eq_refl) as [_ Hpaid4].
    destruct Hf4 as [[_ (ps & Hps & Hst)]|Hunpaid].
    + simpl in Hps. inversion Hps; subst. discriminate.
    + exact (unpaid_not_paid _ Hunpaid Hpaid4).
Qed.

Lemma main_world (i : Inputs) (a : App) :
  snd (main env pp i a) = snd (main_body env pp i a).
Proof.
  unfold main. destruct (main_body env pp i a) as [[u|[e| | |]] a']; reflexivity.
Qed.

End WholeRun.

(** C2: in a run of [main], a call to the generation API is made only
    when the gate state was [paid] as the run started, and only right
    after a status check of the session in [payment_session_id] that
    Stripe answered [paid] and that was written to the ledger; it is
    then the last call of the run.  A run that starts with a gate
    state that is not [paid] makes no such call. *)
Theorem generation_only_after_paid_check
        (env : Env) (pp : PaymentProcessor) (i : Inputs) (a : App)
        (before after : list Call) (m : string) (r : list string * option exn) :
  calls (world (snd (main env pp i a)))
  = (calls (world a) ++ before ++ CallChatCompletion m r :: after)%list ->
  gate_paid a
  /\ (exists sid,
         payment_session_id (session_state a) = Some sid
         /\ ends_with_paid_check sid before)
  /\ after = [].
Proof.
  rewrite main_world. intros H.
  destruct (main_body env pp i a) as [res a'] eqn:Hrun. cbn [snd] in H.
  destruct (main_body_cases env pp i a res a' Hrun) as [(l & Hl & Nl)|[Hpaid Hgen]].
  - exfalso. rewrite Hl in H. apply app_inv_head in H. subst l.
    apply (Nl m r). apply in_or_app. right. left. reflexivity.
  - destruct Hgen as (sid & l & m' & r' & Hsid & Hend & Hc).
    rewrite Hc in H. apply app_inv_head in H.
    destruct Hend as (earlier & session & p & Hst & Hp & Hl & Ne).
    apply generation_call_last in H.
    + destruct H as (Hb & Ha & _). split; [exact Hpaid|]. split; [|exact Ha].
      exists sid. split; [exact Hsid|].
      exists earlier, session, p. subst. auto.
    + subst l. intros m0 r0 Hin. apply in_app_or in Hin. destruct Hin as [Hin|Hin].
      * exact (Ne _ _ Hin).
      * destruct Hin as [Hin|[Hin|[]]]; discriminate.
Qed.

Lemma generation_only_after_paid_check_witness :
  calls (world (snd (main Scenario.paid_env Scenario.processor Scenario.form
                          Scenario.paid_app)))
  = (calls (world Scenario.paid_app)
       ++ Scenario.before_generation
       ++ CallChatCompletion Scenario.prompt (["Dear "; ""; "hiring manager"], None) :: [])%list
  /\ gate_paid Scenario.paid_app
  /\ exists sid,
      payment_session_id (session_state Scenario.paid_app) = Some sid
      /\ ends_with_paid_check sid Scenario.before_generation.
Proof.
  split; [reflexivity|].
  destruct (generation_only_after_paid_check
              Scenario.paid_env Scenario.processor Scenario.form Scenario.paid_app
              Scenario.before_generation []
              Scenario.prompt (["Dear "; ""; "hiring manager"], None) eq_refl)
    as (Hpaid & Hcheck & _).
  split; assumption.
Defined.

(** * Further properties *)

(** ** Strings *)

Section Strings.

Lemma append_empty_r (s : string) : s ++ "" = s.
Proof. induction s as [|c s IH]; simpl; [reflexivity|now rewrite IH]. Qed.

Lemma append_assoc (s1 s2 s3 : string) : (s1 ++ s2) ++ s3 = s1 ++ (s2 ++ s3).
Proof. induction s1 as [|c s1 IH]; simpl; [reflexivity|now rewrite IH]. Qed.

Lemma append_length (a b : string) :
  String.length (a ++ b) = (String.length a + String.length b)%nat.
Proof. induction a as [|c a IH]; simpl; [reflexivity|now rewrite IH]. Qed.

Lemma concat_cons (x : string) (l : list string) :
  String.concat "" (x :: l) = x ++ String.concat "" l.
Proof. destruct l; simpl; [now rewrite append_empty_r|reflexivity]. Qed.

Lemma concat_app (l1 l2 : list string) :
  String.concat "" (l1 ++ l2) = String.concat "" l1 ++ String.concat "" l2.
Proof.
  induction l1 as [|x l1 IH]; [reflexivity|].
  change ((x :: l1) ++ l2)%list with (x :: (l1 ++ l2))%list.
  now rewrite !concat_cons, IH, append_assoc.
Qed.

(** [strip] takes a white-space character off the front. *)
Lemma after_any_white_space (c rest : string) :
  In c Str.white_space -> Str.after_any Str.white_space (c ++ rest) = Some rest.
Proof.
  intros H. unfold Str.white_space in H. cbn [map] in H.
  repeat (destruct H as [<-|H]; [reflexivity|]). destruct H.
Qed.

Lemma white_space_not_empty (c : string) :
  In c Str.white_space -> (1 <= String.length c)%nat.
Proof.
  intros H. unfold Str.white_space in H. cbn [map] in H.
  repeat (destruct H as [<-|H]; [cbn; lia|]). destruct H.
Qed.

Lemma concat_white_space_length (chars : list string) :
  Forall (fun c => In c Str.white_space) chars ->
  (length chars <= String.length (String.concat "" chars))%nat.
Proof.
  induction 1 as [|c chars Hc _ IH]; [simpl; lia|].
  rewrite concat_cons, append_length. apply white_space_not_empty in Hc.
  simpl. lia.
Qed.

Lemma lstrip_fuel_white_space (chars : list string) :
  Forall (fun c => In c Str.white_space) chars ->
  forall fuel,
    (length chars <= fuel)%nat ->
    Str.lstrip_fuel Str.white_space fuel (String.concat "" chars) = "".
Proof.
  induction 1 as [|c chars Hc _ IH]; intros fuel Hfuel.
  - destruct fuel; reflexivity.
  - destruct fuel as [|fuel]; [simpl in Hfuel; lia|].
    rewrite concat_cons. cbn [Str.lstrip_fuel].
    rewrite (after_any_white_space _ _ Hc). apply IH. simpl in Hfuel. lia.
Qed.

(** A text of white space only is stripped to nothing. *)
Lemma strip_all_space (s : string) : all_space s -> Str.strip s = "".
Proof.
  intros (chars & Hchars & ->). unfold Str.strip, Str.lstrip_of.
  rewrite (lstrip_fuel_white_space _ Hchars)
    by (apply concat_white_space_length, Hchars).
  reflexivity.
Qed.

Lemma all_space_append (s1 s2 : string) :
  all_space s1 -> all_space s2 -> all_space (s1 ++ s2).
Proof.
  intros (l1 & H1 & ->) (l2 & H2 & ->). exists (l1 ++ l2)%list.
  split; [now apply Forall_app|]. now rewrite concat_app.
Qed.

Lemma all_space_char (c : string) : In c Str.white_space -> all_space c.
Proof. intros H. exists [c]. split; [now constructor|reflexivity]. Qed.

Lemma all_space_empty : all_space "".
Proof. exists []. split; [constructor|reflexivity]. Qed.

End Strings.

(** ** [PaymentProcessor.__init__] *)

Lemma constructor_raises
      (create_client : string -> string -> option exn) (a : Init.Args) (key : Init.ApiKey) :
  exists e, fst (Init.__init__ create_client a key) = Raise e.
Proof.
  unfold Init.__init__, Init.call_create_client, Init.unbound_name.
  cbv beta iota zeta delta [bind ret raise fst snd].
  destruct (negb (Init.all_truthy _)); [eexists; reflexivity|].
  destruct (negb (Init.startswith (Init.arg_supabase_url a) "https://"));
    [eexists; reflexivity|].
  destruct (negb (Init.startswith (Init.arg_supabase_key a) "eyJ"));
    [eexists; reflexivity|].
  destruct (create_client _ _); eexists; reflexivity.
Qed.


(** X2: the script never gets to [main]: lines 1-17 always end it.
    When an import fails, nothing catches the exception and nothing
    is rendered.  When the imports go through, the construction of
    the clients fails, whether [PaymentProcessor] is called without
    arguments, as the script does, or with any arguments: the failure
    is shown as [Initialization failed: ...] and the script stops. *)
Theorem script_stops_at_initialization
        (imports : option exn) (future_repr : exn -> string)
        (create_client : string -> string -> option exn) (openai_client : option exn)
        (args : option Init.Args) (key : Init.ApiKey) :
  match imports with
  | Some e =>
      Init.script_start imports future_repr create_client openai_client args key
      = (Raise (Exception e), [])
  | None =>
      exists msg,
        Init.script_start imports future_repr create_client openai_client args key
        = (Raise StopException, [UiError ("Initialization failed: " ++ msg)])
  end.
Proof.
  destruct imports as [e|]; [reflexivity|].
  unfold Init.script_start, Init.initialize_clients, Init.construct.
  destruct args as [a|].
  - destruct (constructor_raises create_client a key) as (e & He).
    destruct (Init.__init__ create_client a key) as [[p|e'] k]; simpl in He;
      [discriminate|].
    eexists. reflexivity.
  - eexists. reflexivity.
Qed.

(** ** More on [verify_webhook] *)

Section WebhookMore.

Variable env : Env.
Variable self : PaymentProcessor.

(** An update that writes a session's own id back rewrites the status
    of its rows and moves no row from one session to another. *)
Lemma statuses_update_own_id (st : string) (ua sd : option string) (id : string)
      (rows : list Row) :
  Ledger.statuses id (Ledger.update_rows (mkPatch (Some st) ua sd (Some id)) id rows)
  = map (fun _ => st) (Ledger.statuses id rows).
Proof.
  unfold Ledger.statuses, Ledger.update_rows.
  induction rows as [|r rows IH]; simpl; [reflexivity|].
  destruct (String.eqb (session_id r) id) eqn:E; simpl.
  - rewrite String.eqb_refl. simpl. now rewrite IH.
  - rewrite E. exact IH.
Qed.

Lemma session_ids_update_own_id (st : string) (ua sd : option string) (id : string)
      (rows : list Row) :
  map session_id (Ledger.update_rows (mkPatch (Some st) ua sd (Some id)) id rows)
  = map session_id rows.
Proof.
  unfold Ledger.update_rows.
  induction rows as [|r rows IH]; simpl; [reflexivity|].
  destruct (String.eqb (session_id r) id) eqn:E; simpl; rewrite IH; [|reflexivity].
  apply String.eqb_eq in E. now rewrite E.
Qed.

Lemma statuses_update_elsewhere (p : Patch) (id sid' : string) (rows : list Row) :
  p_session_id p = Some id -> sid' <> id ->
  Ledger.statuses sid' (Ledger.update_rows p id rows) = Ledger.statuses sid' rows.
Proof.
  intros Hp Hne. unfold Ledger.statuses, Ledger.update_rows.
  induction rows as [|r rows IH]; simpl; [reflexivity|].
  destruct (String.eqb (session_id r) id) eqn:E; simpl.
  - apply String.eqb_eq in E. unfold Ledger.override. rewrite Hp.
    assert (Hid : String.eqb id sid' = false) by (apply String.eqb_neq; congruence).
    assert (Hr : String.eqb (session_id r) sid' = false)
      by (apply String.eqb_neq; congruence).
    rewrite Hid, Hr. exact IH.
  - destruct (String.eqb (session_id r) sid'); simpl; now rewrite IH.
Qed.

(** One attempt on a verified [checkout.session.completed] event that
    names its session and carries a status. *)
Lemma verify_webhook_body_completed (payload sig_header : string) (ev : Event)
      (id st : string) (w : World) :
  construct_event env (calls w) payload sig_header (stripe_webhook_secret self) = Ok ev ->
  ev_type ev = "checkout.session.completed" ->
  so_id (ev_object ev) = Some id ->
  so_payment_status (ev_object ev) = Some st ->
  let p := mkPatch (Some st) (Some (isoformat env (clock w))) None
                   (Some (if falsy id then "local_" ++ timestamp_str env (clock w) else id)) in
  let w1 := add_call (CallConstructEvent payload sig_header (Ok ev)) w in
  verify_webhook_body env self payload sig_header w
  = match supabase_execute env (calls w1) (Update p id) with
    | None => (Ok (Some ev),
               set_payments (Ledger.update_rows p id (payments w))
                            (add_call (CallExecute (Update p id) None) w1))
    | Some e =>
        if is_SignatureVerificationError e
        then (Ok None,
              add_stdout ("Webhook verification failed: " ++ str env e)
                         (add_call (CallExecute (Update p id) (Some e)) w1))
        else (Raise e, add_call (CallExecute (Update p id) (Some e)) w1)
    end.
Proof.
  intros Hev Hty Hid Hst. apply String.eqb_eq in Hty.
  unfold verify_webhook_body, stripe_construct_event, webhook_update. run_py.
  rewrite Hev. run_py. rewrite Hty, Hst. run_py. rewrite Hid. run_py.
  cbn [clock calls add_call payments stdout ui].
  match goal with
  | |- context [supabase_execute env ?h ?op] => destruct (supabase_execute env h op) as [e|]
  end; run_py; [destruct (is_SignatureVerificationError e)|]; reflexivity.
Qed.

(** One attempt on a completed event that lacks a key. *)
Lemma verify_webhook_body_missing_key (payload sig_header : string) (ev : Event) (w : World) :
  construct_event env (calls w) payload sig_header (stripe_webhook_secret self) = Ok ev ->
  ev_type ev = "checkout.session.completed" ->
  so_payment_status (ev_object ev) = None \/ so_id (ev_object ev) = None ->
  verify_webhook_body env self payload sig_header w
  = (Raise (KeyError (match so_payment_status (ev_object ev) with
                      | None => "payment_status"
                      | Some _ => "id"
                      end)),
     add_call (CallConstructEvent payload sig_header (Ok ev)) w).
Proof.
  intros Hev Hty Hmiss. apply String.eqb_eq in Hty.
  unfold verify_webhook_body, stripe_construct_event, webhook_update. run_py.
  rewrite Hev. run_py. rewrite Hty.
  destruct (so_payment_status (ev_object ev)) as [st|]; run_py; [|reflexivity].
  destruct Hmiss as [Hmiss|Hmiss]; [discriminate|]. rewrite Hmiss. reflexivity.
Qed.

End WebhookMore.

(** X3: a verified [checkout.session.completed] event that names a
    session and carries a payment status, the ledger accepting the
    update: [verify_webhook] returns the event after one verification
    and no sleep, every row of that session then holds the status the
    event carries, the rows of the other sessions keep theirs, and no
    row changes its session id. *)
Theorem verify_webhook_completed_event
        (env : Env) (self : PaymentProcessor) (payload sig_header : string) (ev : Event)
        (id st : string) (w : World) :
  construct_event env (calls w) payload sig_header (stripe_webhook_secret self) = Ok ev ->
  ev_type ev = "checkout.session.completed" ->
  so_id (ev_object ev) = Some id ->
  id <> "" ->
  so_payment_status (ev_object ev) = Some st ->
  supabase_execute env
                   (calls w ++ [CallConstructEvent payload sig_header (Ok ev)])%list
                   (Update (mkPatch (Some st) (Some (isoformat env (clock w))) None (Some id))
                           id)
  = None ->
  fst (verify_webhook env self payload sig_header w) = Ok (Some ev)
  /\ Ledger.statuses id (payments (snd (verify_webhook env self payload sig_header w)))
     = map (fun _ => st) (Ledger.statuses id (payments w))
  /\ (forall sid', sid' <> id ->
        Ledger.statuses sid' (payments (snd (verify_webhook env self payload sig_header w)))
        = Ledger.statuses sid' (payments w))
  /\ map session_id (payments (snd (verify_webhook env self payload sig_header w)))
     = map session_id (payments w)
  /\ clock (snd (verify_webhook env self payload sig_header w)) = clock w.
Proof.
  intros Hev Hty Hid Hne Hst Hex.
  pose proof (verify_webhook_body_completed env self payload sig_header ev id st w
                                            Hev Hty Hid Hst) as Hbody.
  cbv zeta in Hbody.
  assert (Hf : falsy id = false) by (destruct id; [congruence|reflexivity]).
  rewrite Hf in Hbody. cbn [calls add_call] in Hbody. rewrite Hex in Hbody.
  unfold verify_webhook. rewrite (retry_returns _ _ _ _ _ _ Hbody).
  cbn [fst snd payments set_payments clock].
  split; [reflexivity|]. split; [apply statuses_update_own_id|].
  split; [|split; [apply session_ids_update_own_id|reflexivity]].
  intros sid' Hs. now apply statuses_update_elsewhere with (id := id).
Qed.

Lemma verify_webhook_completed_event_witness :
  Ledger.statuses "cs_1"
    (payments (snd (Scenario.deliver (Scenario.completed "paid") "pending")))
  = ["paid"]
  /\ fst (Scenario.deliver (Scenario.completed "paid") "pending")
     = Ok (Some (Scenario.completed "paid")).
Proof.
  destruct (verify_webhook_completed_event
              (Scenario.env_reporting "unpaid" (Scenario.completed "paid"))
              Scenario.processor "{}" "t=1,v1=abc" (Scenario.completed "paid")
              "cs_1" "paid" (Scenario.world_with "pending"))
    as (Hr & Hs & _); try reflexivity; try discriminate.
  split; [etransitivity; [exact Hs|reflexivity]|exact Hr].
Defined.

(** X4: a verified [checkout.session.completed] event that lacks
    ['payment_status'] or ['id'] makes every attempt raise [KeyError]:
    the event is verified three times, with sleeps of 1 and 2 in
    between, nothing is sent to the ledger, and the caller gets
    [RetryError] around the [KeyError]. *)
Theorem verify_webhook_event_missing_key
        (env : Env) (self : PaymentProcessor) (payload sig_header : string) (ev : Event)
        (w : World) :
  (forall h, construct_event env h payload sig_header (stripe_webhook_secret self) = Ok ev) ->
  ev_type ev = "checkout.session.completed" ->
  so_payment_status (ev_object ev) = None \/ so_id (ev_object ev) = None ->
  let c := CallConstructEvent payload sig_header (Ok ev) in
  fst (verify_webhook env self payload sig_header w)
  = Raise (RetryError (KeyError (match so_payment_status (ev_object ev) with
                                 | None => "payment_status"
                                 | Some _ => "id"
                                 end)))
  /\ payments (snd (verify_webhook env self payload sig_header w)) = payments w
  /\ calls (snd (verify_webhook env self payload sig_header w))
     = (failed_attempt c 2 (failed_attempt c 1 (calls w)) ++ [c])%list.
Proof.
  intros Hev Hty Hmiss c.
  unfold verify_webhook.
  erewrite retry_three_failures; cycle 1.
  - apply verify_webhook_body_missing_key; auto.
  - apply verify_webhook_body_missing_key; auto.
  - apply verify_webhook_body_missing_key; auto.
  - split; [reflexivity|]. split; [reflexivity|].
    unfold failed_attempt. simpl. now rewrite <- !app_assoc.
Qed.

Lemma verify_webhook_event_missing_key_witness :
  fst (Scenario.deliver (mkEvent "checkout.session.completed" (mkStripeObject None (Some "paid")))
                        "pending")
  = Raise (RetryError (KeyError "id"))
  /\ payments (snd (Scenario.deliver
                      (mkEvent "checkout.session.completed"
                               (mkStripeObject None (Some "paid")))
                      "pending"))
     = payments (Scenario.world_with "pending").
Proof.
  destruct (verify_webhook_event_missing_key
              (Scenario.env_reporting "unpaid"
                 (mkEvent "checkout.session.completed" (mkStripeObject None (Some "paid"))))
              Scenario.processor "{}" "t=1,v1=abc"
              (mkEvent "checkout.session.completed" (mkStripeObject None (Some "paid")))
              (Scenario.world_with "pending"))
    as (Hr & Hp & _).
  - intros h. reflexivity.
  - reflexivity.
  - right. reflexivity.
  - split; assumption.
Defined.

(** ** What polls and webhooks never do to the ledger *)

Lemma row_origin_update_rows (p : Patch) (id : string) (rows : list Row) :
  map row_origin (Ledger.update_rows p id rows) = map row_origin rows.
Proof.
  unfold Ledger.update_rows. rewrite map_map. apply map_ext.
  intros r. destruct (String.eqb (session_id r) id); reflexivity.
Qed.

(** X5: neither a poll nor a webhook delivery inserts or deletes a
    ledger row, or touches the user or the creation time of one:
    whatever the services answer, the rows are the same in number and
    order, each with its [user_id] and [created_at]. *)
Theorem polls_and_webhooks_only_update
        (env : Env) (self : PaymentProcessor) (sid payload sig_header : string) (w : World) :
  map row_origin (payments (snd (check_payment_status env sid w)))
  = map row_origin (payments w)
  /\ map row_origin (payments (snd (verify_webhook env self payload sig_header w)))
     = map row_origin (payments w).
Proof.
  split.
  - destruct (check_payment_status_payments env sid w) as [->|(session & _ & _ & ->)];
      [reflexivity|apply row_origin_update_rows].
  - unfold verify_webhook, Tenacity.retry.
    apply attempts_preserves
      with (P := fun w' => map row_origin (payments w') = map row_origin (payments w)).
    + intros w1 H1.
      destruct (verify_webhook_body_payments env self payload sig_header w1)
        as [->|(ev & id & st & ua & _ & _ & _ & _ & ->)];
        [exact H1|now rewrite row_origin_update_rows].
    + intros w1 d H1. exact H1.
    + reflexivity.
Qed.

(** ** [create_payment_session] when the ledger fails *)

Section CreateMore.

Variable env : Env.
Variable self : PaymentProcessor.

Lemma sessions_created_app (l1 l2 : list Call) :
  sessions_created (l1 ++ l2) = (sessions_created l1 + sessions_created l2)%nat.
Proof.
  induction l1 as [|c l1 IH]; simpl; [reflexivity|].
  destruct c as [a [s|e]| | | | | |]; simpl; now rewrite IH.
Qed.

(** [log_transaction] creates no checkout session. *)
Lemma log_transaction_sessions_created (uid sid : string) (w : World) :
  sessions_created (calls (snd (log_transaction env uid sid w)))
  = sessions_created (calls w).
Proof.
  unfold log_transaction, Tenacity.retry.
  apply attempts_preserves
    with (P := fun w' => sessions_created (calls w') = sessions_created (calls w)).
  - intros w1 H1. rewrite log_transaction_body_cases.
    destruct (supabase_execute env (calls w1) _); simpl;
      rewrite sessions_created_app; simpl; lia.
  - intros w1 d H1. simpl. rewrite sessions_created_app. simpl. lia.
  - reflexivity.
Qed.

(** One attempt of [create_payment_session] asks Stripe once. *)
Lemma create_payment_session_body_sessions_created (uid : string) (w : World) :
  sessions_created (calls (snd (create_payment_session_body env self uid w)))
  = match Session_create env (calls w) (create_args self uid) with
    | Ok _ => S (sessions_created (calls w))
    | Raise _ => sessions_created (calls w)
    end.
Proof.
  unfold create_payment_session_body, stripe_Session_create. run_py.
  destruct (Session_create env (calls w) (create_args self uid)) as [session|e] eqn:Hc.
  - match goal with
    | |- context [log_transaction env uid ?s ?x] =>
        pose proof (log_transaction_sessions_created uid s x) as Hl;
          destruct (log_transaction env uid s x) as [[u|e] w1]
    end; simpl in Hl.
    + simpl. rewrite Hl, sessions_created_app. simpl. lia.
    + destruct (is_StripeError e); simpl; rewrite Hl, sessions_created_app; simpl; lia.
  - destruct (is_StripeError e); simpl; rewrite sessions_created_app; simpl; lia.
Qed.

End CreateMore.

Section RetryBounds.

Context {A : Type}.
Variable wait : nat -> Z.
Variable f : M exn World A.

(** Three attempts at most: a count that an attempt raises by one at
    most, and that sleeping leaves alone, is raised by three at most. *)
Lemma retry_three_count (count : World -> nat) :
  (forall w, count w <= count (snd (f w)) <= count w + 1) ->
  (forall w d, count (snd (sleep d w)) = count w) ->
  forall w, count w <= count (snd (Tenacity.retry 3 wait f w)) <= count w + 3.
Proof.
  intros Hf Hs w. unfold Tenacity.retry. change (3 - 1)%nat with 2%nat.
  cbn [Tenacity.attempts].
  pose proof (Hf w) as H1. destruct (f w) as [[a|e1] w1]; simpl in H1; [simpl; lia|].
  pose proof (Hf (snd (sleep (inject_Z (wait 1)) w1))) as H2.
  rewrite Hs in H2.
  destruct (f (snd (sleep (inject_Z (wait 1)) w1))) as [[a|e2] w2]; simpl in H2;
    [simpl; lia|].
  pose proof (Hf (snd (sleep (inject_Z (wait 2)) w2))) as H3.
  rewrite Hs in H3.
  destruct (f (snd (sleep (inject_Z (wait 2)) w2))) as [[a|e3] w3]; simpl in H3;
    simpl; lia.
Qed.

(** The time three attempts take: what the attempts take, and the two
    sleeps between them. *)
Lemma retry_three_clock (b : Q) :
  (forall w, (clock w <= clock (snd (f w)) <= clock w + b)%Q) ->
  wait 1%nat = 1%Z -> wait 2%nat = 2%Z ->
  forall w, (clock w <= clock (snd (Tenacity.retry 3 wait f w)) <= clock w + (3 * b + 3))%Q.
Proof.
  intros Hf W1 W2 w. unfold Tenacity.retry. change (3 - 1)%nat with 2%nat.
  cbn [Tenacity.attempts]. rewrite W1, W2.
  pose proof (Hf w) as H1. destruct (f w) as [[a|e1] w1]; simpl in H1; [simpl; lra|].
  pose proof (Hf (snd (sleep (inject_Z 1) w1))) as H2.
  change (clock (snd (sleep (inject_Z 1) w1))) with (clock w1 + 1)%Q in H2.
  destruct (f (snd (sleep (inject_Z 1) w1))) as [[a|e2] w2]; simpl in H2;
    [simpl; lra|].
  pose proof (Hf (snd (sleep (inject_Z 2) w2))) as H3.
  change (clock (snd (sleep (inject_Z 2) w2))) with (clock w2 + 2)%Q in H3.
  destruct (f (snd (sleep (inject_Z 2) w2))) as [[a|e3] w3]; simpl in H3;
    simpl; lra.
Qed.

End RetryBounds.

(** X6: one call of [create_payment_session] has Stripe create at
    most three checkout sessions, whatever the services answer, and
    exactly three when Stripe answers while the ledger refuses every
    request: each retry of the creation opens a new session and none
    of the three is recorded. *)
Theorem checkout_sessions_per_call
        (env : Env) (self : PaymentProcessor) (uid : string) (w : World) :
  (sessions_created (calls w)
   <= sessions_created (calls (snd (create_payment_session env self uid w)))
   <= sessions_created (calls w) + 3)%nat
  /\ ((forall h a, exists session, Session_create env h a = Ok session) ->
      (forall h op, supabase_execute env h op <> None) ->
      sessions_created (calls (snd (create_payment_session env self uid w)))
      = (sessions_created (calls w) + 3)%nat
      /\ payments (snd (create_payment_session env self uid w)) = payments w).
Proof.
  split.
  - unfold create_payment_session.
    apply retry_three_count with (count := fun w' => sessions_created (calls w')).
    + intros w1. rewrite create_payment_session_body_sessions_created.
      destruct (Session_create env (calls w1) (create_args self uid)); lia.
    + intros w1 d. simpl. rewrite sessions_created_app. simpl. lia.
  - intros Hstripe Hledger.
    assert (Hbody : forall w1, exists e w1',
                 create_payment_session_body env self uid w1 = (Raise e, w1')
                 /\ sessions_created (calls w1') = S (sessions_created (calls w1))
                 /\ payments w1' = payments w1).
    { intros w1.
      destruct (create_payment_session_body_ledger_down env self uid w1 Hstripe Hledger)
        as (e & w1' & Hrun).
      pose proof (create_payment_session_body_sessions_created env self uid w1) as Hn.
      destruct (Hstripe (calls w1) (create_args self uid)) as [session Hs].
      rewrite Hs, Hrun in Hn. simpl in Hn.
      exists (RetryError e), w1'. split; [exact Hrun|]. split; [exact Hn|].
      eapply create_payment_session_body_raises; eauto. }
    unfold create_payment_session, Tenacity.retry. change (3 - 1)%nat with 2%nat.
    cbn [Tenacity.attempts].
    destruct (Hbody w) as (e1 & w1 & -> & N1 & P1).
    destruct (Hbody (snd (sleep (inject_Z (Tenacity.wait_exponential 1 10 1)) w1)))
      as (e2 & w2 & -> & N2 & P2).
    destruct (Hbody (snd (sleep (inject_Z (Tenacity.wait_exponential 1 10 2)) w2)))
      as (e3 & w3 & -> & N3 & P3).
    cbn [snd]. split.
    + rewrite N3. simpl calls. rewrite sessions_created_app, N2. simpl calls.
      rewrite sessions_created_app, N1. simpl. lia.
    + rewrite P3. simpl. rewrite P2. simpl. exact P1.
Qed.

Lemma checkout_sessions_per_call_witness :
  sessions_created
    (calls (snd (create_payment_session
                   (Scenario.env_ledger_failing (PyException "connection refused"))
                   Scenario.processor "u1" Scenario.empty_world)))
  = 3%nat.
Proof.
  apply (proj2 (checkout_sessions_per_call
                  (Scenario.env_ledger_failing (PyException "connection refused"))
                  Scenario.processor "u1" Scenario.empty_world)).
  - intros h a. eexists. reflexivity.
  - intros h op. discriminate.
Defined.

(** X7: the ledger refusing the insert once and accepting it on the
    second attempt of [log_transaction]: [create_payment_session]
    returns the URL of the one session Stripe created, having slept
    one time unit, and the row it leaves carries the time of the
    second attempt. *)
Theorem create_payment_session_ledger_recovers
        (env : Env) (self : PaymentProcessor) (uid : string) (session : CheckoutSession)
        (e : exn) (w : World) :
  let row := fun t => mkRow uid (cs_id session) "pending" (strftime env t) None None in
  let h1 := (calls w ++ [CallSessionCreate (create_args self uid) (Ok session)])%list in
  Session_create env (calls w) (create_args self uid) = Ok session ->
  supabase_execute env h1 (Insert (row (clock w))) = Some e ->
  supabase_execute env
                   (failed_attempt (CallExecute (Insert (row (clock w))) (Some e)) 1 h1)
                   (Insert (row (clock w + 1)%Q))
  = None ->
  fst (create_payment_session env self uid w) = Ok (Some (cs_url session))
  /\ payments (snd (create_payment_session env self uid w))
     = (payments w ++ [row (clock w + 1)%Q])%list
  /\ clock (snd (create_payment_session env self uid w)) = (clock w + 1)%Q
  /\ sessions_created (calls (snd (create_payment_session env self uid w)))
     = S (sessions_created (calls w)).
Proof.
  intros row h1 Hc H1 H2. subst row h1.
  assert (Hrun : create_payment_session_body env self uid w
                 = (Ok (Some (cs_url session)),
                    set_payments
                      (payments w
                         ++ [mkRow uid (cs_id session) "pending"
                                   (strftime env (clock w + 1)%Q) None None])%list
                      (add_call
                         (CallExecute
                            (Insert (mkRow uid (cs_id session) "pending"
                                           (strftime env (clock w + 1)%Q) None None))
                            None)
                         (snd (sleep 1
                                 (add_call
                                    (CallExecute
                                       (Insert (mkRow uid (cs_id session) "pending"
                                                      (strftime env (clock w)) None None))
                                       (Some e))
                                    (add_call
                                       (CallSessionCreate (create_args self uid) (Ok session))
                                       w))))))).
  { unfold create_payment_session_body, stripe_Session_create. run_py. rewrite Hc.
    unfold log_transaction, Tenacity.retry. change (3 - 1)%nat with 2%nat.
    cbn [Tenacity.attempts].
    rewrite log_transaction_body_cases. cbv zeta.
    cbn [clock calls add_call]. rewrite H1.
    rewrite log_transaction_body_cases. cbv zeta.
    change (Tenacity.wait_exponential 1 5 1) with 1%Z.
    change (inject_Z 1) with 1%Q.
    unfold failed_attempt in H2. change (inject_Z 1) with 1%Q in H2.
    cbn [sleep snd clock calls add_call set_clock payments stdout ui].
    rewrite <- app_assoc. cbn [app].
    rewrite H2. reflexivity. }
  unfold create_payment_session. rewrite (retry_returns _ _ _ _ _ _ Hrun).
  cbn [fst snd payments set_payments clock add_call sleep set_clock calls].
  repeat split. rewrite !sessions_created_app. simpl. lia.
Qed.

Lemma create_payment_session_ledger_recovers_witness :
  fst (create_payment_session More.env_ledger_flaky Scenario.processor "u1"
                              Scenario.empty_world)
  = Ok (Some "https://checkout.stripe.com/pay/cs_1#fid")
  /\ payments (snd (create_payment_session More.env_ledger_flaky Scenario.processor "u1"
                                           Scenario.empty_world))
     = [mkRow "u1" "cs_1" "pending" "2025-01-01 10:05:01" None None].
Proof.
  destruct (create_payment_session_ledger_recovers
              More.env_ledger_flaky Scenario.processor "u1" (Scenario.session_1 "unpaid")
              (PyException "timeout") Scenario.empty_world eq_refl eq_refl eq_refl)
    as (Hr & Hp & _).
  split; [exact Hr|exact Hp].
Defined.

(** ** Time spent sleeping *)

Section Sleeping.

Variable env : Env.
Variable self : PaymentProcessor.

Lemma log_transaction_body_clock (uid sid : string) (w : World) :
  clock (snd (log_transaction_body env uid sid w)) = clock w.
Proof.
  rewrite log_transaction_body_cases.
  destruct (supabase_execute env (calls w) _); reflexivity.
Qed.

Lemma log_transaction_clock (uid sid : string) (w : World) :
  (clock w <= clock (snd (log_transaction env uid sid w)) <= clock w + 3)%Q.
Proof.
  unfold log_transaction.
  pose proof (retry_three_clock (Tenacity.wait_exponential 1 5)
                                (log_transaction_body env uid sid) 0) as H.
  specialize (H (fun w1 => ltac:(rewrite log_transaction_body_clock; lra))
                eq_refl eq_refl w).
  lra.
Qed.

Lemma create_payment_session_body_clock (uid : string) (w : World) :
  (clock w <= clock (snd (create_payment_session_body env self uid w)) <= clock w + 3)%Q.
Proof.
  unfold create_payment_session_body, stripe_Session_create. run_py.
  destruct (Session_create env (calls w) (create_args self uid)) as [session|e].
  - match goal with
    | |- context [log_transaction env uid ?s ?x] =>
        pose proof (log_transaction_clock uid s x) as Hl;
          destruct (log_transaction env uid s x) as [[u|e] w1]
    end; simpl in Hl; [exact Hl|].
    destruct (is_StripeError e); exact Hl.
  - destruct (is_StripeError e); simpl; lra.
Qed.

Lemma verify_webhook_body_clock (payload sig_header : string) (w : World) :
  clock (snd (verify_webhook_body env self payload sig_header w)) = clock w.
Proof.
  unfold verify_webhook_body, stripe_construct_event, webhook_update. run_py.
  destruct (construct_event env (calls w) payload sig_header (stripe_webhook_secret self))
    as [ev|e]; run_py.
  - destruct (String.eqb (ev_type ev) "checkout.session.completed"); run_py;
      [|reflexivity].
    destruct (so_payment_status (ev_object ev)) as [st|]; run_py; [|reflexivity].
    destruct (so_id (ev_object ev)) as [id|]; run_py; [|reflexivity].
    match goal with
    | |- context [supabase_execute env ?h ?op] =>
        destruct (supabase_execute env h op) as [e|]; run_py
    end; [destruct (is_SignatureVerificationError e)|]; reflexivity.
  - destruct (is_SignatureVerificationError e); reflexivity.
Qed.

End Sleeping.

(** X8: how long the calls can sleep, whatever the services answer:
    [check_payment_status] never sleeps, [verify_webhook] sleeps 3
    time units at most, and [create_payment_session], whose retries
    contain those of [log_transaction], 12 at most. *)
Theorem time_spent_sleeping
        (env : Env) (self : PaymentProcessor) (sid uid payload sig_header : string)
        (w : World) :
  clock (snd (check_payment_status env sid w)) = clock w
  /\ (clock w <= clock (snd (verify_webhook env self payload sig_header w))
      <= clock w + 3)%Q
  /\ (clock w <= clock (snd (create_payment_session env self uid w)) <= clock w + 12)%Q.
Proof.
  split; [|split].
  - pose proof (check_payment_status_cases env sid w) as H.
    destruct (Session_retrieve env (calls w) sid) as [session|e].
    + cbv zeta in H. destruct (supabase_execute env _ _) as [e|]; rewrite H;
        [destruct (is_StripeError e)|]; reflexivity.
    + rewrite H. destruct (is_StripeError e); reflexivity.
  - unfold verify_webhook.
    pose proof (retry_three_clock (Tenacity.wait_exponential 1 10)
                                  (verify_webhook_body env self payload sig_header) 0) as H.
    specialize (H (fun w1 => ltac:(rewrite verify_webhook_body_clock; lra))
                  eq_refl eq_refl w).
    lra.
  - unfold create_payment_session.
    pose proof (retry_three_clock (Tenacity.wait_exponential 1 10)
                                  (create_payment_session_body env self uid) 3
                                  (create_payment_session_body_clock env self uid)
                                  eq_refl eq_refl w) as H.
    lra.
Qed.

(** ** The payment calls do not look at what is on screen *)

Section UiBlind.

Lemma ui_blind_ret {A} (x : A) : ui_blind (ret x).
Proof. intros e w. reflexivity. Qed.

Lemma ui_blind_bind {A B} (c : M exn World A) (k : A -> M exn World B) :
  ui_blind c -> (forall x, ui_blind (k x)) -> ui_blind (bind c k).
Proof.
  intros Hc Hk e w. unfold bind. rewrite Hc.
  destruct (c w) as [[x|ex] w1]; simpl; [apply Hk|reflexivity].
Qed.

Lemma ui_blind_try_except {A} (c : M exn World A) (handles : exn -> bool)
      (handler : exn -> M exn World A) :
  ui_blind c -> (forall x, ui_blind (handler x)) -> ui_blind (try_except c handles handler).
Proof.
  intros Hc Hh e w. unfold try_except. rewrite Hc.
  destruct (c w) as [[x|ex] w1]; simpl; [reflexivity|].
  destruct (handles ex); [apply Hh|reflexivity].
Qed.

Lemma ui_blind_print (line : string) : ui_blind (print line).
Proof. intros e w. reflexivity. Qed.

Lemma ui_blind_time : ui_blind time_time.
Proof. intros e w. reflexivity. Qed.

Lemma ui_blind_sleep (d : Q) : ui_blind (sleep d).
Proof. intros e w. reflexivity. Qed.

Lemma ui_blind_attempts {A} (wait : nat -> Z) (f : M exn World A) (more n : nat) :
  ui_blind f -> ui_blind (Tenacity.attempts wait more n f).
Proof.
  intros Hf. revert n. induction more as [|more IH]; intros n e w; simpl; rewrite Hf.
  - destruct (f w) as [[x|ex] w1]; reflexivity.
  - destruct (f w) as [[x|ex] w1]; simpl; [reflexivity|].
    apply (IH (S n) e (add_call (CallSleep (inject_Z (wait n)))
                                (set_clock (clock w1 + inject_Z (wait n))%Q w1))).
Qed.

Variable env : Env.

Lemma ui_blind_execute (op : TableOp) : ui_blind (execute env op).
Proof.
  intros e w. unfold execute. cbn [calls add_ui].
  destruct (supabase_execute env (calls w) op); reflexivity.
Qed.

Lemma ui_blind_check_payment_status (sid : string) :
  ui_blind (check_payment_status env sid).
Proof.
  unfold check_payment_status. apply ui_blind_try_except.
  - apply ui_blind_bind; [intros e w; reflexivity|].
    intros session. apply ui_blind_bind; [apply ui_blind_time|].
    intros now. apply ui_blind_bind; [apply ui_blind_execute|].
    intros _. apply ui_blind_ret.
  - intros x. apply ui_blind_bind; [apply ui_blind_print|]. intros _. apply ui_blind_ret.
Qed.

Lemma ui_blind_create_payment_session (self : PaymentProcessor) (uid : string) :
  ui_blind (create_payment_session env self uid).
Proof.
  unfold create_payment_session, Tenacity.retry. apply ui_blind_attempts.
  unfold create_payment_session_body. apply ui_blind_try_except.
  - apply ui_blind_bind; [intros e w; reflexivity|].
    intros session. apply ui_blind_bind.
    + unfold log_transaction, Tenacity.retry. apply ui_blind_attempts.
      unfold log_transaction_body.
      apply ui_blind_bind; [apply ui_blind_time|]. intros now. apply ui_blind_execute.
    + intros _. apply ui_blind_ret.
  - intros x. apply ui_blind_bind; [apply ui_blind_print|]. intros _. apply ui_blind_ret.
Qed.

End UiBlind.

(** ** Submissions *)

Section Submissions.

Variable env : Env.
Variable pp : PaymentProcessor.

Lemma main_body_from_form (i : Inputs) (a : App) :
  resubmission i ->
  main_body env pp i a
  = (payment_flow env pp ;;
     paid_gate ;;
     validate_inputs i ;;
     payment_gateway env pp ;;
     generation_flow env i) (initialized (titled a)).
Proof.
  intros (Hq & Hs & Hsub).
  unfold main_body, payment_callback, check_secrets, init_payment_state, initialized.
  rewrite Hq, Hs, Hsub. run_script. cbn [session_state titled set_world].
  destruct (payment_state (session_state a)); reflexivity.
Qed.

(** A poll on the world at the gate is the poll on the world the run
    started in, with the two renderings added. *)
Lemma check_payment_status_at_gate (sid : string) (w : World) :
  check_payment_status env sid (at_gate w)
  = (fst (check_payment_status env sid w), at_gate (snd (check_payment_status env sid w))).
Proof.
  unfold at_gate. rewrite !ui_blind_check_payment_status. reflexivity.
Qed.

Lemma create_payment_session_at_gate (uid : string) (w : World) :
  create_payment_session env pp uid (at_gate w)
  = (fst (create_payment_session env pp uid w),
     at_gate (snd (create_payment_session env pp uid w))).
Proof.
  unfold at_gate. rewrite !ui_blind_create_payment_session. reflexivity.
Qed.

(** The gate on a state that is neither paid nor pending. *)
Lemma payment_flow_unpaid (a : App) (ps : PaymentState) :
  payment_state (session_state a) = Some ps ->
  ps_status ps <> "paid" -> ps_status ps <> "pending" ->
  payment_flow env pp a
  = start_payment env pp ps
                  (set_world (add_ui (UiStatus "Processing Payment...") (world a)) a).
Proof.
  intros Hps H1 H2. apply String.eqb_neq in H1, H2.
  unfold payment_flow. run_script. simpl. rewrite Hps, H1, H2. reflexivity.
Qed.

(** A new checkout, by what [create_payment_session] gives. *)
Lemma start_payment_cases (ps : PaymentState) (a : App) :
  start_payment env pp ps a
  = match create_payment_session env pp "user123" (world a) with
    | (Ok (Some url), w') =>
        (Raise StopException,
         set_world
           (add_ui (UiMarkdown ("Please [complete your payment](" ++ url ++ ")"))
                   (add_ui (UiStatus "Payment Required") w'))
           (set_payment_state
              (mkPaymentState "pending" (Some (session_id_of_url url)) (Some (clock w'))
                              (ps_retries ps))
              a))
    | (Ok None, w') =>
        (Ok tt,
         gate_failed
           (UiError "Payment initialization failed: 'NoneType' object has no attribute 'split'")
           (set_world w' a))
    | (Raise e, w') =>
        (Ok tt,
         gate_failed (UiError ("Payment initialization failed: " ++ str env e))
                     (set_world w' a))
    end.
Proof.
  unfold start_payment. run_script.
  destruct (create_payment_session env pp "user123" (world a)) as [[[url|]|e] w'];
    reflexivity.
Qed.

(** A resubmission with nothing paid and nothing pending, by what
    [create_payment_session] gives in the world the run starts in. *)
Lemma main_start_payment (i : Inputs) (a : App) :
  resubmission i ->
  gate_unpaid a ->
  main env pp i a
  = match create_payment_session env pp "user123" (world a) with
    | (Ok (Some url), w') =>
        (Stopped,
         set_world
           (add_ui (UiMarkdown ("Please [complete your payment](" ++ url ++ ")"))
                   (add_ui (UiStatus "Payment Required") (at_gate w')))
           (set_payment_state
              (mkPaymentState "pending" (Some (session_id_of_url url)) (Some (clock w'))
                              (counter_kept a))
              a))
    | (Ok None, w') =>
        (Returned,
         gate_failed
           (UiError "Payment initialization failed: 'NoneType' object has no attribute 'split'")
           (set_world (at_gate w') a))
    | (Raise e, w') =>
        (Returned,
         gate_failed (UiError ("Payment initialization failed: " ++ str env e))
                     (set_world (at_gate w') a))
    end.
Proof.
  intros Hi Hg. unfold main. rewrite (main_body_from_form i a Hi).
  unfold gate_unpaid in Hg. unfold counter_kept.
  cbv beta delta [bind].
  assert (Hflow : exists ps,
             payment_state (session_state (initialized (titled a))) = Some ps
             /\ ps_status ps <> "paid" /\ ps_status ps <> "pending"
             /\ ps_retries ps = match payment_state (session_state a) with
                                | Some ps => ps_retries ps
                                | None => Some 0%nat
                                end).
  { unfold initialized. cbn [session_state titled set_world].
    destruct (payment_state (session_state a)) as [ps|] eqn:Hps.
    - exists ps. cbn [session_state titled set_world]. rewrite Hps. tauto.
    - eexists. cbn [session_state set_payment_state payment_state]. split; [reflexivity|].
      repeat split; discriminate. }
  destruct Hflow as (ps & Hps & H1 & H2 & Hr).
  rewrite (payment_flow_unpaid _ ps Hps H1 H2), start_payment_cases.
  assert (Hw : world (set_world (add_ui (UiStatus "Processing Payment...")
                                        (world (initialized (titled a))))
                                (initialized (titled a)))
               = at_gate (world a)).
  { unfold initialized, at_gate. cbn [session_state titled set_world].
    destruct (payment_state (session_state a)); reflexivity. }
  rewrite Hw, create_payment_session_at_gate.
  destruct (create_payment_session env pp "user123" (world a)) as [[[url|]|e] w'];
    cbn [fst snd]; rewrite <- ?Hr.
  - unfold initialized. cbn [session_state titled set_world].
    destruct (payment_state (session_state a)); reflexivity.
  - unfold paid_gate. run_script. unfold initialized.
    cbn [session_state titled set_world].
    destruct (payment_state (session_state a)); reflexivity.
  - unfold paid_gate. run_script. unfold initialized.
    cbn [session_state titled set_world].
    destruct (payment_state (session_state a)); reflexivity.
Qed.

End Submissions.

(** X9: a resubmission with nothing paid and nothing pending, for
    which [create_payment_session] returns a URL: the script stops
    with the payment link shown, and the gate is pending on the
    session id cut out of the URL, timed from the end of the call,
    sleeps included.  The retry counter is the one the gate state had:
    0 in a fresh session. *)
Theorem new_checkout_session
        (env : Env) (pp : PaymentProcessor) (i : Inputs) (a : App) (url : string) (w' : World) :
  resubmission i ->
  gate_unpaid a ->
  create_payment_session env pp "user123" (world a) = (Ok (Some url), w') ->
  fst (main env pp i a) = Stopped
  /\ payment_state (session_state (snd (main env pp i a)))
     = Some (mkPaymentState "pending" (Some (session_id_of_url url)) (Some (clock w'))
                            (counter_kept a))
  /\ ui (world (snd (main env pp i a)))
     = (ui w' ++ [UiTitle "AI Cover Letter Generator"; UiStatus "Processing Payment...";
                  UiStatus "Payment Required";
                  UiMarkdown ("Please [complete your payment](" ++ url ++ ")")%string])%list
  /\ payments (world (snd (main env pp i a))) = payments w'
  /\ calls (world (snd (main env pp i a))) = calls w'.
Proof.
  intros Hi Hg Hc. rewrite (main_start_payment env pp i a Hi Hg), Hc.
  cbn [fst snd]. split; [reflexivity|]. split; [reflexivity|].
  split; [|split; reflexivity].
  unfold at_gate. cbn [world set_world ui add_ui]. now rewrite <- !app_assoc.
Qed.

Lemma new_checkout_session_witness :
  resubmission Scenario.form
  /\ fst (main (Scenario.env_reporting "unpaid" (Scenario.completed "paid"))
               Scenario.processor Scenario.form
               (mkApp (mkSessionState None None None None) Scenario.empty_world))
     = Stopped
  /\ payment_state
       (session_state
          (snd (main (Scenario.env_reporting "unpaid" (Scenario.completed "paid"))
                     Scenario.processor Scenario.form
                     (mkApp (mkSessionState None None None None) Scenario.empty_world))))
     = Some (pending_state "cs_1" 1000%Q 0).
Proof.
  assert (Hi : resubmission Scenario.form) by (repeat split).
  destruct (new_checkout_session
              (Scenario.env_reporting "unpaid" (Scenario.completed "paid"))
              Scenario.processor Scenario.form
              (mkApp (mkSessionState None None None None) Scenario.empty_world)
              "https://checkout.stripe.com/pay/cs_1#fid"
              (snd (create_payment_session
                      (Scenario.env_reporting "unpaid" (Scenario.completed "paid"))
                      Scenario.processor "user123" Scenario.empty_world))
              Hi I eq_refl) as (Ho & Hs & _).
  split; [exact Hi|]. split; [exact Ho|]. rewrite Hs. reflexivity.
Defined.

(** What the decorator raises is tenacity's [RetryError]. *)
Lemma attempts_raise_retry_error {A} (wait : nat -> Z) (f : M exn World A) :
  forall more n w e w',
    Tenacity.attempts wait more n f w = (Raise e, w') -> exists last, e = RetryError last.
Proof.
  induction more as [|more IH]; intros n w e w' H; cbn [Tenacity.attempts] in H.
  - destruct (f w) as [[x|e0] w0]; inversion H; subst. now exists e0.
  - destruct (f w) as [[x|e0] w0]; [discriminate|]. exact (IH _ _ _ _ H).
Qed.

(** X10: the same resubmission when no URL comes back: whether
    [create_payment_session] returns [None], as it does on a Stripe
    error, or raises, the run returns with the failure shown and the
    gate state reduced to [{'status': 'unpaid'}].  For [None] the
    message is that of the attribute error on [split]; what
    [create_payment_session] raises is tenacity's [RetryError], shown
    as [RetryError[...]] around the [repr()] of the Future that holds
    the last attempt. *)
Theorem checkout_session_not_created
        (env : Env) (pp : PaymentProcessor) (i : Inputs) (a : App) :
  resubmission i ->
  gate_unpaid a ->
  (forall url, fst (create_payment_session env pp "user123" (world a)) <> Ok (Some url)) ->
  fst (main env pp i a) = Returned
  /\ payment_state (session_state (snd (main env pp i a))) = Some unpaid_state
  /\ exists message,
      ui (world (snd (main env pp i a)))
      = (ui (snd (create_payment_session env pp "user123" (world a)))
           ++ [UiTitle "AI Cover Letter Generator"; UiStatus "Processing Payment...";
               UiError ("Payment initialization failed: " ++ message)%string])%list
      /\ match fst (create_payment_session env pp "user123" (world a)) with
         | Raise e =>
             exists last,
               e = RetryError last
               /\ message = ("RetryError[" ++ future_repr env last ++ "]")%string
         | Ok _ => message = "'NoneType' object has no attribute 'split'"
         end.
Proof.
  intros Hi Hg Hc. rewrite (main_start_payment env pp i a Hi Hg).
  destruct (create_payment_session env pp "user123" (world a)) as [[[url|]|e] w'] eqn:Hrun;
    cbn [fst snd] in *.
  - exfalso. exact (Hc url eq_refl).
  - split; [reflexivity|]. split; [reflexivity|].
    eexists. split; [|reflexivity].
    unfold at_gate. cbn [world set_world ui add_ui gate_failed set_payment_state].
    now rewrite <- !app_assoc.
  - split; [reflexivity|]. split; [reflexivity|].
    unfold create_payment_session, Tenacity.retry in Hrun.
    destruct (attempts_raise_retry_error _ _ _ _ _ _ _ Hrun) as (last & ->).
    eexists. split; [|exists last; split; reflexivity].
    unfold at_gate. cbn [world set_world ui add_ui gate_failed set_payment_state].
    now rewrite <- !app_assoc.
Qed.

Lemma checkout_session_not_created_witness :
  resubmission Scenario.form
  /\ fst (main (Scenario.env_stripe_failing (StripeError "Connection reset"))
               Scenario.processor Scenario.form
               (mkApp (mkSessionState None None None None) Scenario.empty_world))
     = Returned
  /\ ui (world (snd (main (Scenario.env_stripe_failing (StripeError "Connection reset"))
                          Scenario.processor Scenario.form
                          (mkApp (mkSessionState None None None None) Scenario.empty_world))))
     = [UiTitle "AI Cover Letter Generator"; UiStatus "Processing Payment...";
        UiError "Payment initialization failed: 'NoneType' object has no attribute 'split'"].
Proof.
  assert (Hi : resubmission Scenario.form) by (repeat split).
  destruct (checkout_session_not_created
              (Scenario.env_stripe_failing (StripeError "Connection reset"))
              Scenario.processor Scenario.form
              (mkApp (mkSessionState None None None None) Scenario.empty_world)
              Hi I) as (Ho & _ & message & Hu & Hm).
  - intros url. discriminate.
  - split; [exact Hi|]. split; [exact Ho|]. rewrite Hu.
    cbn [fst] in Hm. rewrite Hm. reflexivity.
Defined.

(** ** Polls *)

Section Polls.

Variable env : Env.
Variable pp : PaymentProcessor.

(** A poll that is answered [paid]. *)
Lemma poll_pending_paid (ps : PaymentState) (a : App) (sid : string) (w' : World) :
  ps_session_id ps = Some sid ->
  check_payment_status env sid (world a) = (Ok "paid", w') ->
  poll_pending env ps a
  = (Raise RerunException,
     set_payment_state
       (mkPaymentState "paid" (Some sid) (ps_start_time ps) (ps_retries ps))
       (set_world w' a)).
Proof.
  intros Hsid Hc. unfold poll_pending. run_script. rewrite Hsid, Hc. reflexivity.
Qed.

(** A poll that is not answered [paid], on a gate state without a
    retry counter. *)
Lemma poll_pending_no_counter (ps : PaymentState) (a : App) (sid r : string) (w' : World) :
  ps_session_id ps = Some sid ->
  ps_retries ps = None ->
  check_payment_status env sid (world a) = (Ok r, w') ->
  r <> "paid" ->
  poll_pending env ps a
  = (Ok tt, gate_failed (UiError "Payment check failed: 'retries'") (set_world w' a)).
Proof.
  intros Hsid Hn Hc Hr. apply String.eqb_neq in Hr.
  unfold poll_pending. run_script. rewrite Hsid, Hc, Hr, Hn. reflexivity.
Qed.

(** A resubmission on a pending payment, within the time budget. *)
Lemma main_poll (i : Inputs) (a : App) (ps : PaymentState) (t0 : Q) :
  resubmission i ->
  payment_state (session_state a) = Some ps ->
  ps_status ps = "pending" ->
  ps_start_time ps = Some t0 ->
  (clock (world a) - t0 <= 300)%Q ->
  main env pp i a
  = match poll_pending env ps (set_world (at_gate (world a)) a) with
    | (Raise RerunException, a') => (Rerun, a')
    | (_, a') => (Returned, a')
    end.
Proof.
  intros Hi Hps Hst Ht Hle.
  rewrite (main_pending env pp i a ps t0 Hi Hps Hst Ht).
  destruct (Qlt_le_dec 300 (clock (world a) - t0)) as [Hlt|_];
    [exfalso; exact (Qlt_not_le _ _ Hlt Hle)|].
  reflexivity.
Qed.

End Polls.

(** X11: a resubmission on a pending payment, within the time budget,
    whose poll is answered [paid]: the gate state becomes [paid],
    keeping its session, start time and counter, and the script asks
    for a rerun.  Nothing else of the session state changes: in
    particular [payment_success] is not set by this path. *)
Theorem poll_answered_paid
        (env : Env) (pp : PaymentProcessor) (i : Inputs) (a : App)
        (sid : string) (t0 : Q) (retries : option nat) :
  resubmission i ->
  payment_state (session_state a)
  = Some (mkPaymentState "pending" (Some sid) (Some t0) retries) ->
  (clock (world a) - t0 <= 300)%Q ->
  fst (check_payment_status env sid (world a)) = Ok "paid" ->
  fst (main env pp i a) = Rerun
  /\ payment_state (session_state (snd (main env pp i a)))
     = Some (mkPaymentState "paid" (Some sid) (Some t0) retries)
  /\ payment_success (session_state (snd (main env pp i a)))
     = payment_success (session_state a)
  /\ payment_session_id (session_state (snd (main env pp i a)))
     = payment_session_id (session_state a)
  /\ payment_url (session_state (snd (main env pp i a)))
     = payment_url (session_state a).
Proof.
  intros Hi Hps Hle Hc.
  rewrite (main_poll env pp i a _ t0 Hi Hps eq_refl eq_refl Hle).
  erewrite poll_pending_paid; [| reflexivity |].
  2: { cbn [world set_world]. rewrite check_payment_status_at_gate, Hc. reflexivity. }
  repeat split.
Qed.

Lemma poll_answered_paid_witness :
  resubmission Scenario.form
  /\ fst (main Scenario.paid_env Scenario.processor Scenario.form
               (Scenario.gate_at 1010%Q 2))
     = Rerun
  /\ payment_state
       (session_state (snd (main Scenario.paid_env Scenario.processor Scenario.form
                                 (Scenario.gate_at 1010%Q 2))))
     = Some (mkPaymentState "paid" (Some "cs_1") (Some 1000%Q) (Some 2%nat)).
Proof.
  assert (Hi : resubmission Scenario.form) by (repeat split).
  destruct (poll_answered_paid Scenario.paid_env Scenario.processor Scenario.form
                               (Scenario.gate_at 1010%Q 2) "cs_1" 1000%Q (Some 2%nat)
                               Hi eq_refl) as (Ho & Hs & _).
  - simpl. lra.
  - reflexivity.
  - split; [exact Hi|]. split; assumption.
Defined.

(** X12: after an attempt was given up, the gate state is
    [{'status': 'unpaid'}], without a retry counter.  The next
    submission opens a checkout session and leaves the gate pending,
    still without a counter; the first poll of it that is not
    answered [paid] then fails on the missing key: the run shows
    [Payment check failed: 'retries'] and gives the attempt up. *)
Theorem second_attempt_has_no_retry
        (env : Env) (pp : PaymentProcessor) (s : SessionState)
        (i1 i2 : Inputs) (w1 w1' w2 : World) (url r : string) :
  payment_state s = Some unpaid_state ->
  resubmission i1 ->
  resubmission i2 ->
  create_payment_session env pp "user123" w1 = (Ok (Some url), w1') ->
  (clock w2 - clock w1' <= 300)%Q ->
  fst (check_payment_status env (session_id_of_url url) w2) = Ok r ->
  r <> "paid" ->
  map fst (reinvoke env pp s [(i1, w1); (i2, w2)]) = [Stopped; Returned]
  /\ map (fun x => payment_state (session_state (snd x)))
         (reinvoke env pp s [(i1, w1); (i2, w2)])
     = [Some (mkPaymentState "pending" (Some (session_id_of_url url)) (Some (clock w1')) None);
        Some unpaid_state]
  /\ exists second,
      nth_error (reinvoke env pp s [(i1, w1); (i2, w2)]) 1 = Some second
      /\ In (UiError "Payment check failed: 'retries'") (ui (world (snd second))).
Proof.
  intros Hs Hi1 Hi2 Hc Hle Hr Hne.
  cbn [reinvoke map nth_error].
  assert (Hg : gate_unpaid (mkApp s w1)).
  { unfold gate_unpaid. cbn [session_state]. rewrite Hs. split; discriminate. }
  rewrite (main_start_payment env pp i1 (mkApp s w1) Hi1 Hg).
  cbn [world]. rewrite Hc. cbn [fst snd session_state set_world set_payment_state].
  unfold counter_kept. cbn [session_state]. rewrite Hs. cbn [ps_retries unpaid_state].
  match goal with
  | |- context [main env pp i2 ?x] => set (a2 := x)
  end.
  assert (Hrun : main env pp i2 a2
                 = (Returned,
                    gate_failed (UiError "Payment check failed: 'retries'")
                                (set_world
                                   (at_gate (snd (check_payment_status
                                                    env (session_id_of_url url) w2)))
                                   a2))).
  { rewrite (main_poll env pp i2 a2 _ (clock w1') Hi2 eq_refl eq_refl eq_refl Hle).
    erewrite poll_pending_no_counter; [reflexivity|reflexivity|reflexivity| |exact Hne].
    cbn [world set_world]. rewrite check_payment_status_at_gate.
    unfold a2. cbn [world]. rewrite Hr. reflexivity. }
  rewrite Hrun. cbn [fst snd].
  split; [reflexivity|]. split; [reflexivity|].
  eexists. split; [reflexivity|].
  cbn [snd world gate_failed set_payment_state set_world ui add_ui].
  apply in_or_app. right. left. reflexivity.
Qed.

Lemma second_attempt_has_no_retry_witness :
  map fst (reinvoke (Scenario.env_reporting "unpaid" (Scenario.completed "paid"))
                    Scenario.processor given_up
                    [(Scenario.form, Scenario.empty_world);
                     (Scenario.form, Scenario.world_at 1010%Q)])
  = [Stopped; Returned].
Proof.
  assert (Hi : resubmission Scenario.form) by (repeat split).
  apply (second_attempt_has_no_retry
           (Scenario.env_reporting "unpaid" (Scenario.completed "paid"))
           Scenario.processor given_up Scenario.form Scenario.form
           Scenario.empty_world
           (snd (create_payment_session
                   (Scenario.env_reporting "unpaid" (Scenario.completed "paid"))
                   Scenario.processor "user123" Scenario.empty_world))
           (Scenario.world_at 1010%Q)
           "https://checkout.stripe.com/pay/cs_1#fid" "unpaid"
           eq_refl Hi Hi eq_refl).
  - simpl. lra.
  - reflexivity.
  - discriminate.
Defined.

(** ** What sets [payment_success] *)

Section PaymentSuccess.














Variable env : Env.



End PaymentSuccess.


Section PaymentSuccessRun.

Variable env : Env.
Variable pp : PaymentProcessor.


End PaymentSuccessRun.


(** ** Past the gate: validation *)

Section Validation.

Variable env : Env.
Variable pp : PaymentProcessor.

Lemma ui_rendered (l : list UiEvent) (w : World) :
  ui (rendered l w) = (ui w ++ l)%list.
Proof.
  revert w. induction l as [|e l IH]; intros w; simpl.
  - now rewrite app_nil_r.
  - unfold rendered in IH. rewrite IH. simpl. now rewrite <- app_assoc.
Qed.

Lemma calls_rendered (l : list UiEvent) (w : World) : calls (rendered l w) = calls w.
Proof. apply calls_fold_add_ui. Qed.

Lemma render_all_rendered (l : list UiEvent) (a : App) :
  render_all l a = (Ok tt, set_world (rendered l (world a)) a).
Proof.
  revert a. induction l as [|e l IH]; intros a; simpl.
  - destruct a; reflexivity.
  - run_script. rewrite IH. reflexivity.
Qed.

(** A resubmission with the gate paid goes on to the validation. *)
Lemma main_body_paid_gate (i : Inputs) (a : App) :
  resubmission i ->
  gate_paid a ->
  main_body env pp i a
  = (validate_inputs i ;; payment_gateway env pp ;; generation_flow env i)
      (set_world (verified (world a)) a).
Proof.
  intros Hi (ps & Hps & Hst). rewrite (main_body_resubmission env pp i a ps Hi Hps).
  apply String.eqb_eq in Hst.
  unfold payment_flow, paid_gate. run_script.
  repeat (match goal with
          | |- context [payment_state (session_state ?x)] =>
              progress change (payment_state (session_state x))
                with (payment_state (session_state a))
          end;
          rewrite ?Hps; cbv beta iota; rewrite ?Hst).
  reflexivity.
Qed.

End Validation.

(** X14: a resubmission with the gate paid in a session where
    [payment_success] was never set, as after a payment confirmed by
    polling alone: the run goes through the gate and is ended by the
    attribute error on [st.session_state.payment_success], before any
    input is judged and without a call to any service. *)
Theorem paid_by_polling_crashes
        (env : Env) (pp : PaymentProcessor) (i : Inputs) (a : App) :
  resubmission i ->
  gate_paid a ->
  payment_success (session_state a) = None ->
  main env pp i a
  = (Crashed (AttributeError "st.session_state has no attribute payment_success"),
     set_world (verified (world a)) a).
Proof.
  intros Hi Hg Hs. unfold main. rewrite (main_body_paid_gate env pp i a Hi Hg).
  unfold validate_inputs. run_script. cbn [session_state set_world]. rewrite Hs.
  reflexivity.
Qed.

Lemma paid_by_polling_crashes_witness :
  resubmission Scenario.form
  /\ fst (main Scenario.paid_env Scenario.processor Scenario.form
               (mkApp (mkSessionState
                         (Some (mkPaymentState "paid" (Some "cs_1") (Some 1000%Q) (Some 0%nat)))
                         None None None)
                      (Scenario.world_with "paid")))
     = Crashed (AttributeError "st.session_state has no attribute payment_success").
Proof.
  assert (Hi : resubmission Scenario.form) by (repeat split).
  split; [exact Hi|].
  rewrite (paid_by_polling_crashes
             Scenario.paid_env Scenario.processor Scenario.form
             (mkApp (mkSessionState
                       (Some (mkPaymentState "paid" (Some "cs_1") (Some 1000%Q) (Some 0%nat)))
                       None None None)
                    (Scenario.world_with "paid"))
             Hi).
  - reflexivity.
  - eexists. split; reflexivity.
  - reflexivity.
Defined.

(** X15: a paid resubmission whose inputs fail the validation: every
    error found is shown, in the order the checks are written, and
    the script stops, with no call to any service and the session
    state as it was. *)
Theorem invalid_inputs_stop_the_run
        (env : Env) (pp : PaymentProcessor) (i : Inputs) (a : App) (paid : bool) :
  resubmission i ->
  gate_paid a ->
  payment_success (session_state a) = Some paid ->
  validation_errors i paid <> [] ->
  fst (main env pp i a) = Stopped
  /\ session_state (snd (main env pp i a)) = session_state a
  /\ calls (world (snd (main env pp i a))) = calls (world a)
  /\ ui (world (snd (main env pp i a)))
     = (ui (world a)
          ++ [UiTitle "AI Cover Letter Generator"; UiStatus "Processing Payment...";
              UiStatus "Payment Verified"]
          ++ shown_errors (validation_errors i paid))%list.
Proof.
  intros Hi Hg Hs Hne. unfold main. rewrite (main_body_paid_gate env pp i a Hi Hg).
  unfold validate_inputs. run_script. cbn [session_state set_world]. rewrite Hs.
  destruct (validation_errors i paid) as [|e l]; [congruence|].
  rewrite render_all_rendered. cbn [fst snd session_state world set_world].
  split; [reflexivity|]. split; [reflexivity|]. split.
  - rewrite calls_rendered. reflexivity.
  - rewrite ui_rendered. unfold verified, at_gate, shown_errors.
    cbn [ui add_ui]. now rewrite <- !app_assoc.
Qed.

Lemma invalid_inputs_stop_the_run_witness :
  fst (main Scenario.paid_env Scenario.processor
            (mkInputs None None required_secrets None "   " "ACME" true)
            Scenario.paid_app)
  = Stopped
  /\ ui (world (snd (main Scenario.paid_env Scenario.processor
                          (mkInputs None None required_secrets None "   " "ACME" true)
                          Scenario.paid_app)))
     = [UiTitle "AI Cover Letter Generator"; UiStatus "Processing Payment...";
        UiStatus "Payment Verified";
        UiError "❌ Please upload a resume file";
        UiError "❌ Job description cannot be empty"].
Proof.
  destruct (invalid_inputs_stop_the_run
              Scenario.paid_env Scenario.processor
              (mkInputs None None required_secrets None "   " "ACME" true)
              Scenario.paid_app true) as (Ho & _ & _ & Hu).
  - repeat split.
  - eexists. split; reflexivity.
  - reflexivity.
  - discriminate.
  - split; [exact Ho|]. rewrite Hu. reflexivity.
Defined.

(** X16: a job description made of white space only, however long,
    is reported as empty and not as too short. *)
Theorem blank_job_description_is_empty (i : Inputs) (paid : bool) :
  all_space (job_desc i) ->
  In "Job description cannot be empty" (validation_errors i paid)
  /\ ~ In "Job description too short (min 50 characters)" (validation_errors i paid).
Proof.
  intros H. unfold validation_errors. rewrite (strip_all_space _ H). cbn [falsy].
  split.
  - apply in_or_app. right. apply in_or_app. left. left. reflexivity.
  - intros Hin. apply in_app_or in Hin. destruct Hin as [Hin|Hin].
    + destruct (resume i) as [f|]; [destruct (Str.mem (file_type f) allowed_types)|];
        simpl in Hin; try contradiction; destruct Hin as [Hin|[]]; discriminate.
    + apply in_app_or in Hin. destruct Hin as [[Hin|[]]|Hin]; [discriminate|].
      apply in_app_or in Hin. destruct Hin as [Hin|Hin].
      * destruct (falsy (Str.strip (company_name i))); simpl in Hin;
          try contradiction; destruct Hin as [Hin|[]]; discriminate.
      * destruct paid; simpl in Hin; try contradiction;
          destruct Hin as [Hin|[]]; discriminate.
Qed.

Lemma blank_job_description_is_empty_witness :
  In "Job description cannot be empty"
     (validation_errors
        (mkInputs None None required_secrets None
                  (String.concat "" (Str.utf8 [9] :: Str.utf8 [194; 160] :: Str.utf8 [28]
                                       :: repeat " " 60))
                  "ACME" true)
        true).
Proof.
  apply (blank_job_description_is_empty
           (mkInputs None None required_secrets None
                     (String.concat "" (Str.utf8 [9] :: Str.utf8 [194; 160] :: Str.utf8 [28]
                                          :: repeat " " 60))
                     "ACME" true)
           true).
  eexists. split; [|reflexivity].
  repeat (constructor; [cbv; intuition reflexivity|]). constructor.
Defined.

(** ** Generation and delivery *)

Section Delivery.

Variable env : Env.

(** Dropping the empty chunks does not change the text. *)
Lemma concat_without_empty (l : list string) :
  String.concat "" (filter (fun c => negb (falsy c)) l) = String.concat "" l.
Proof.
  induction l as [|x l IH]; [reflexivity|].
  cbn [filter]. destruct x as [|c x]; cbn [falsy negb].
  - now rewrite concat_cons, IH.
  - now rewrite !concat_cons, IH.
Qed.

(** The loop keeps the chunks that are not empty and shows the text
    after each of them. *)
Lemma show_chunks_rendered (chunks full_content : list string) (a : App) :
  show_chunks full_content chunks a
  = (Ok (full_content ++ filter (fun c => negb (falsy c)) chunks)%list,
     set_world (rendered (chunk_markdowns full_content chunks) (world a)) a).
Proof.
  revert full_content a. induction chunks as [|c chunks IH]; intros full a.
  - simpl. rewrite app_nil_r. destruct a; reflexivity.
  - cbn [show_chunks chunk_markdowns filter]. destruct (falsy c); cbn [negb].
    + apply IH.
    + run_script. rewrite IH. cbn [world set_world]. rewrite <- app_assoc. reflexivity.
Qed.

Lemma chunk_markdowns_no_download (chunks full_content : list string) (d : string) :
  ~ In (UiDownload d) (chunk_markdowns full_content chunks).
Proof.
  revert full_content. induction chunks as [|c chunks IH]; intros full; simpl; [tauto|].
  destruct (falsy c); [apply IH|].
  intros [H|H]; [discriminate|exact (IH _ H)].
Qed.

End Delivery.

Section DeliverySteps.

Variable env : Env.

(** How the stream ends. *)
Lemma stream_end_outcome (err : option exn) (a : App) :
  stream_end err a
  = match err with
    | None => (Ok tt, a)
    | Some e =>
        if is_openai_error e
        then (Ok tt, set_world (rendered [UiError (openai_error_shown e)] (world a)) a)
        else (Raise (Exception e), a)
    end.
Proof.
  destruct err as [e|]; [|reflexivity]. destruct e; reflexivity.
Qed.

(** What follows the stream. *)
Lemma deliver_outcome (cover_letter : string) (a : App) :
  deliver env cover_letter a
  = if falsy cover_letter
    then (Raise ReturnNone,
          set_world (rendered [UiError "Failed to generate cover letter"] (world a)) a)
    else
      match docx_document env cover_letter with
      | Ok document =>
          (Ok tt,
           set_world
             (rendered [UiProgress 75;
                        UiWrite ":floppy_disk: Creating downloadable document...";
                        UiProgress 100; UiStatus "Generation Complete!";
                        UiSuccess "Cover letter created successfully";
                        UiPreview (Str.slice_to 500 cover_letter ++ "...");
                        UiDownload document]
                       (world a))
             a)
      | Raise e =>
          (Raise (Exception e),
           set_world
             (rendered [UiProgress 75;
                        UiWrite ":floppy_disk: Creating downloadable document..."]
                       (world a))
             a)
      end.
Proof.
  unfold deliver, create_docx. destruct (falsy cover_letter); [reflexivity|].
  run_script. cbn [world set_world].
  destruct (docx_document env cover_letter); reflexivity.
Qed.

Lemma generate_and_deliver_steps (i : Inputs) (resume_text : string) :
  generate_and_deliver env i resume_text
  = (render (UiWrite ":brain: Generating cover letter with GPT-4...") ;;
     stream <- call (chat_completions_create env resume_text (job_desc i) (company_name i)) ;;
     full_content <- show_chunks [] (fst stream) ;;
     stream_end (snd stream) ;;
     deliver env (Str.join "" full_content)).
Proof. reflexivity. Qed.

(** The two steps up to the end of the stream, and on. *)
Lemma generation_up_to_stream_end
      (i : Inputs) (resume_text : string) (a : App)
      (k : list string * option exn -> list string -> Script unit) :
  let msg := user_message resume_text (job_desc i) (company_name i) in
  let stream := chat_completion env (calls (world a)) msg in
  (render (UiWrite ":brain: Generating cover letter with GPT-4...") ;;
   s <- call (chat_completions_create env resume_text (job_desc i) (company_name i)) ;;
   full_content <- show_chunks [] (fst s) ;;
   k s full_content) a
  = k stream (filter (fun c => negb (falsy c)) (fst stream))
      (set_world
         (rendered (chunk_markdowns [] (fst stream))
                   (add_call (CallChatCompletion msg stream)
                             (rendered [UiWrite ":brain: Generating cover letter with GPT-4..."]
                                       (world a))))
         a).
Proof.
  cbv zeta. unfold chat_completions_create. run_script.
  rewrite show_chunks_rendered. reflexivity.
Qed.

End DeliverySteps.

Ltac ui_norm :=
  repeat (first [ rewrite ui_rendered
                | progress cbn [ui add_call fst snd world set_world] ]).

Ltac no_download :=
  let d := fresh "d" in
  let H := fresh "H" in
  intros d H;
  repeat (first
            [ apply in_app_or in H; destruct H as [H|H]
            | destruct H as [H|H]; [discriminate|]
            | exact H
            | eapply chunk_markdowns_no_download; exact H ]).

(** X17: the cover letter is the text of the stream: the chunks the
    generation API sent, joined.  When the stream ends by itself or
    by an error of the API that [generate_cover_letter] catches, a
    letter that is not empty is made into a document and delivered,
    cut short or not, the error shown before it: the preview shows
    its first 500 characters, the download holds the document.  When
    the document cannot be made, the exception leaves the two steps
    with nothing delivered.  An empty letter is reported as a failure
    and the run returns.  Any other exception ending the stream
    leaves the two steps as well, with nothing delivered. *)
Theorem cover_letter_is_the_stream
        (env : Env) (i : Inputs) (resume_text : string) (a : App) :
  let stream := chat_completion env (calls (world a))
                                (user_message resume_text (job_desc i) (company_name i)) in
  let letter := String.concat "" (fst stream) in
  let r := generate_and_deliver env i resume_text a in
  let outcome :=
    if falsy letter
    then fst r = Raise ReturnNone
         /\ In (UiError "Failed to generate cover letter") (ui (world (snd r)))
         /\ nothing_delivered a r
    else
      match docx_document env letter with
      | Ok document => delivered a r letter document
      | Raise e => fst r = Raise (Exception e) /\ nothing_delivered a r
      end in
  match snd stream with
  | None => outcome
  | Some e =>
      if is_openai_error e
      then In (UiError (openai_error_shown e)) (ui (world (snd r))) /\ outcome
      else fst r = Raise (Exception e) /\ nothing_delivered a r
  end.
Proof.
  cbv zeta. rewrite generate_and_deliver_steps.
  rewrite (generation_up_to_stream_end
             env i resume_text a
             (fun s full_content =>
                stream_end (snd s) ;; deliver env (Str.join "" full_content))).
  cbv zeta.
  set (stream := chat_completion env (calls (world a)) _).
  set (marks := chunk_markdowns [] (fst stream)).
  unfold bind. rewrite stream_end_outcome.
  unfold Str.join, delivered, nothing_delivered. rewrite concat_without_empty.
  set (letter := String.concat "" (fst stream)).
  destruct (snd stream) as [e|].
  - destruct (is_openai_error e).
    + rewrite deliver_outcome.
      destruct (falsy letter); [|destruct (docx_document env letter) as [document|e']];
        ui_norm.
      * split; [apply in_or_app; left; apply in_or_app; right; left; reflexivity|].
        split; [reflexivity|].
        split; [apply in_or_app; right; left; reflexivity|].
        exists ([UiWrite ":brain: Generating cover letter with GPT-4..."] ++ marks
                  ++ [UiError (openai_error_shown e)]
                  ++ [UiError "Failed to generate cover letter"])%list.
        split; [now rewrite <- !app_assoc|no_download].
      * split; [apply in_or_app; left; apply in_or_app; right; left; reflexivity|].
        split; [reflexivity|].
        exists ([UiWrite ":brain: Generating cover letter with GPT-4..."] ++ marks
                  ++ [UiError (openai_error_shown e)]
                  ++ [UiProgress 75;
                      UiWrite ":floppy_disk: Creating downloadable document...";
                      UiProgress 100; UiStatus "Generation Complete!";
                      UiSuccess "Cover letter created successfully"])%list.
        split; [now rewrite <- !app_assoc|no_download].
      * split; [apply in_or_app; left; apply in_or_app; right; left; reflexivity|].
        split; [reflexivity|].
        exists ([UiWrite ":brain: Generating cover letter with GPT-4..."] ++ marks
                  ++ [UiError (openai_error_shown e)]
                  ++ [UiProgress 75;
                      UiWrite ":floppy_disk: Creating downloadable document..."])%list.
        split; [now rewrite <- !app_assoc|no_download].
    + ui_norm. split; [reflexivity|].
      exists ([UiWrite ":brain: Generating cover letter with GPT-4..."] ++ marks)%list.
      split; [now rewrite <- !app_assoc|no_download].
  - rewrite deliver_outcome.
    destruct (falsy letter); [|destruct (docx_document env letter) as [document|e']];
      ui_norm.
    + split; [reflexivity|].
      split; [apply in_or_app; right; left; reflexivity|].
      exists ([UiWrite ":brain: Generating cover letter with GPT-4..."] ++ marks
                ++ [UiError "Failed to generate cover letter"])%list.
      split; [now rewrite <- !app_assoc|no_download].
    + split; [reflexivity|].
      exists ([UiWrite ":brain: Generating cover letter with GPT-4..."] ++ marks
                ++ [UiProgress 75;
                    UiWrite ":floppy_disk: Creating downloadable document...";
                    UiProgress 100; UiStatus "Generation Complete!";
                    UiSuccess "Cover letter created successfully"])%list.
      split; [now rewrite <- !app_assoc|no_download].
    + split; [reflexivity|].
      exists ([UiWrite ":brain: Generating cover letter with GPT-4..."] ++ marks
                ++ [UiProgress 75;
                    UiWrite ":floppy_disk: Creating downloadable document..."])%list.
      split; [now rewrite <- !app_assoc|no_download].
Qed.

Section ResumeParserProperties.

Import ResumeParser.

Lemma read_pages_with_text (texts : list string) (rest : list (result parser_exn (option string)))
      (full_text : list string) (shown : list UiEvent) :
  Forall (fun t => falsy t = false) texts ->
  read_pages (pages_with_text texts ++ rest)%list full_text shown
  = read_pages rest (full_text ++ texts)%list shown.
Proof.
  intros H. revert full_text. induction H as [|t texts Ht _ IH]; intros full_text.
  - simpl. now rewrite app_nil_r.
  - cbn [pages_with_text map app read_pages]. unfold bind, library.
    rewrite Ht. fold (pages_with_text texts). rewrite IH.
    now rewrite <- app_assoc.
Qed.

Lemma read_pages_shows_nothing (pages : list (result parser_exn (option string)))
      (full_text : list string) (shown : list UiEvent) :
  snd (read_pages pages full_text shown) = shown.
Proof.
  revert full_text. induction pages as [|page pages IH]; intros full_text; [reflexivity|].
  cbn [read_pages]. unfold bind, library.
  destruct page as [[t|]|e]; [|reflexivity|reflexivity].
  destruct (falsy t); [reflexivity|apply IH].
Qed.

Lemma extract_pdf_outcome (f : File) (shown : list UiEvent) :
  exists r, extract_pdf f shown = r
            /\ match fst r with
               | Ok (Some _) => snd r = shown
               | Ok None => exists msg, snd r = (shown ++ [UiError msg])%list
               | Raise e => snd r = shown
               end.
Proof.
  eexists. split; [reflexivity|].
  unfold extract_pdf, try_except, bind, library.
  destruct (pdf_pages f) as [pages|e].
  - pose proof (read_pages_shows_nothing pages [] shown) as Hs.
    destruct (read_pages pages [] shown) as [[full_text|e] shown'];
      cbn [snd] in Hs; subst shown'.
    + reflexivity.
    + destruct (is_PDFSyntaxError e); cbn; [eexists; reflexivity|reflexivity].
  - destruct (is_PDFSyntaxError e); cbn; [eexists; reflexivity|reflexivity].
Qed.

Lemma extract_docx_outcome (f : File) (shown : list UiEvent) :
  exists r, extract_docx f shown = r
            /\ match fst r with
               | Ok (Some _) => snd r = shown
               | Ok None => exists msg, snd r = (shown ++ [UiError msg])%list
               | Raise e => snd r = shown
               end.
Proof.
  eexists. split; [reflexivity|].
  unfold extract_docx, try_except, bind, library.
  destruct (docx_paragraphs f) as [paragraphs|e]; [reflexivity|].
  destruct (is_KeyError e); cbn; [eexists; reflexivity|reflexivity].
Qed.

(** A white-space character is the newline or holds no newline. *)
Lemma white_space_newline (c : string) :
  In c Str.white_space ->
  c = nl \/ forallb (fun b => negb (is_newline b)) (list_ascii_of_string c) = true.
Proof.
  intros H. unfold Str.white_space in H. cbn [map] in H.
  repeat (destruct H as [<-|H]; [first [left; reflexivity|right; reflexivity]|]).
  destruct H.
Qed.

Lemma replace_after_other (b : ascii) (s : string) :
  is_newline b = false ->
  replace_double_newline (String b s) = String b (replace_double_newline s).
Proof. intros H. destruct s; cbn [replace_double_newline]; now rewrite ?H. Qed.

Lemma replace_before_other (b : ascii) (s : string) :
  is_newline b = false ->
  replace_double_newline (nl ++ String b s) = nl ++ replace_double_newline (String b s).
Proof.
  intros H. unfold nl. cbn [append].
  change (replace_double_newline (String (ascii_of_nat 10) (String b s)))
    with (if is_newline (ascii_of_nat 10) && is_newline b
          then String (ascii_of_nat 10) (replace_double_newline s)
          else String (ascii_of_nat 10) (replace_double_newline (String b s))).
  now rewrite H, andb_false_r.
Qed.

Lemma replace_without_newline (p s : string) :
  forallb (fun b => negb (is_newline b)) (list_ascii_of_string p) = true ->
  replace_double_newline (p ++ s) = p ++ replace_double_newline s.
Proof.
  induction p as [|b p IH]; intros H; [reflexivity|].
  cbn [list_ascii_of_string forallb] in H. apply andb_true_iff in H.
  destruct H as [Hb Hp]. apply negb_true_iff in Hb.
  cbn [append]. rewrite (replace_after_other _ _ Hb). now rewrite (IH Hp).
Qed.

(** Taking double newlines out of white space leaves white space. *)
Lemma replace_double_newline_white_space (n : nat) (chars : list string) :
  (length chars <= n)%nat ->
  Forall (fun c => In c Str.white_space) chars ->
  all_space (replace_double_newline (String.concat "" chars)).
Proof.
  revert chars. induction n as [|n IH]; intros chars Hn Hchars.
  - destruct chars; [apply all_space_empty|simpl in Hn; lia].
  - destruct chars as [|c rest]; [apply all_space_empty|].
    inversion Hchars as [|? ? Hc Hrest]; subst. simpl in Hn.
    rewrite concat_cons.
    destruct (white_space_newline c Hc) as [->|Hfree].
    + destruct rest as [|c2 rest2].
      * apply (all_space_char nl Hc).
      * inversion Hrest as [|? ? Hc2 Hrest2]; subst. simpl in Hn.
        rewrite concat_cons.
        destruct (white_space_newline c2 Hc2) as [->|Hfree2].
        -- change (replace_double_newline (nl ++ nl ++ String.concat "" rest2))
             with (nl ++ replace_double_newline (String.concat "" rest2)).
           apply all_space_append; [apply (all_space_char nl Hc)|].
           apply IH; [lia|exact Hrest2].
        -- pose proof (white_space_not_empty c2 Hc2) as Hlen.
           destruct c2 as [|b c2]; [simpl in Hlen; lia|].
           cbn [list_ascii_of_string forallb] in Hfree2.
           pose proof Hfree2 as Hall.
           apply andb_true_iff in Hfree2. destruct Hfree2 as [Hb _].
           apply negb_true_iff in Hb.
           change (String b c2 ++ String.concat "" rest2)
             with (String b (c2 ++ String.concat "" rest2)).
           rewrite (replace_before_other _ _ Hb).
           apply all_space_append; [apply (all_space_char nl Hc)|].
           change (String b (c2 ++ String.concat "" rest2))
             with (String b c2 ++ String.concat "" rest2).
           rewrite <- concat_cons. apply IH; [simpl; lia|exact Hrest].
    + rewrite (replace_without_newline _ _ Hfree).
      apply all_space_append; [apply (all_space_char c Hc)|].
      apply IH; [lia|exact Hrest].
Qed.

Lemma replace_double_newline_all_space (s : string) :
  all_space s -> all_space (replace_double_newline s).
Proof.
  intros (chars & Hchars & ->).
  apply (replace_double_newline_white_space (length chars)); [lia|exact Hchars].
Qed.

Lemma nl_white_space : In nl Str.white_space.
Proof. right. left. reflexivity. Qed.

Lemma all_space_join_nl (texts : list string) :
  Forall all_space texts -> all_space (Str.join nl texts).
Proof.
  unfold Str.join. induction 1 as [|t texts Ht Hts IH]; [apply all_space_empty|].
  destruct texts as [|t' texts]; [exact Ht|].
  change (String.concat nl (t :: t' :: texts)) with (t ++ nl ++ String.concat nl (t' :: texts)).
  apply all_space_append; [exact Ht|]. apply all_space_append; [|exact IH].
  apply all_space_char, nl_white_space.
Qed.

End ResumeParserProperties.

(** X18: one page without text rejects the whole PDF.  When the pages
    before it have text, [extract_resume_text] returns [None] and
    shows the scanned-PDF failure, whatever those pages held and
    without reading the pages after it. *)
Theorem scanned_page_rejects_the_resume
        (f : ResumeParser.File) (texts : list string) (page_text : option string)
        (later : list (result ResumeParser.parser_exn (option string)))
        (shown : list UiEvent) :
  ResumeParser.mime_type f = ResumeParser.pdf_type ->
  ResumeParser.pdf_pages f
  = Ok (ResumeParser.pages_with_text texts ++ [Ok page_text] ++ later)%list ->
  Forall (fun t => falsy t = false) texts ->
  ResumeParser.no_text page_text = true ->
  ResumeParser.extract_resume_text (Some f) shown
  = (Ok None,
     (shown ++ [UiError "PDF text extraction failed: Scanned PDF detected - text extraction failed"])%list).
Proof.
  intros Hty Hpdf Htexts Hpage.
  unfold ResumeParser.extract_resume_text, try_except.
  rewrite Hty, String.eqb_refl.
  unfold ResumeParser.extract_pdf, try_except, bind at 1.
  unfold ResumeParser.library at 1. rewrite Hpdf.
  unfold bind at 1. rewrite (read_pages_with_text _ _ _ _ Htexts).
  cbn [app ResumeParser.read_pages]. unfold bind at 1, ResumeParser.library.
  destruct page_text as [t|]; cbn [ResumeParser.no_text] in Hpage.
  - rewrite Hpage. reflexivity.
  - reflexivity.
Qed.

Lemma scanned_page_rejects_the_resume_witness :
  ResumeParser.extract_resume_text (Some ResumeParser.scanned_resume) []
  = (Ok None,
     [UiError "PDF text extraction failed: Scanned PDF detected - text extraction failed"]).
Proof.
  apply (scanned_page_rejects_the_resume
           ResumeParser.scanned_resume
           ["Jane Doe"] (Some "") [Raise (ResumeParser.OtherException "page 3")] []).
  - reflexivity.
  - reflexivity.
  - repeat constructor.
  - reflexivity.
Defined.

(** X19: [extract_resume_text] never raises, whatever the file is and
    whatever the libraries raise.  It shows nothing when it returns a
    text and one error when it returns [None]; the one [None] that
    comes without an error is that of a file whose type is neither
    PDF nor Word. *)
Theorem extract_resume_text_never_raises
        (uploaded_file : option ResumeParser.File) (shown : list UiEvent) :
  exists (text : option string) (errors : list UiEvent),
    ResumeParser.extract_resume_text uploaded_file shown = (Ok text, (shown ++ errors)%list)
    /\ match text with
       | Some _ => errors = []
       | None =>
           (exists msg, errors = [UiError msg])
           \/ (errors = []
               /\ exists f, uploaded_file = Some f
                            /\ ResumeParser.mime_type f <> ResumeParser.pdf_type
                            /\ ResumeParser.mime_type f <> ResumeParser.docx_type)
       end.
Proof.
  unfold ResumeParser.extract_resume_text, try_except.
  destruct uploaded_file as [f|].
  - destruct (String.eqb (ResumeParser.mime_type f) ResumeParser.pdf_type) eqn:Epdf;
      [|destruct (String.eqb (ResumeParser.mime_type f) ResumeParser.docx_type) eqn:Edocx].
    + destruct (extract_pdf_outcome f shown) as [r [Hr Hout]]. rewrite Hr.
      destruct r as [[[t|]|e] shown']; cbn [fst snd] in Hout.
      * subst shown'. exists (Some t), []. now rewrite app_nil_r.
      * destruct Hout as [msg Hmsg]. subst shown'.
        exists None, [UiError msg]. split; [reflexivity|]. left. now exists msg.
      * subst shown'. cbv beta iota.
        destruct (ResumeParser.is_ValueError e);
          (eexists None, [UiError _]; split; [reflexivity|]; left; eexists; reflexivity).
    + destruct (extract_docx_outcome f shown) as [r [Hr Hout]]. rewrite Hr.
      destruct r as [[[t|]|e] shown']; cbn [fst snd] in Hout.
      * subst shown'. exists (Some t), []. now rewrite app_nil_r.
      * destruct Hout as [msg Hmsg]. subst shown'.
        exists None, [UiError msg]. split; [reflexivity|]. left. now exists msg.
      * subst shown'. cbv beta iota.
        destruct (ResumeParser.is_ValueError e);
          (eexists None, [UiError _]; split; [reflexivity|]; left; eexists; reflexivity).
    + exists None, []. split; [unfold ret; now rewrite app_nil_r|].
      right. split; [reflexivity|]. exists f. split; [reflexivity|].
      apply String.eqb_neq in Epdf, Edocx. now split.
  - eexists None, [UiError _]. split; [reflexivity|]. left. eexists. reflexivity.
Qed.

(** X20: a [ValueError] raised while a Word document is read is not
    caught in the Word branch, which handles [KeyError] only: the
    outer handler reports it as a failed PDF text extraction. *)
Theorem word_document_reported_as_pdf
        (f : ResumeParser.File) (msg : string) (shown : list UiEvent) :
  ResumeParser.mime_type f = ResumeParser.docx_type ->
  ResumeParser.docx_paragraphs f = Raise (ResumeParser.ValueError msg) ->
  ResumeParser.extract_resume_text (Some f) shown
  = (Ok None, (shown ++ [UiError ("PDF text extraction failed: " ++ msg)])%list).
Proof.
  intros Hty Hdocx.
  unfold ResumeParser.extract_resume_text, try_except.
  rewrite Hty.
  change (String.eqb ResumeParser.docx_type ResumeParser.pdf_type) with false.
  rewrite String.eqb_refl. cbv iota.
  unfold ResumeParser.extract_docx, try_except, bind, ResumeParser.library.
  rewrite Hdocx. reflexivity.
Qed.

Lemma word_document_reported_as_pdf_witness :
  ResumeParser.extract_resume_text (Some ResumeParser.not_a_word_file) []
  = (Ok None, [UiError "PDF text extraction failed: file is not a Word file"]).
Proof.
  apply (word_document_reported_as_pdf
           ResumeParser.not_a_word_file
           "file is not a Word file" []); reflexivity.
Defined.

(** X21: a PDF whose every page has a text made of white space only,
    or that has no page at all, is not rejected by the parser:
    [extract_resume_text] returns the empty string, not [None], and
    shows no error. *)
Theorem blank_pages_give_empty_text
        (f : ResumeParser.File) (texts : list string) (shown : list UiEvent) :
  ResumeParser.mime_type f = ResumeParser.pdf_type ->
  ResumeParser.pdf_pages f = Ok (ResumeParser.pages_with_text texts) ->
  Forall (fun t => falsy t = false) texts ->
  Forall all_space texts ->
  ResumeParser.extract_resume_text (Some f) shown = (Ok (Some ""), shown).
Proof.
  intros Hty Hpdf Htexts Hspace.
  unfold ResumeParser.extract_resume_text, try_except.
  rewrite Hty, String.eqb_refl.
  unfold ResumeParser.extract_pdf, try_except, bind at 1.
  unfold ResumeParser.library at 1. rewrite Hpdf.
  unfold bind at 1.
  rewrite <- (app_nil_r (ResumeParser.pages_with_text texts)).
  rewrite (read_pages_with_text _ _ _ _ Htexts).
  cbn [app ResumeParser.read_pages]. unfold ret.
  rewrite strip_all_space; [reflexivity|].
  apply replace_double_newline_all_space, all_space_join_nl, Hspace.
Qed.

Lemma blank_pages_give_empty_text_witness :
  ResumeParser.extract_resume_text (Some ResumeParser.blank_resume) [] = (Ok (Some ""), []).
Proof.
  apply (blank_pages_give_empty_text
           ResumeParser.blank_resume
           [Str.utf8 [226; 128; 131] ++ " "; nl ++ nl] []).
  - reflexivity.
  - reflexivity.
  - repeat constructor.
  - constructor; [|constructor; [|constructor]].
    + exists [Str.utf8 [226; 128; 131]; " "]. split; [|reflexivity].
      repeat (constructor; [cbv; intuition reflexivity|]). constructor.
    + exists [nl; nl]. split; [|reflexivity].
      repeat (constructor; [cbv; intuition reflexivity|]). constructor.
Defined.

Section CheckoutUrl.

Lemma prefix_empty (s : string) : String.prefix "" s = true.
Proof. destruct s; reflexivity. Qed.

Lemma prefix_append_self (sep s : string) : String.prefix sep (sep ++ s) = true.
Proof.
  induction sep as [|c sep IH]; [apply prefix_empty|].
  cbn [append String.prefix]. destruct (ascii_dec c c); [exact IH|congruence].
Qed.

Lemma prefix_append_long (sep a b : string) :
  (String.length sep <= String.length a)%nat ->
  String.prefix sep (a ++ b) = String.prefix sep a.
Proof.
  revert a. induction sep as [|c sep IH]; intros a Hlen;
    [now rewrite !prefix_empty|].
  destruct a as [|c' a]; simpl in Hlen; [lia|].
  cbn [append String.prefix]. destruct (ascii_dec c c'); [|reflexivity].
  apply IH. lia.
Qed.

(** No occurrence of [sep] starts in [p] when [p ++ t] has none and
    [t] is one character short of [sep] at most. *)
Lemma starts_within_none (sep p t u : string) :
  (String.length sep <= S (String.length t))%nat ->
  occurs sep (p ++ t) = false ->
  starts_within sep p (t ++ u) = false.
Proof.
  intros Hlen. induction p as [|c p IH]; intros H; [reflexivity|].
  cbn [starts_within].
  change (String c p ++ t) with (String c (p ++ t)) in H. cbn [occurs] in H.
  apply orb_false_iff in H. destruct H as [H1 H2].
  rewrite (IH H2), orb_false_r.
  rewrite <- append_assoc.
  rewrite prefix_append_long; [exact H1|].
  change (String c p ++ t) with (String c (p ++ t)).
  cbn [String.length]. rewrite append_length. lia.
Qed.

Lemma string_of_list_ascii_snoc (l : list ascii) (c : ascii) (s : string) :
  string_of_list_ascii (l ++ [c]) ++ s = string_of_list_ascii l ++ String c s.
Proof. induction l as [|x l IH]; simpl; [reflexivity|now rewrite IH]. Qed.

(** [split] reads through a part where no separator starts. *)
Lemma split_aux_reads_through (sep p s : string) (cur : list ascii) :
  starts_within sep p s = false ->
  Str.split_aux sep 0 cur (p ++ s)
  = Str.split_aux sep 0 (rev (list_ascii_of_string p) ++ cur)%list s.
Proof.
  revert cur. induction p as [|c p IH]; intros cur H; [reflexivity|].
  cbn [starts_within] in H. apply orb_false_iff in H. destruct H as [H1 H2].
  change (String c p ++ s) with (String c (p ++ s)) in *.
  cbn [Str.split_aux]. rewrite H1, (IH _ H2).
  cbn [list_ascii_of_string rev]. now rewrite <- app_assoc.
Qed.

(** Without a separator there is one piece. *)
Lemma split_aux_one_piece (sep s : string) (cur : list ascii) :
  occurs sep s = false ->
  Str.split_aux sep 0 cur s = [string_of_list_ascii (rev cur) ++ s].
Proof.
  revert cur. induction s as [|c s IH]; intros cur H.
  - cbn [Str.split_aux]. now rewrite append_empty_r.
  - cbn [occurs] in H. apply orb_false_iff in H. destruct H as [H1 H2].
    cbn [Str.split_aux]. rewrite H1, (IH _ H2).
    cbn [rev]. now rewrite string_of_list_ascii_snoc.
Qed.

(** The first piece ends where the fragment starts. *)
Lemma first_piece_before_fragment (sid fragment : string) (cur : list ascii) :
  occurs "#" sid = false ->
  is_fragment fragment = true ->
  Str.first_piece (Str.split_aux "#" 0 cur (sid ++ fragment))
  = string_of_list_ascii (rev cur) ++ sid.
Proof.
  intros Hsid Hfr. revert cur. induction sid as [|c sid IH]; intros cur.
  - cbn [append]. destruct fragment as [|c f].
    + cbn. now rewrite append_empty_r.
    + cbn [is_fragment] in Hfr. cbn [Str.split_aux]. rewrite Hfr.
      cbn. now rewrite append_empty_r.
  - cbn [occurs] in Hsid. apply orb_false_iff in Hsid. destruct Hsid as [H1 H2].
    change (String c sid ++ fragment) with (String c (sid ++ fragment)).
    cbn [Str.split_aux].
    replace (String.prefix "#" (String c (sid ++ fragment)))
      with (String.prefix "#" (String c sid))
      by (cbn [String.prefix]; destruct (ascii_dec "#" c);
          [now rewrite !prefix_empty|reflexivity]).
    rewrite H1, (IH H2). cbn [rev]. now rewrite string_of_list_ascii_snoc.
Qed.

End CheckoutUrl.

(** X22: the session id stored at checkout is the one in the URL.
    For a URL made of a host part, [/pay/], a session id and nothing
    or a fragment after it, where [/pay/] occurs nowhere else and the
    session id has no [#], the expression of lines 135 and 184 gives
    back the session id. *)
Theorem session_id_of_checkout_url (host sid fragment : string) :
  occurs "/pay/" (host ++ "/pay") = false ->
  occurs "/pay/" (sid ++ fragment) = false ->
  occurs "#" sid = false ->
  is_fragment fragment = true ->
  session_id_of_url (host ++ "/pay/" ++ sid ++ fragment) = sid.
Proof.
  intros Hhost Hrest Hsid Hfr.
  unfold session_id_of_url, Str.split.
  rewrite split_aux_reads_through
    by (apply (starts_within_none "/pay/" host "/pay" ("/" ++ sid ++ fragment));
        [simpl; lia|exact Hhost]).
  pose proof (prefix_append_self "/pay/" (sid ++ fragment)) as Hsep.
  change ("/pay/" ++ sid ++ fragment)
    with (String "/" (String "p" (String "a" (String "y" (String "/" (sid ++ fragment))))))
    in *.
  cbn [Str.split_aux String.length Nat.sub]. rewrite Hsep.
  rewrite (split_aux_one_piece _ _ _ Hrest).
  cbn [Str.last_piece List.last rev string_of_list_ascii append].
  rewrite (first_piece_before_fragment _ _ _ Hsid Hfr). reflexivity.
Qed.

Lemma session_id_of_checkout_url_witness :
  session_id_of_url
    ("https://checkout.stripe.com/c" ++ "/pay/" ++ "cs_test_a1B2c3" ++ "#fidkdWxOYHwnPyd1blpxYHZxWjA0")
  = "cs_test_a1B2c3".
Proof.
  apply (session_id_of_checkout_url
           "https://checkout.stripe.com/c" "cs_test_a1B2c3" "#fidkdWxOYHwnPyd1blpxYHZxWjA0");
    reflexivity.
Defined.

(** X23: a run that is not a return from Stripe's page and lacks a
    required secret stops right after the title, with the missing
    names listed in the order of [required_secrets]: the form is not
    handled, the session state is left as it was, gate state
    included, and no service is called. *)
Theorem missing_secret_stops_the_run
        (env : Env) (pp : PaymentProcessor) (i : Inputs) (a : App) :
  q_payment_success i <> Some "true" ->
  missing_secrets i <> [] ->
  main env pp i a
  = (Stopped,
     set_world
       (rendered [UiTitle "AI Cover Letter Generator";
                  UiError ("Missing required secrets: " ++ Str.join ", " (missing_secrets i))]
                 (world a))
       a).
Proof.
  intros Hq Hm. unfold main, main_body, payment_callback.
  assert (Hcb : match q_payment_success i with
                | Some v => String.eqb v "true"
                | None => false
                end = false).
  { destruct (q_payment_success i) as [v|]; [|reflexivity].
    destruct (String.eqb v "true") eqn:E; [|reflexivity].
    apply String.eqb_eq in E. congruence. }
  destruct (q_payment_success i) as [v|]; [rewrite Hcb|];
    unfold check_secrets; fold (missing_secrets i);
    destruct (missing_secrets i) as [|s l]; try congruence;
    run_script; destruct a; reflexivity.
Qed.

Lemma missing_secret_stops_the_run_witness :
  main Scenario.paid_env Scenario.processor
       (mkInputs None None ["OPENAI_API_KEY"; "SUPABASE_URL"] None "" "" true)
       Scenario.paid_app
  = (Stopped,
     set_world
       (rendered [UiTitle "AI Cover Letter Generator";
                  UiError "Missing required secrets: SUPABASE_KEY, STRIPE_SECRET_KEY"]
                 (world Scenario.paid_app))
       Scenario.paid_app).
Proof.
  apply (missing_secret_stops_the_run
           Scenario.paid_env Scenario.processor
           (mkInputs None None ["OPENAI_API_KEY"; "SUPABASE_URL"] None "" "" true)
           Scenario.paid_app).
  - discriminate.
  - discriminate.
Defined.

Section DeadCode.

Variable env : Env.
Variable pp : PaymentProcessor.

Lemma bind_ext {A B} (c : M signal App A) (k k' : A -> M signal App B) (a : App) :
  (forall x a', k x a' = k' x a') -> bind c k a = bind c k' a.
Proof.
  intros H. unfold bind. destruct (c a) as [[x|s] a']; [apply H|reflexivity].
Qed.

(** A run that is not paid for always fails the validation. *)
Lemma validation_errors_unpaid (i : Inputs) : validation_errors i false <> [].
Proof.
  unfold validation_errors. intros H.
  apply app_eq_nil in H. destruct H as [_ H].
  apply app_eq_nil in H. destruct H as [_ H].
  apply app_eq_nil in H. destruct H as [_ H]. discriminate.
Qed.

(** Past the validation, [payment_success] is [True]. *)
Lemma payment_gateway_after_validation {A} (i : Inputs) (k : Script A) (a : App) :
  (validate_inputs i ;; payment_gateway env pp ;; k) a = (validate_inputs i ;; k) a.
Proof.
  unfold validate_inputs, payment_gateway. run_script.
  destruct (payment_success (session_state a)) as [[|]|] eqn:Hs; [| |reflexivity].
  - destruct (validation_errors i true) as [|e l].
    + rewrite Hs. reflexivity.
    + destruct (render_all (map (fun e0 => UiError ("❌ " ++ e0)) (e :: l)) a)
        as [[u|s] a']; reflexivity.
  - pose proof (validation_errors_unpaid i) as Hne.
    destruct (validation_errors i false) as [|e l]; [congruence|].
    destruct (render_all (map (fun e0 => UiError ("❌ " ++ e0)) (e :: l)) a)
      as [[u|s] a']; reflexivity.
Qed.

End DeadCode.

(** X24: lines 176-198 of [main], the block that opens a checkout
    session when [payment_success] is not set, never run: a run that
    gets past the validation has [payment_success] at [True].
    Whatever the inputs, the session state and the services, [main]
    does what it would do without the block. *)
Theorem payment_gateway_never_runs
        (env : Env) (pp : PaymentProcessor) (i : Inputs) (a : App) :
  main_body env pp i a = main_body_without_gateway env pp i a.
Proof.
  unfold main_body, main_body_without_gateway.
  do 4 (apply bind_ext; intros ? ?).
  destruct (submitted i); [|reflexivity].
  do 2 (apply bind_ext; intros ? ?).
  apply payment_gateway_after_validation.
Qed.
